(** * Health-Planner: order entry, duplicate detection, versioned update,
      pharmacist review and export

    A shallow embedding of the TypeScript front end
    (src/frontend/src/utils/validation.ts, components/OrderEntry.tsx,
    components/PharmacistReview.tsx, components/ExportData.tsx,
    services/api.ts) and the properties of its specification.

    JavaScript strings are sequences of UTF-16 code units; they are modelled
    as lists of [N].  Object keys, alert texts and document identifiers, which
    are ASCII in this program, are Rocq strings. *)

From Stdlib Require Import ZArith NArith List Bool Ascii String Lia.
From stdpp Require Import base decidable option list strings pretty gmap.
Import ListNotations.

Local Open Scope N_scope.

(** ** JavaScript strings *)

Definition jsstring := list N.

(** An ASCII literal as a JavaScript string. *)
Fixpoint js (s : string) : jsstring :=
  match s with
  | EmptyString => []
  | String a r => N_of_ascii a :: js r
  end.

(** [a === b] on strings. *)
Fixpoint jsstring_eqb (a b : jsstring) : bool :=
  match a, b with
  | [], [] => true
  | x :: a', y :: b' => (x =? y) && jsstring_eqb a' b'
  | _, _ => false
  end.

(** [o === b] where [o] may be undefined. *)
Definition optstr_eqb (o : option jsstring) (b : jsstring) : bool :=
  match o with
  | Some a => jsstring_eqb a b
  | None => false
  end.

(** WhiteSpace and LineTerminator code points of ECMAScript: what
    [String.prototype.trim] strips and what the regexp class [\s] matches. *)
Definition isWhiteSpace (c : N) : bool :=
  ((9 <=? c) && (c <=? 13)) || (c =? 32) || (c =? 160) || (c =? 5760)
  || ((8192 <=? c) && (c <=? 8202)) || (c =? 8232) || (c =? 8233)
  || (c =? 8239) || (c =? 8287) || (c =? 12288) || (c =? 65279).

Definition isDigit (c : N) : bool := (48 <=? c) && (c <=? 57).

Fixpoint trimStart (s : jsstring) : jsstring :=
  match s with
  | [] => []
  | c :: r => if isWhiteSpace c then trimStart r else s
  end.

Definition trimEnd (s : jsstring) : jsstring := rev (trimStart (rev s)).

Definition trim (s : jsstring) : jsstring := trimEnd (trimStart s).

(** [a.includes(b)]: [b] occurs in [a] as a contiguous run of code units. *)
Fixpoint startsWith (a b : jsstring) : bool :=
  match b, a with
  | [], _ => true
  | _ :: _, [] => false
  | y :: b', x :: a' => (x =? y) && startsWith a' b'
  end.

Fixpoint includes (a b : jsstring) : bool :=
  startsWith a b ||
  match a with
  | [] => false
  | _ :: a' => includes a' b
  end.

(** ** Regular expressions

    The patterns of the program use character classes, concatenation, [?],
    [*], [+] and bounded repetition.  [RegExp.prototype.test] is modelled by
    Brzozowski derivatives; [Lang] is the language a pattern denotes. *)

Inductive clsitem :=
| Range (lo hi : N)      (* a-z, or a single character when lo = hi *)
| ClsSpace               (* \s *)
| ClsDigit               (* \d *)
| ClsAny.                (* every code unit *)

Definition in_item (c : N) (i : clsitem) : bool :=
  match i with
  | Range lo hi => (lo <=? c) && (c <=? hi)
  | ClsSpace => isWhiteSpace c
  | ClsDigit => isDigit c
  | ClsAny => true
  end.

Definition in_class (items : list clsitem) (c : N) : bool :=
  existsb (in_item c) items.

Inductive regex :=
| Void
| Eps
| Cls (items : list clsitem)
| Alt (r1 r2 : regex)
| Seq (r1 r2 : regex)
| Star (r : regex).

Definition Opt (r : regex) : regex := Alt Eps r.
Definition Plus (r : regex) : regex := Seq r (Star r).
Fixpoint Rep (n : nat) (r : regex) : regex :=
  match n with
  | O => Eps
  | S n' => Seq r (Rep n' r)
  end.

Fixpoint nullable (r : regex) : bool :=
  match r with
  | Void => false
  | Eps => true
  | Cls _ => false
  | Alt a b => nullable a || nullable b
  | Seq a b => nullable a && nullable b
  | Star _ => true
  end.

Fixpoint deriv (c : N) (r : regex) : regex :=
  match r with
  | Void => Void
  | Eps => Void
  | Cls items => if in_class items c then Eps else Void
  | Alt a b => Alt (deriv c a) (deriv c b)
  | Seq a b =>
      if nullable a then Alt (Seq (deriv c a) b) (deriv c b)
      else Seq (deriv c a) b
  | Star a => Seq (deriv c a) (Star a)
  end.

Fixpoint matches (r : regex) (s : jsstring) : bool :=
  match s with
  | [] => nullable r
  | c :: s' => matches (deriv c r) s'
  end.

(** [/^r$/.test(s)]: the whole string matches. *)
Definition test_anchored (r : regex) (s : jsstring) : bool := matches r s.

(** [/r/.test(s)]: some substring matches. *)
Definition test_search (r : regex) (s : jsstring) : bool :=
  matches (Seq (Star (Cls [ClsAny])) (Seq r (Star (Cls [ClsAny])))) s.

(** Canonicalize of the [i] flag (no [u] flag) on code units below 128; a
    code unit from 128 up never canonicalizes below 128, so against the
    ASCII-only classes of this program leaving it as it is gives the same
    answer. *)
Definition canonicalize (c : N) : N :=
  if (97 <=? c) && (c <=? 122) then c - 32 else c.

Definition test_anchored_i (r : regex) (s : jsstring) : bool :=
  matches r (map canonicalize s).

Inductive Lang : regex -> jsstring -> Prop :=
| LEps : Lang Eps []
| LCls items c : in_class items c = true -> Lang (Cls items) [c]
| LAltL a b s : Lang a s -> Lang (Alt a b) s
| LAltR a b s : Lang b s -> Lang (Alt a b) s
| LSeq a b s1 s2 : Lang a s1 -> Lang b s2 -> Lang (Seq a b) (s1 ++ s2)
| LStarNil a : Lang (Star a) []
| LStarCons a s1 s2 : Lang a s1 -> Lang (Star a) s2 -> Lang (Star a) (s1 ++ s2).

#[local] Hint Constructors Lang : core.

(** ** validation.ts *)

Definition digitCls : list clsitem := [Range 48 57].
Definition upperCls : list clsitem := [Range 65 90].

(** [/^[0-9]{6}$/] *)
Definition reMRN : regex := Rep 6 (Cls digitCls).
(** [/^[0-9]{10}$/] *)
Definition reNPI : regex := Rep 10 (Cls digitCls).
(** [/^[A-Z][0-9]{2}\.?[0-9A-Z]*$/] *)
Definition reICD10 : regex :=
  Seq (Cls upperCls)
    (Seq (Rep 2 (Cls digitCls))
       (Seq (Opt (Cls [Range 46 46])) (Star (Cls [Range 48 57; Range 65 90])))).
(** [/^[a-zA-ZÀ-ÿ\s'-]+$/]; À is U+00C0 and ÿ is U+00FF. *)
Definition nameCls : list clsitem :=
  [Range 97 122; Range 65 90; Range 192 255; ClsSpace; Range 39 39; Range 45 45].
Definition reName : regex := Plus (Cls nameCls).

(** [!s] on a string: the empty string is falsy. *)
Definition falsy (s : jsstring) : bool :=
  match s with [] => true | _ => false end.

Definition validateMRN (mrn : jsstring) : bool :=
  if falsy mrn then false else test_anchored reMRN (trim mrn).

Definition validateNPI (npi : jsstring) : bool :=
  if falsy npi then false else test_anchored reNPI (trim npi).

Definition validateICD10 (code : jsstring) : bool :=
  if falsy code then false else test_anchored_i reICD10 (trim code).

Definition validateName (name : jsstring) : bool :=
  if falsy name then false
  else
    let trimmed := trim name in
    if (length trimmed =? 0)%nat then false
    else test_anchored reName trimmed && negb (test_search (Cls [ClsDigit]) trimmed).

Definition validateRequiredField (value : jsstring) : bool :=
  negb (falsy value) && (0 <? length (trim value))%nat.

(** ** types/index.ts *)

Record FormData := {
  patientFirstName : jsstring;
  patientLastName : jsstring;
  patientMRN : jsstring;
  primaryDiagnosis : jsstring;
  referringProvider : jsstring;
  providerNPI : jsstring;
  medicationName : jsstring;
  additionalDiagnoses : list jsstring;
  medicationHistory : list jsstring;
  patientRecords : jsstring
}.

(** The string-valued keys of [FormData] that the form validates. *)
Inductive FieldName :=
| FpatientFirstName | FpatientLastName | FpatientMRN | FprimaryDiagnosis
| FreferringProvider | FproviderNPI | FmedicationName | FpatientRecords.

Definition field_key (f : FieldName) : string :=
  match f with
  | FpatientFirstName => "patientFirstName"
  | FpatientLastName => "patientLastName"
  | FpatientMRN => "patientMRN"
  | FprimaryDiagnosis => "primaryDiagnosis"
  | FreferringProvider => "referringProvider"
  | FproviderNPI => "providerNPI"
  | FmedicationName => "medicationName"
  | FpatientRecords => "patientRecords"
  end.

(** [formData[field]] *)
Definition field_value (fd : FormData) (f : FieldName) : jsstring :=
  match f with
  | FpatientFirstName => patientFirstName fd
  | FpatientLastName => patientLastName fd
  | FpatientMRN => patientMRN fd
  | FprimaryDiagnosis => primaryDiagnosis fd
  | FreferringProvider => referringProvider fd
  | FproviderNPI => providerNPI fd
  | FmedicationName => medicationName fd
  | FpatientRecords => patientRecords fd
  end.

(** A Firestore [Timestamp].  [toDate] builds a [Date] from
    [seconds * 1000 + nanoseconds / 1e6], and a [Date] keeps the whole
    milliseconds of its argument, cut toward zero. *)
Record Timestamp := { seconds : Z; nanoseconds : Z }.

Definition toMillis (t : Timestamp) : Z :=
  ((seconds t * 1000000000 + nanoseconds t) ÷ 1000000)%Z.

Inductive FeedbackType := correction | suggestion | approval.

Record PharmacistFeedback := {
  feedbackId : option string;
  fb_timestamp : option Timestamp;
  pharmacistName : jsstring;
  feedbackType : FeedbackType;
  sectionName : jsstring;
  originalText : option jsstring;
  correctedText : option jsstring;
  comment : option jsstring;
  approved : bool
}.

Record CorrectionHistory := {
  ch_timestamp : option Timestamp;
  ch_feedbackId : option string;
  ch_pharmacistName : jsstring;
  ch_sectionName : jsstring;
  change : jsstring;
  before : option jsstring;
  after : option jsstring
}.

Inductive ApprovalStatus := pending | corrections_pending | approved_status.

Record HistoryEntry := {
  h_timestamp : Timestamp;
  h_additionalDiagnoses : list jsstring;
  h_medicationHistory : list jsstring;
  h_patientRecords : jsstring;
  h_carePlan : jsstring
}.

(** An order document as stored.  The key fields are always written by the
    program; every other field is one the code reads defensively ([?.],
    [|| default]) or adds by a later patch, hence optional. *)
Record OrderDoc := {
  o_patientFirstName : jsstring;
  o_patientLastName : jsstring;
  o_patientMRN : jsstring;
  o_primaryDiagnosis : jsstring;
  o_referringProvider : jsstring;
  o_providerNPI : jsstring;
  o_medicationName : jsstring;
  o_additionalDiagnoses : option (list jsstring);
  o_medicationHistory : option (list jsstring);
  o_patientRecords : option jsstring;
  o_carePlan : option jsstring;
  o_timestamp : option Timestamp;
  o_lastUpdated : option Timestamp;
  o_history : option (list HistoryEntry);
  o_approvalStatus : option ApprovalStatus;
  o_pharmacistFeedback : option (list PharmacistFeedback);
  o_correctionHistory : option (list CorrectionHistory)
}.

Record PatientDoc := {
  mrn : jsstring;
  firstName : jsstring;
  lastName : jsstring;
  lastUpdated : Timestamp;
  totalOrders : Z
}.

(** A provider document; all fields optional because [submitOrder] writes
    documents that hold an order count and nothing else. *)
Record ProviderDoc := {
  p_name : option jsstring;
  p_npi : option jsstring;
  p_firstOrderDate : option Timestamp;
  p_orderCount : option Z
}.

Inductive WarningType := Wpatient | Worder | Wprovider.
Inductive Severity := Serror | Swarning.

Record Warning := {
  w_type : WarningType;
  w_message : jsstring;
  w_severity : Severity
}.

Definition is_error (w : Warning) : bool :=
  match w_severity w with Serror => true | Swarning => false end.

(** ** The document store

    Three collections of identified documents.  A query returns the matching
    documents in the order of the list; [addDoc] stores a document under an
    identifier that the store chooses; [updateDoc] patches the document with
    the given identifier and fails when there is none.  The handle [db] is
    taken to be connected and the store to be reachable: reads and [addDoc]
    succeed.

    [updateDoc] validates its data before anything is sent: with the
    settings of [getFirestore(app)] in services/firebase.ts a field that
    holds [undefined], at any depth, makes the call throw.  The caller says
    in [defined] whether the data of its patch is free of such fields.  The
    messages are the fixed part of the texts of the SDK, which go on to name
    the field and the document. *)

Definition DocId := string.

Definition Coll (A : Type) := list (DocId * A).

Record Store := {
  orders : Coll OrderDoc;
  patients : Coll PatientDoc;
  providers : Coll ProviderDoc
}.

Definition query {A} (c : Coll A) (p : A -> bool) : Coll A :=
  List.filter (fun d => p (snd d)) c.

Definition addDoc {A} (c : Coll A) (id : DocId) (d : A) : Coll A :=
  c ++ [(id, d)].

Definition getDoc {A} (c : Coll A) (id : DocId) : option A :=
  snd <$> List.find (fun d => String.eqb (fst d) id) c.

Fixpoint patch {A} (c : Coll A) (id : DocId) (f : A -> A) : Coll A :=
  match c with
  | [] => []
  | (i, d) :: r => if String.eqb i id then (i, f d) :: r else (i, d) :: patch r id f
  end.

(** Outcome of a call that can throw. *)
Inductive result (A : Type) :=
| Ok (a : A)
| Throw (msg : string).
Arguments Ok {A} a.
Arguments Throw {A} msg.

#[global] Instance result_bind : MBind result := fun A B k m =>
  match m with
  | Ok a => k a
  | Throw e => Throw e
  end.

Definition updateDoc {A} (c : Coll A) (id : DocId) (defined : bool) (f : A -> A)
  : result (Coll A) :=
  if defined then
    match getDoc c id with
    | Some _ => Ok (patch c id f)
    | None => Throw "No document to update"
    end
  else
    Throw "Function updateDoc() called with invalid data. Unsupported field value: undefined".

(** Document identifiers are unique within a collection. *)
Definition ids_unique {A} (c : Coll A) : Prop := NoDup (List.map fst c).

(** ** The platform

    What the program takes from the JavaScript runtime and from Firestore and
    this development does not define: Unicode lower-casing (only its action
    on ASCII is fixed here), the rendering of a date in the locale, the local
    time zone, taken as a fixed offset from UTC, and whether a [!=] filter
    returns the documents that lack the filtered field. *)

Definition asciiLower (c : N) : N :=
  if (65 <=? c) && (c <=? 90) then c + 32 else c.

Class Platform := {
  toLowerCase : jsstring -> jsstring;
  toLowerCase_ascii :
    forall s, Forall (fun c => c < 128) s -> toLowerCase s = List.map asciiLower s;
  toLocaleDateString : Z -> jsstring;
  tzOffsetMs : Z;
  neMatchesMissing : bool
}.

(** A platform: Basic Latin and Latin-1 lower-casing, dates rendered as the
    decimal count of days since the epoch, UTC, and a [!=] filter that skips
    documents without the field. *)
Definition latin1Lower (c : N) : N :=
  if (65 <=? c) && (c <=? 90) then c + 32
  else if (192 <=? c) && (c <=? 222) && negb (c =? 215) then c + 32
  else c.

Fixpoint digitsOf (fuel : nat) (n : N) (acc : jsstring) : jsstring :=
  match fuel with
  | O => acc
  | S f =>
      let acc' := (48 + n mod 10) :: acc in
      if n <? 10 then acc' else digitsOf f (n / 10) acc'
  end.

Definition dayString (ms : Z) : jsstring :=
  digitsOf 20 (Z.to_N (ms / 86400000)) [].

Definition latin1Platform : Platform.
Proof.
  refine {| toLowerCase := List.map latin1Lower;
            toLocaleDateString := dayString;
            tzOffsetMs := 0%Z;
            neMatchesMissing := false |}.
  intros s Hs. apply List.map_ext_in. intros c Hc.
  rewrite Forall_forall in Hs. apply list_elem_of_In, Hs in Hc.
  unfold latin1Lower, asciiLower.
  destruct ((65 <=? c) && (c <=? 90)); [reflexivity|].
  replace (192 <=? c) with false by (symmetry; apply N.leb_gt; lia).
  reflexivity.
Defined.

(** ** validation.ts: the batch validator *)

Definition validateAllFields (fd : FormData) : gmap string string :=
  let errors : gmap string string := ∅ in
  let errors :=
    if negb (validateRequiredField (patientFirstName fd)) then
      <["patientFirstName" := "First name is required"]> errors
    else if negb (validateName (patientFirstName fd)) then
      <["patientFirstName" := "Invalid name format"]> errors
    else errors in
  let errors :=
    if negb (validateRequiredField (patientLastName fd)) then
      <["patientLastName" := "Last name is required"]> errors
    else if negb (validateName (patientLastName fd)) then
      <["patientLastName" := "Invalid name format"]> errors
    else errors in
  let errors :=
    if negb (validateRequiredField (patientMRN fd)) then
      <["patientMRN" := "MRN is required"]> errors
    else if negb (validateMRN (patientMRN fd)) then
      <["patientMRN" := "Must be exactly 6 digits"]> errors
    else errors in
  let errors :=
    if negb (validateRequiredField (primaryDiagnosis fd)) then
      <["primaryDiagnosis" := "Primary diagnosis is required"]> errors
    else if negb (validateICD10 (primaryDiagnosis fd)) then
      <["primaryDiagnosis" := "Invalid ICD-10 format"]> errors
    else errors in
  let errors :=
    if negb (validateRequiredField (providerNPI fd)) then
      <["providerNPI" := "Provider NPI is required"]> errors
    else if negb (validateNPI (providerNPI fd)) then
      <["providerNPI" := "Must be exactly 10 digits"]> errors
    else errors in
  let errors :=
    if negb (validateRequiredField (referringProvider fd)) then
      <["referringProvider" := "Referring provider is required"]> errors
    else errors in
  let errors :=
    if negb (validateRequiredField (medicationName fd)) then
      <["medicationName" := "Medication name is required"]> errors
    else errors in
  let errors :=
    if negb (validateRequiredField (patientRecords fd)) then
      <["patientRecords" := "Patient records are required"]> errors
    else errors in
  errors.

(** ** services/api.ts: generateCarePlan *)

(** What the POST to /api/generate-careplan comes back with, as the code
    tells the cases apart: a 2xx reply whose body is an object, with the
    [carePlan] field of the body; a reply with an error status, with the
    [error] field of its body; no reply at all; and any other exception
    raised inside the [try], with its message.  A 2xx reply whose body is
    [null] is of the last kind: reading [carePlan] from it raises a
    TypeError, whose text is the message. *)
Inductive HttpReply :=
| Response (carePlan : option jsstring)
| ErrorResponse (status : Z) (error : option string)
| NoResponse
| SetupError (message : string).

Definition or_else (o : option string) (d : string) : string :=
  match o with
  | Some (String a r) => String a r
  | _ => d
  end.

Definition generateCarePlan (reply : HttpReply) : result jsstring :=
  match reply with
  | Response (Some (c :: p)) => Ok (c :: p)
  | Response _ => Throw "Invalid response format from server"
  | ErrorResponse status errorData =>
      if ((status =? 401) || (status =? 403))%Z then
        Throw "Authentication error. Please check the backend server API key configuration."
      else if (status =? 400)%Z then
        Throw ("Invalid request data: " +:+ or_else errorData "Please check all required fields")
      else
        Throw ("API request failed with status " +:+ pretty status +:+ ": "
               +:+ or_else errorData "Unknown error")
  | NoResponse =>
      Throw "Cannot connect to API server. Make sure the backend server is running."
  | SetupError m => Throw (or_else (Some m) "Unknown error occurred")
  end.

(** ** components/OrderEntry.tsx *)

Record UpdateFields := {
  u_additionalDiagnoses : jsstring;
  u_medicationHistory : jsstring;
  u_patientRecords : jsstring
}.

Definition emptyUpdateFields : UpdateFields :=
  {| u_additionalDiagnoses := []; u_medicationHistory := []; u_patientRecords := [] |}.

Inductive Alert :=
| AlertCorrectErrors
| AlertSubmissionBlocked (messages : list jsstring)
| AlertOrderSaved
| AlertGenerateError (message : string)
| AlertRecordUpdated
| AlertUpdateError (message : string)
| AlertSelectOrderAndName
| AlertAddFeedback
| AlertFeedbackSubmitted
| AlertFeedbackError (message : string)
| AlertNoImprovedPlan
| AlertPlanAccepted
| AlertAcceptError (message : string).

(** The component state that the handlers read and write; [alerts] logs the
    dialogs shown, latest last. *)
Record UI := {
  formData : FormData;
  warnings : list Warning;
  loading : bool;
  carePlan : option jsstring;
  errors : gmap string string;
  duplicateFound : option (DocId * OrderDoc);
  showDuplicateDialog : bool;
  showUpdateForm : bool;
  updateFields : UpdateFields;
  alerts : list Alert
}.

Definition setWarnings (ws : list Warning) (ui : UI) : UI :=
  {| formData := formData ui; warnings := ws; loading := loading ui;
     carePlan := carePlan ui; errors := errors ui;
     duplicateFound := duplicateFound ui;
     showDuplicateDialog := showDuplicateDialog ui;
     showUpdateForm := showUpdateForm ui; updateFields := updateFields ui;
     alerts := alerts ui |}.

Definition setLoading (b : bool) (ui : UI) : UI :=
  {| formData := formData ui; warnings := warnings ui; loading := b;
     carePlan := carePlan ui; errors := errors ui;
     duplicateFound := duplicateFound ui;
     showDuplicateDialog := showDuplicateDialog ui;
     showUpdateForm := showUpdateForm ui; updateFields := updateFields ui;
     alerts := alerts ui |}.

Definition setCarePlan (p : option jsstring) (ui : UI) : UI :=
  {| formData := formData ui; warnings := warnings ui; loading := loading ui;
     carePlan := p; errors := errors ui;
     duplicateFound := duplicateFound ui;
     showDuplicateDialog := showDuplicateDialog ui;
     showUpdateForm := showUpdateForm ui; updateFields := updateFields ui;
     alerts := alerts ui |}.

Definition setErrors (e : gmap string string) (ui : UI) : UI :=
  {| formData := formData ui; warnings := warnings ui; loading := loading ui;
     carePlan := carePlan ui; errors := e;
     duplicateFound := duplicateFound ui;
     showDuplicateDialog := showDuplicateDialog ui;
     showUpdateForm := showUpdateForm ui; updateFields := updateFields ui;
     alerts := alerts ui |}.

Definition setDuplicateFound (d : option (DocId * OrderDoc)) (ui : UI) : UI :=
  {| formData := formData ui; warnings := warnings ui; loading := loading ui;
     carePlan := carePlan ui; errors := errors ui;
     duplicateFound := d;
     showDuplicateDialog := showDuplicateDialog ui;
     showUpdateForm := showUpdateForm ui; updateFields := updateFields ui;
     alerts := alerts ui |}.

Definition setShowDuplicateDialog (b : bool) (ui : UI) : UI :=
  {| formData := formData ui; warnings := warnings ui; loading := loading ui;
     carePlan := carePlan ui; errors := errors ui;
     duplicateFound := duplicateFound ui;
     showDuplicateDialog := b;
     showUpdateForm := showUpdateForm ui; updateFields := updateFields ui;
     alerts := alerts ui |}.

Definition setShowUpdateForm (b : bool) (ui : UI) : UI :=
  {| formData := formData ui; warnings := warnings ui; loading := loading ui;
     carePlan := carePlan ui; errors := errors ui;
     duplicateFound := duplicateFound ui;
     showDuplicateDialog := showDuplicateDialog ui;
     showUpdateForm := b; updateFields := updateFields ui;
     alerts := alerts ui |}.

Definition setUpdateFields (u : UpdateFields) (ui : UI) : UI :=
  {| formData := formData ui; warnings := warnings ui; loading := loading ui;
     carePlan := carePlan ui; errors := errors ui;
     duplicateFound := duplicateFound ui;
     showDuplicateDialog := showDuplicateDialog ui;
     showUpdateForm := showUpdateForm ui; updateFields := u;
     alerts := alerts ui |}.

Definition alert (a : Alert) (ui : UI) : UI :=
  {| formData := formData ui; warnings := warnings ui; loading := loading ui;
     carePlan := carePlan ui; errors := errors ui;
     duplicateFound := duplicateFound ui;
     showDuplicateDialog := showDuplicateDialog ui;
     showUpdateForm := showUpdateForm ui; updateFields := updateFields ui;
     alerts := alerts ui ++ [a] |}.

Section OrderEntry.
Context `{Platform}.

Definition mkWarning (t : WarningType) (sev : Severity) (m : jsstring) : Warning :=
  {| w_type := t; w_message := m; w_severity := sev |}.

Definition msgMrnMismatch : jsstring :=
  js "MRN MISMATCH: This MRN is already registered to a different patient. Please verify the MRN is correct for this patient.".
Definition msgNameMismatch : jsstring :=
  js "PATIENT NAME MISMATCH: This patient name is already registered with a different MRN. Please verify the patient information is correct.".
Definition msgDuplicate (dateStr : jsstring) : jsstring :=
  js "POTENTIAL DUPLICATE: A similar order exists from " ++ dateStr
  ++ js ". You'll be prompted to update or create new when submitting.".
Definition msgNpiMismatch : jsstring :=
  js "NPI MISMATCH: This provider name is already registered with a different NPI. Please verify the NPI is correct for this provider.".
Definition msgProviderMismatch : jsstring :=
  js "PROVIDER NAME MISMATCH: This NPI is already registered to a different provider. Please verify the provider name is correct for this NPI.".

Definition truthy (s : jsstring) : bool := negb (falsy s).

(** [data.primaryDiagnosis === formData.primaryDiagnosis &&
     data.providerNPI === formData.providerNPI] *)
Definition sameDiagnosisAndNPI (fd : FormData) (d : DocId * OrderDoc) : bool :=
  jsstring_eqb (o_primaryDiagnosis (snd d)) (primaryDiagnosis fd)
  && jsstring_eqb (o_providerNPI (snd d)) (providerNPI fd).

(** [where('patientMRN','==',mrn), where('medicationName','==',med)] *)
Definition orderQuery (st : Store) (fd : FormData) : Coll OrderDoc :=
  query (orders st) (fun o =>
    jsstring_eqb (o_patientMRN o) (patientMRN fd)
    && jsstring_eqb (o_medicationName o) (medicationName fd)).

Definition dateStrOf (o : OrderDoc) : jsstring :=
  match o_timestamp o with
  | Some t => toLocaleDateString (toMillis t)
  | None => js "Unknown date"
  end.

(** Lines 47-85: the two patient checks. *)
Definition patientChecks (st : Store) (fd : FormData) : list Warning :=
  if truthy (patientMRN fd) && (length (patientMRN fd) =? 6)%nat
     && truthy (patientFirstName fd) && truthy (patientLastName fd) then
    let mrnSnapshot :=
      query (orders st) (fun o => jsstring_eqb (o_patientMRN o) (patientMRN fd)) in
    let w1 :=
      match mrnSnapshot with
      | [] => []
      | (_, existingOrder) :: _ =>
          if negb (jsstring_eqb (toLowerCase (o_patientFirstName existingOrder))
                                (toLowerCase (patientFirstName fd)))
             || negb (jsstring_eqb (toLowerCase (o_patientLastName existingOrder))
                                   (toLowerCase (patientLastName fd)))
          then [mkWarning Wpatient Serror msgMrnMismatch]
          else []
      end in
    let nameSnapshot :=
      query (orders st) (fun o =>
        jsstring_eqb (o_patientFirstName o) (patientFirstName fd)
        && jsstring_eqb (o_patientLastName o) (patientLastName fd)) in
    let w2 :=
      match nameSnapshot with
      | [] => []
      | (_, existingOrder) :: _ =>
          if negb (jsstring_eqb (o_patientMRN existingOrder) (patientMRN fd))
          then [mkWarning Wpatient Serror msgNameMismatch]
          else []
      end in
    w1 ++ w2
  else [].

(** Lines 87-115: the exact-duplicate check. *)
Definition orderCheck (st : Store) (fd : FormData) : list Warning :=
  if truthy (patientMRN fd) && truthy (medicationName fd)
     && truthy (primaryDiagnosis fd) && truthy (providerNPI fd)
     && (length (patientMRN fd) =? 6)%nat && (length (providerNPI fd) =? 10)%nat then
    match List.find (sameDiagnosisAndNPI fd) (orderQuery st fd) with
    | Some exactMatch =>
        [mkWarning Worder Swarning (msgDuplicate (dateStrOf (snd exactMatch)))]
    | None => []
    end
  else [].

(** Lines 117-145: the two provider checks.  Lower-casing the name of a
    document that has none throws a TypeError. *)
Definition providerChecks (st : Store) (fd : FormData) : result (list Warning) :=
  if truthy (referringProvider fd) && truthy (providerNPI fd)
     && (length (providerNPI fd) =? 10)%nat then
    let providerSnapshot :=
      query (providers st) (fun p =>
        optstr_eqb (p_name p) (referringProvider fd)) in
    let w1 :=
      match providerSnapshot with
      | [] => []
      | (_, existing) :: _ =>
          if negb (optstr_eqb (p_npi existing) (providerNPI fd))
          then [mkWarning Wprovider Serror msgNpiMismatch]
          else []
      end in
    let npiSnapshot :=
      query (providers st) (fun p => optstr_eqb (p_npi p) (providerNPI fd)) in
    match npiSnapshot with
    | [] => Ok w1
    | (_, existing) :: _ =>
        match p_name existing with
        | None => Throw "TypeError: Cannot read properties of undefined (reading 'toLowerCase')"
        | Some existingName =>
            if negb (jsstring_eqb (toLowerCase existingName)
                                  (toLowerCase (referringProvider fd)))
            then Ok (w1 ++ [mkWarning Wprovider Serror msgProviderMismatch])
            else Ok w1
        end
    end
  else Ok [].

(** The warnings that [checkDuplicates] computes, in the order pushed. *)
Definition computeWarnings (st : Store) (fd : FormData) : result (list Warning) :=
  let newWarnings := patientChecks st fd ++ orderCheck st fd in
  pw ← providerChecks st fd;
  Ok (newWarnings ++ pw).

(** [checkDuplicates]: [setWarnings] is the last statement of the [try]; an
    exception leaves the warnings as they were. *)
Definition checkDuplicates (st : Store) (ui : UI) : UI :=
  match computeWarnings st (formData ui) with
  | Ok newWarnings => setWarnings newWarnings ui
  | Throw _ => ui
  end.

Definition nameFieldCls : list clsitem :=
  [Range 65 90; Range 97 122; ClsSpace; Range 39 39; Range 45 45].

(** [validateField]; the empty string is no error. *)
Definition validateField (name : string) (value : jsstring) : string :=
  if falsy (trim value) then "This field is required"
  else if (String.eqb name "patientFirstName" || String.eqb name "patientLastName")
          && negb (test_anchored (Plus (Cls nameFieldCls)) value) then
    "Name must contain only letters, spaces, hyphens, or apostrophes"
  else if String.eqb name "patientMRN" && negb (test_anchored reMRN value) then
    "Must be exactly 6 digits"
  else if String.eqb name "primaryDiagnosis" && negb (test_anchored reICD10 value) then
    "Invalid ICD-10 format"
  else if String.eqb name "providerNPI" && negb (test_anchored reNPI value) then
    "Must be exactly 10 digits"
  else EmptyString.

Definition requiredFields : list FieldName :=
  [FpatientFirstName; FpatientLastName; FpatientMRN; FprimaryDiagnosis;
   FreferringProvider; FproviderNPI; FmedicationName; FpatientRecords].

(** The [forEach] of [handleSubmit] that fills [newErrors]. *)
Definition collectErrors (fd : FormData) : gmap string string :=
  fold_left (fun (newErrors : gmap string string) field =>
    let error := validateField (field_key field) (field_value fd field) in
    match error with
    | EmptyString => newErrors
    | _ => <[field_key field := error]> newErrors
    end) requiredFields ∅.

Definition checkForExactDuplicate (st : Store) (fd : FormData)
  : option (DocId * OrderDoc) :=
  List.find (sameDiagnosisAndNPI fd) (orderQuery st fd).

(** What one run of a handler gets from outside: the reply of the backend
    to a care-plan request, the two clocks, and the identifiers the store
    gives to added documents. *)
Record Env := {
  backend : FormData -> HttpReply;
  serverTimestamp : Timestamp;
  clientNow : Timestamp;
  newOrderId : DocId;
  newPatientId : DocId;
  newProviderId : DocId
}.

Definition setOrders (c : Coll OrderDoc) (st : Store) : Store :=
  {| orders := c; patients := patients st; providers := providers st |}.
Definition setPatients (c : Coll PatientDoc) (st : Store) : Store :=
  {| orders := orders st; patients := c; providers := providers st |}.
Definition setProviders (c : Coll ProviderDoc) (st : Store) : Store :=
  {| orders := orders st; patients := patients st; providers := c |}.

(** The document that [submitOrder] adds to the orders collection:
    [{...formData, carePlan, timestamp: serverTimestamp(), history: []}]. *)
Definition newOrderDoc (env : Env) (fd : FormData) (generatedCarePlan : jsstring)
  : OrderDoc :=
  {| o_patientFirstName := patientFirstName fd;
     o_patientLastName := patientLastName fd;
     o_patientMRN := patientMRN fd;
     o_primaryDiagnosis := primaryDiagnosis fd;
     o_referringProvider := referringProvider fd;
     o_providerNPI := providerNPI fd;
     o_medicationName := medicationName fd;
     o_additionalDiagnoses := Some (additionalDiagnoses fd);
     o_medicationHistory := Some (medicationHistory fd);
     o_patientRecords := Some (patientRecords fd);
     o_carePlan := Some generatedCarePlan;
     o_timestamp := Some (serverTimestamp env);
     o_lastUpdated := None;
     o_history := Some [];
     o_approvalStatus := None;
     o_pharmacistFeedback := None;
     o_correctionHistory := None |}.

(** [updatePatientMaster]; its own [try]/[catch] swallows a failed write. *)
Definition updatePatientMaster (env : Env) (fd : FormData) (mrnArg : jsstring)
  (st : Store) : Store :=
  let patientSnapshot := query (patients st) (fun p => jsstring_eqb (mrn p) mrnArg) in
  match patientSnapshot with
  | [] =>
      setPatients
        (addDoc (patients st) (newPatientId env)
           {| mrn := patientMRN fd; firstName := patientFirstName fd;
              lastName := patientLastName fd;
              lastUpdated := serverTimestamp env; totalOrders := 1 |}) st
  | (patientDocId, _) :: _ =>
      match updateDoc (patients st) patientDocId true (fun p =>
              {| mrn := mrn p; firstName := firstName p; lastName := lastName p;
                 lastUpdated := serverTimestamp env;
                 totalOrders := (totalOrders p + 1)%Z |}) with
      | Ok c => setPatients c st
      | Throw _ => st
      end
  end.

(** Lines 336-351 of [submitOrder]: save or update the provider.  Both
    branches call [addDoc]; in the second, [increment(1)] on a field of a
    document that does not exist yet stores 1. *)
Definition saveProvider (env : Env) (fd : FormData) (st : Store) : Store :=
  let providerSnapshot :=
    query (providers st) (fun p => optstr_eqb (p_npi p) (providerNPI fd)) in
  match providerSnapshot with
  | [] =>
      setProviders
        (addDoc (providers st) (newProviderId env)
           {| p_name := Some (referringProvider fd);
              p_npi := Some (providerNPI fd);
              p_firstOrderDate := Some (serverTimestamp env);
              p_orderCount := Some 1%Z |}) st
  | _providerDoc :: _ =>
      setProviders
        (addDoc (providers st) (newProviderId env)
           {| p_name := None; p_npi := None; p_firstOrderDate := None;
              p_orderCount := Some 1%Z |}) st
  end.

Definition submitOrder (env : Env) (s : Store * UI) : Store * UI :=
  let '(st, ui) := s in
  let ui := setLoading true ui in
  let fd := formData ui in
  match generateCarePlan (backend env fd) with
  | Ok generatedCarePlan =>
      let ui := setCarePlan (Some generatedCarePlan) ui in
      let st := setOrders (addDoc (orders st) (newOrderId env)
                             (newOrderDoc env fd generatedCarePlan)) st in
      let st := updatePatientMaster env fd (patientMRN fd) st in
      let st := saveProvider env fd st in
      (st, setLoading false (alert AlertOrderSaved ui))
  | Throw message =>
      (st, setLoading false
             (alert (AlertGenerateError ("Error generating care plan: " +:+ message)) ui))
  end.

Definition handleSubmit (env : Env) (s : Store * UI) : Store * UI :=
  let '(st, ui) := s in
  let newErrors := collectErrors (formData ui) in
  if negb (bool_decide (newErrors = ∅)) then
    (st, alert AlertCorrectErrors (setErrors newErrors ui))
  else
    let blockingErrors := List.filter is_error (warnings ui) in
    if (0 <? length blockingErrors)%nat then
      (st, alert (AlertSubmissionBlocked (List.map w_message blockingErrors)) ui)
    else
      match checkForExactDuplicate st (formData ui) with
      | Some duplicateCheck =>
          (st, setShowDuplicateDialog true (setDuplicateFound (Some duplicateCheck) ui))
      | None => submitOrder env (st, ui)
      end.

(** [s.split(',')] *)
Fixpoint splitOn (sep : N) (s : jsstring) : list jsstring :=
  match s with
  | [] => [[]]
  | c :: r =>
      if c =? sep then [] :: splitOn sep r
      else match splitOn sep r with
           | [] => [[c]]
           | w :: ws => (c :: w) :: ws
           end
  end.

(** [.split(',').map(item => item.trim()).filter(item => item)] *)
Definition commaList (s : jsstring) : list jsstring :=
  List.filter truthy (List.map trim (splitOn 44 s)).

Definition joinComma (l : list jsstring) : jsstring :=
  match l with
  | [] => []
  | x :: r => x ++ List.concat (List.map (fun y => js ", " ++ y) r)
  end.

Definition handleUpdateExisting (s : Store * UI) : Store * UI :=
  let '(st, ui) := s in
  match duplicateFound ui with
  | None => (st, ui)
  | Some (_, existingData) =>
      let ui := setShowDuplicateDialog false (setShowUpdateForm true ui) in
      (st, setUpdateFields
             {| u_additionalDiagnoses :=
                  joinComma (default [] (o_additionalDiagnoses existingData));
                u_medicationHistory :=
                  joinComma (default [] (o_medicationHistory existingData));
                u_patientRecords := default [] (o_patientRecords existingData) |} ui)
  end.

Definition handleCancelUpdate (s : Store * UI) : Store * UI :=
  let '(st, ui) := s in
  (st, setUpdateFields emptyUpdateFields
         (setDuplicateFound None
            (setShowUpdateForm false (setShowDuplicateDialog false ui)))).

(** The snapshot of the values held in [duplicateFound.data]. *)
Definition historyEntryOf (env : Env) (existingData : OrderDoc) : HistoryEntry :=
  {| h_timestamp := clientNow env;
     h_additionalDiagnoses := default [] (o_additionalDiagnoses existingData);
     h_medicationHistory := default [] (o_medicationHistory existingData);
     h_patientRecords := default [] (o_patientRecords existingData);
     h_carePlan := default [] (o_carePlan existingData) |}.

(** The patch that [handleSubmitUpdate] sends to [updateDoc]. *)
Definition updatePatch (env : Env) (existingData : OrderDoc) (uf : UpdateFields)
  (newCarePlan : jsstring) (d : OrderDoc) : OrderDoc :=
  {| o_patientFirstName := o_patientFirstName d;
     o_patientLastName := o_patientLastName d;
     o_patientMRN := o_patientMRN d;
     o_primaryDiagnosis := o_primaryDiagnosis d;
     o_referringProvider := o_referringProvider d;
     o_providerNPI := o_providerNPI d;
     o_medicationName := o_medicationName d;
     o_additionalDiagnoses := Some (commaList (u_additionalDiagnoses uf));
     o_medicationHistory := Some (commaList (u_medicationHistory uf));
     o_patientRecords := Some (u_patientRecords uf);
     o_carePlan := Some newCarePlan;
     o_timestamp := o_timestamp d;
     o_lastUpdated := Some (serverTimestamp env);
     o_history :=
       Some (default [] (o_history existingData) ++ [historyEntryOf env existingData]);
     o_approvalStatus := o_approvalStatus d;
     o_pharmacistFeedback := o_pharmacistFeedback d;
     o_correctionHistory := o_correctionHistory d |}.

Definition updatedFormData (fd : FormData) (uf : UpdateFields) : FormData :=
  {| patientFirstName := patientFirstName fd;
     patientLastName := patientLastName fd;
     patientMRN := patientMRN fd;
     primaryDiagnosis := primaryDiagnosis fd;
     referringProvider := referringProvider fd;
     providerNPI := providerNPI fd;
     medicationName := medicationName fd;
     additionalDiagnoses := commaList (u_additionalDiagnoses uf);
     medicationHistory := commaList (u_medicationHistory uf);
     patientRecords := u_patientRecords uf |}.

Definition handleSubmitUpdate (env : Env) (s : Store * UI) : Store * UI :=
  let '(st, ui) := s in
  match duplicateFound ui with
  | None => (st, ui)
  | Some (dupId, existingData) =>
      let ui := setLoading true ui in
      let uf := updateFields ui in
      let failed message :=
        setLoading false
          (alert (AlertUpdateError ("Error updating record: " +:+ message)) ui) in
      match generateCarePlan (backend env (updatedFormData (formData ui) uf)) with
      | Throw message => (st, failed message)
      | Ok newCarePlan =>
          let ui := setCarePlan (Some newCarePlan) ui in
          match updateDoc (orders st) dupId true
                  (updatePatch env existingData uf newCarePlan) with
          | Throw message =>
              (st, setLoading false
                     (alert (AlertUpdateError ("Error updating record: " +:+ message)) ui))
          | Ok orders' =>
              let st := setOrders orders' st in
              let st :=
                updatePatientMaster env (formData ui) (patientMRN (formData ui)) st in
              (st, setLoading false
                     (setUpdateFields emptyUpdateFields
                        (setDuplicateFound None
                           (setShowUpdateForm false (alert AlertRecordUpdated ui)))))
          end
      end
  end.

End OrderEntry.

(** ** components/PharmacistReview.tsx *)

Section PharmacistReview.
Context `{Platform}.

(** An [Order] held by the component: a stored document with its id. *)
Definition Order : Type := option DocId * OrderDoc.

Record Review := {
  r_orders : list Order;
  selectedOrder : option Order;
  r_loading : bool;
  feedback : list PharmacistFeedback;
  r_pharmacistName : jsstring;
  improvedCarePlan : option jsstring;
  showImprovedPlan : bool;
  r_alerts : list Alert
}.

(** [where('approvalStatus', '!=', 'approved')] *)
Definition notApproved (o : OrderDoc) : bool :=
  match o_approvalStatus o with
  | Some approved_status => false
  | Some _ => true
  | None => neMatchesMissing
  end.

Definition pendingQuery (st : Store) : list Order :=
  List.map (fun d => (Some (fst d), snd d)) (query (orders st) notApproved).

Definition fetchPendingOrders (st : Store) (rv : Review) : Review :=
  {| r_orders := pendingQuery st; selectedOrder := selectedOrder rv;
     r_loading := false; feedback := feedback rv;
     r_pharmacistName := r_pharmacistName rv;
     improvedCarePlan := improvedCarePlan rv;
     showImprovedPlan := showImprovedPlan rv; r_alerts := r_alerts rv |}.

Definition r_alert (a : Alert) (rv : Review) : Review :=
  {| r_orders := r_orders rv; selectedOrder := selectedOrder rv;
     r_loading := r_loading rv; feedback := feedback rv;
     r_pharmacistName := r_pharmacistName rv;
     improvedCarePlan := improvedCarePlan rv;
     showImprovedPlan := showImprovedPlan rv; r_alerts := r_alerts rv ++ [a] |}.

Definition r_setLoading (b : bool) (rv : Review) : Review :=
  {| r_orders := r_orders rv; selectedOrder := selectedOrder rv;
     r_loading := b; feedback := feedback rv;
     r_pharmacistName := r_pharmacistName rv;
     improvedCarePlan := improvedCarePlan rv;
     showImprovedPlan := showImprovedPlan rv; r_alerts := r_alerts rv |}.

(** The identifier of the selected order, when there is an order and its id
    is a non-empty string. *)
Definition selectedId (rv : Review) : option DocId :=
  match selectedOrder rv with
  | Some (Some (String a r), _) => Some (String a r)
  | _ => None
  end.

Definition truthyOpt (o : option jsstring) : bool :=
  match o with
  | Some (_ :: _) => true
  | _ => false
  end.

Definition feedbackTypeName (t : FeedbackType) : jsstring :=
  match t with
  | correction => js "correction"
  | suggestion => js "suggestion"
  | approval => js "approval"
  end.

Definition changeOf (f : PharmacistFeedback) : jsstring :=
  if truthyOpt (correctedText f) then
    js "Updated " ++ sectionName f ++ js ": "
    ++ (if truthyOpt (comment f) then default [] (comment f) else js "Manual correction")
  else if truthyOpt (comment f) then default [] (comment f)
  else feedbackTypeName (feedbackType f) ++ js " on " ++ sectionName f.

Definition correctionOf (f : PharmacistFeedback) : CorrectionHistory :=
  {| ch_timestamp := fb_timestamp f;
     ch_feedbackId := feedbackId f;
     ch_pharmacistName := pharmacistName f;
     ch_sectionName := sectionName f;
     change := changeOf f;
     before := originalText f;
     after := correctedText f |}.

(** No key of the item holds [undefined].  The items of the review state are
    built by [handleAddFeedback], which writes every key, so a field without
    a value is a key that holds [undefined]; [correctionOf] copies four of
    the five into the correction entry. *)
Definition isDefined {A} (o : option A) : bool :=
  match o with
  | Some _ => true
  | None => false
  end.

Definition definedItem (f : PharmacistFeedback) : bool :=
  isDefined (feedbackId f) && isDefined (fb_timestamp f)
  && isDefined (originalText f) && isDefined (correctedText f)
  && isDefined (comment f).

(** [const approvalStatus = allApproved ? 'approved' : 'corrections_pending'] *)
Definition deriveStatus (fb : list PharmacistFeedback) : ApprovalStatus :=
  let allApproved := forallb approved fb in
  if allApproved then approved_status else corrections_pending.

Definition feedbackPatch (ts : Timestamp) (sel : OrderDoc)
  (fb : list PharmacistFeedback) (d : OrderDoc) : OrderDoc :=
  {| o_patientFirstName := o_patientFirstName d;
     o_patientLastName := o_patientLastName d;
     o_patientMRN := o_patientMRN d;
     o_primaryDiagnosis := o_primaryDiagnosis d;
     o_referringProvider := o_referringProvider d;
     o_providerNPI := o_providerNPI d;
     o_medicationName := o_medicationName d;
     o_additionalDiagnoses := o_additionalDiagnoses d;
     o_medicationHistory := o_medicationHistory d;
     o_patientRecords := o_patientRecords d;
     o_carePlan := o_carePlan d;
     o_timestamp := o_timestamp d;
     o_lastUpdated := Some ts;
     o_history := o_history d;
     o_approvalStatus := Some (deriveStatus fb);
     o_pharmacistFeedback := Some fb;
     o_correctionHistory :=
       Some (default [] (o_correctionHistory sel) ++ List.map correctionOf fb) |}.

Definition clearedReview (st : Store) (rv : Review) (a : Alert) : Review :=
  {| r_orders := pendingQuery st; selectedOrder := None; r_loading := false;
     feedback := []; r_pharmacistName := [];
     improvedCarePlan := improvedCarePlan rv;
     showImprovedPlan := showImprovedPlan rv; r_alerts := r_alerts rv ++ [a] |}.

Definition handleSubmitFeedback (ts : Timestamp) (s : Store * Review) : Store * Review :=
  let '(st, rv) := s in
  match selectedId rv, selectedOrder rv with
  | Some id, Some (_, sel) =>
      if falsy (r_pharmacistName rv) then (st, r_alert AlertSelectOrderAndName rv)
      else if (length (feedback rv) =? 0)%nat then (st, r_alert AlertAddFeedback rv)
      else
        match updateDoc (orders st) id (forallb definedItem (feedback rv))
                (feedbackPatch ts sel (feedback rv)) with
        | Ok orders' =>
            let st := setOrders orders' st in
            (st, clearedReview st rv AlertFeedbackSubmitted)
        | Throw message =>
            (st, r_setLoading false
                   (r_alert (AlertFeedbackError ("Error submitting feedback: " +:+ message)) rv))
        end
  | _, _ => (st, r_alert AlertSelectOrderAndName rv)
  end.

Definition acceptPatch (ts : Timestamp) (plan : jsstring)
  (fb : list PharmacistFeedback) (d : OrderDoc) : OrderDoc :=
  {| o_patientFirstName := o_patientFirstName d;
     o_patientLastName := o_patientLastName d;
     o_patientMRN := o_patientMRN d;
     o_primaryDiagnosis := o_primaryDiagnosis d;
     o_referringProvider := o_referringProvider d;
     o_providerNPI := o_providerNPI d;
     o_medicationName := o_medicationName d;
     o_additionalDiagnoses := o_additionalDiagnoses d;
     o_medicationHistory := o_medicationHistory d;
     o_patientRecords := o_patientRecords d;
     o_carePlan := Some plan;
     o_timestamp := o_timestamp d;
     o_lastUpdated := Some ts;
     o_history := o_history d;
     o_approvalStatus := Some approved_status;
     o_pharmacistFeedback := Some fb;
     o_correctionHistory := o_correctionHistory d |}.

Definition handleAcceptImprovedPlan (ts : Timestamp) (s : Store * Review)
  : Store * Review :=
  let '(st, rv) := s in
  match selectedId rv, improvedCarePlan rv with
  | Some id, Some (c :: p) =>
      match updateDoc (orders st) id (forallb definedItem (feedback rv))
              (acceptPatch ts (c :: p) (feedback rv)) with
      | Ok orders' =>
          let st := setOrders orders' st in
          let rv' := clearedReview st rv AlertPlanAccepted in
          (st, {| r_orders := r_orders rv'; selectedOrder := None; r_loading := false;
                  feedback := []; r_pharmacistName := [];
                  improvedCarePlan := None; showImprovedPlan := false;
                  r_alerts := r_alerts rv' |})
      | Throw message =>
          (st, r_setLoading false (r_alert (AlertAcceptError ("Error: " +:+ message)) rv))
      end
  | _, _ => (st, r_alert AlertNoImprovedPlan rv)
  end.

End PharmacistReview.

(** ** components/ExportData.tsx *)

Section ExportData.
Context `{Platform}.

(** The value of a date input: [None] when empty, else the calendar day it
    names, counted in days from 1970-01-01. *)
Definition DateInput := option Z.

Record ExportForm := {
  startDate : DateInput;
  endDate : DateInput;
  medFilter : jsstring
}.

Definition msPerDay : Z := 86400000.

(** [new Date(day + 'T00:00:00')]: midnight of that day, local time. *)
Definition localMidnight (day : Z) : Z := (day * msPerDay - tzOffsetMs)%Z.

(** [new Date(day + 'T23:59:59')]: 23:59:59.000 of that day, local time. *)
Definition localLastSecond (day : Z) : Z := (localMidnight day + 86399000)%Z.

(** [new Date(order.timestamp)] for the ISO string of the stored timestamp;
    [None] is the invalid date of an order without one. *)
Definition orderDate (o : OrderDoc) : option Z := toMillis <$> o_timestamp o.

(** [orderDate >= startDateTime]; a comparison with an invalid date is false. *)
Definition onOrAfter (o : OrderDoc) (t : Z) : bool :=
  match orderDate o with
  | Some d => (t <=? d)%Z
  | None => false
  end.

Definition onOrBefore (o : OrderDoc) (t : Z) : bool :=
  match orderDate o with
  | Some d => (d <=? t)%Z
  | None => false
  end.

Definition byStart (ex : ExportForm) (l : Coll OrderDoc) : Coll OrderDoc :=
  match startDate ex with
  | Some day => List.filter (fun o => onOrAfter (snd o) (localMidnight day)) l
  | None => l
  end.

Definition byEnd (ex : ExportForm) (l : Coll OrderDoc) : Coll OrderDoc :=
  match endDate ex with
  | Some day => List.filter (fun o => onOrBefore (snd o) (localLastSecond day)) l
  | None => l
  end.

Definition byMedication (ex : ExportForm) (l : Coll OrderDoc) : Coll OrderDoc :=
  if truthy (medFilter ex) && truthy (trim (medFilter ex)) then
    List.filter (fun o =>
      includes (toLowerCase (o_medicationName (snd o))) (toLowerCase (medFilter ex))) l
  else l.

(** The orders that [handleExport] keeps after its three filters. *)
Definition exportSelection (st : Store) (ex : ExportForm) : Coll OrderDoc :=
  byMedication ex (byEnd ex (byStart ex (orders st))).

Record ExportStats := {
  s_orders : nat;
  s_patients : nat;
  s_providers : nat;
  s_medications : nat
}.

Inductive ExportResult :=
| NoDataFound (dateFilter medicationFilter : bool)
| Exported (stats : ExportStats) (rows : Coll OrderDoc).

Definition distinct (l : list jsstring) : nat := length (remove_dups l).

Definition handleExport (st : Store) (ex : ExportForm) : ExportResult :=
  let sel := exportSelection st ex in
  match sel with
  | [] =>
      NoDataFound (bool_decide (is_Some (startDate ex)) || bool_decide (is_Some (endDate ex)))
                  (truthy (medFilter ex))
  | _ =>
      Exported
        {| s_orders := length sel;
           s_patients := distinct (List.map (fun o => o_patientMRN (snd o)) sel);
           s_providers := distinct (List.map (fun o => o_providerNPI (snd o)) sel);
           s_medications := distinct (List.map (fun o => o_medicationName (snd o)) sel) |}
        sel
  end.

(** The calendar day, local time, that an instant falls on. *)
Definition localDayOf (ms : Z) : Z := ((ms + tzOffsetMs) / msPerDay)%Z.

Definition startOk (ex : ExportForm) (o : OrderDoc) : bool :=
  match startDate ex with
  | Some day => onOrAfter o (localMidnight day)
  | None => true
  end.

Definition endOk (ex : ExportForm) (o : OrderDoc) : bool :=
  match endDate ex with
  | Some day => onOrBefore o (localLastSecond day)
  | None => true
  end.

Definition medicationOk (ex : ExportForm) (o : OrderDoc) : bool :=
  if truthy (medFilter ex) && truthy (trim (medFilter ex)) then
    includes (toLowerCase (o_medicationName o)) (toLowerCase (medFilter ex))
  else true.

End ExportData.

(** ** Predicates used in the statements *)

(** An order sharing the four keys with the form. *)
Definition sharesKeys (fd : FormData) (o : OrderDoc) : Prop :=
  o_patientMRN o = patientMRN fd
  /\ o_medicationName o = medicationName fd
  /\ o_primaryDiagnosis o = primaryDiagnosis fd
  /\ o_providerNPI o = providerNPI fd.

(** Every provider document that has an NPI has a name. *)
Definition providers_named (st : Store) : Prop :=
  forall d, In d (providers st) -> p_npi (snd d) <> None -> p_name (snd d) <> None.

(** The text that names the day on which the stored order [prior] was
    created, as the locale writes it; an order stored without a creation
    timestamp is named as of unknown date. *)
Definition spec_duplicateText `{Platform} (prior : OrderDoc) : jsstring :=
  js "POTENTIAL DUPLICATE: A similar order exists from "
  ++ match o_timestamp prior with
     | Some created => toLocaleDateString (toMillis created)
     | None => js "Unknown date"
     end
  ++ js ". You'll be prompted to update or create new when submitting.".

(** The non-blocking warning about the stored order [prior]. *)
Definition spec_duplicateWarning `{Platform} (prior : OrderDoc) : Warning :=
  {| w_type := Worder; w_message := spec_duplicateText prior; w_severity := Swarning |}.

Definition isOrderWarning (w : Warning) : bool :=
  match w_type w with
  | Worder => true
  | _ => false
  end.

#[global] Instance ApprovalStatus_eq_dec : EqDecision ApprovalStatus.
Proof. solve_decision. Defined.

(** ** The specification's words, where a claim is compared with the code *)

(** A letter of the Latin script, accented ones included: Basic Latin,
    Latin-1 Supplement (without the signs U+00D7 and U+00F7), Latin
    Extended-A and B, Latin Extended Additional. *)
Definition spec_isLatinLetter (c : N) : bool :=
  ((65 <=? c) && (c <=? 90)) || ((97 <=? c) && (c <=? 122))
  || ((192 <=? c) && (c <=? 214)) || ((216 <=? c) && (c <=? 246))
  || ((248 <=? c) && (c <=? 591)) || ((7680 <=? c) && (c <=? 7935)).

(** Section 4.1: a name is valid iff the trimmed value is non-empty,
    contains only letters, spaces, hyphens and apostrophes, and no digit. *)
Definition spec_nameChar (c : N) : bool :=
  spec_isLatinLetter c || isWhiteSpace c || (c =? 45) || (c =? 39).

Definition spec_validName (s : jsstring) : bool :=
  negb (falsy (trim s)) && forallb spec_nameChar (trim s)
  && forallb (fun c => negb (isDigit c)) (trim s).

(** What the code accepts in a name: the six items of its character class. *)
Definition nameChar (c : N) : bool := in_class nameCls c.

(** The multiplication and division signs, which lie inside [À-ÿ]. *)
Definition isMathSign (c : N) : bool := (c =? 215) || (c =? 247).

(** A letter of Basic Latin or of Latin-1: the range [À-ÿ] without its two
    signs. *)
Definition latin1Letter (c : N) : bool :=
  ((65 <=? c) && (c <=? 90)) || ((97 <=? c) && (c <=? 122))
  || ((192 <=? c) && (c <=? 214)) || ((216 <=? c) && (c <=? 246))
  || ((248 <=? c) && (c <=? 255)).

(** A name over Latin-1: letters, white space, hyphen, apostrophe. *)
Definition latin1NameChar (c : N) : bool :=
  latin1Letter c || isWhiteSpace c || (c =? 45) || (c =? 39).

Definition latin1_validName (s : jsstring) : bool :=
  negb (falsy (trim s)) && forallb latin1NameChar (trim s)
  && forallb (fun c => negb (isDigit c)) (trim s).

(** ** Example data *)

(** The name Dvořák: ř is U+0159, á is U+00E1. *)
Definition dvorak : jsstring := js "Dvo" ++ [345; 225] ++ js "k".

(** The name José: é is U+00E9. *)
Definition jose : jsstring := js "Jos" ++ [233].

Definition validForm : FormData :=
  {| patientFirstName := js "John";
     patientLastName := js "Doe";
     patientMRN := js "123456";
     primaryDiagnosis := js "G70.0";
     referringProvider := js "Dr. Sarah Smith";
     providerNPI := js "1234567890";
     medicationName := js "Privigen";
     additionalDiagnoses := [js "I10"; js "E11.9"];
     medicationHistory := [js "Pyridostigmine 60mg q6h"];
     patientRecords := js "Patient clinical records..." |}.

Definition withFirstName (n : jsstring) (fd : FormData) : FormData :=
  {| patientFirstName := n;
     patientLastName := patientLastName fd;
     patientMRN := patientMRN fd;
     primaryDiagnosis := primaryDiagnosis fd;
     referringProvider := referringProvider fd;
     providerNPI := providerNPI fd;
     medicationName := medicationName fd;
     additionalDiagnoses := additionalDiagnoses fd;
     medicationHistory := medicationHistory fd;
     patientRecords := patientRecords fd |}.

Definition withDiagnosis (d : jsstring) (fd : FormData) : FormData :=
  {| patientFirstName := patientFirstName fd;
     patientLastName := patientLastName fd;
     patientMRN := patientMRN fd;
     primaryDiagnosis := d;
     referringProvider := referringProvider fd;
     providerNPI := providerNPI fd;
     medicationName := medicationName fd;
     additionalDiagnoses := additionalDiagnoses fd;
     medicationHistory := medicationHistory fd;
     patientRecords := patientRecords fd |}.

Definition joseForm : FormData := withFirstName jose validForm.
Definition lowerCodeForm : FormData := withDiagnosis (js "g70.0") validForm.

(** The component as mounted, with the form filled in. *)
Definition initialUI (fd : FormData) : UI :=
  {| formData := fd; warnings := []; loading := false; carePlan := None;
     errors := ∅; duplicateFound := None; showDuplicateDialog := false;
     showUpdateForm := false; updateFields := emptyUpdateFields; alerts := [] |}.

(** A run in which the backend returns a plan. *)
Definition planText : jsstring := js "PROBLEM LIST: ...".

Definition okEnv : Env :=
  {| backend := fun _ => Response (Some planText);
     serverTimestamp := {| seconds := 1700000000; nanoseconds := 0 |};
     clientNow := {| seconds := 1700000000; nanoseconds := 250000000 |};
     newOrderId := "order-new";
     newPatientId := "patient-new";
     newProviderId := "provider-new" |}.

(** A run in which the backend cannot be reached. *)
Definition downEnv : Env :=
  {| backend := fun _ => NoResponse;
     serverTimestamp := {| seconds := 1700000000; nanoseconds := 0 |};
     clientNow := {| seconds := 1700000000; nanoseconds := 250000000 |};
     newOrderId := "order-new";
     newPatientId := "patient-new";
     newProviderId := "provider-new" |}.

Definition drSmith : ProviderDoc :=
  {| p_name := Some (js "Dr. Sarah Smith"); p_npi := Some (js "1234567890");
     p_firstOrderDate := Some {| seconds := 1690000000; nanoseconds := 0 |};
     p_orderCount := Some 1%Z |}.

(** A store in which the provider of [validForm] is on record, with one
    order so far, and no order matches the form. *)
Definition storeWithProvider : Store :=
  {| orders := []; patients := []; providers := [("provider-1", drSmith)] |}.

Definition orderOf (first last mrnv med : string) : OrderDoc :=
  {| o_patientFirstName := js first;
     o_patientLastName := js last;
     o_patientMRN := js mrnv;
     o_primaryDiagnosis := js "G70.0";
     o_referringProvider := js "Dr. Sarah Smith";
     o_providerNPI := js "1234567890";
     o_medicationName := js med;
     o_additionalDiagnoses := Some [];
     o_medicationHistory := Some [];
     o_patientRecords := Some (js "Earlier records");
     o_carePlan := Some (js "Earlier plan");
     o_timestamp := Some {| seconds := 1690000000; nanoseconds := 0 |};
     o_lastUpdated := None;
     o_history := Some [];
     o_approvalStatus := None;
     o_pharmacistFeedback := None;
     o_correctionHistory := None |}.

Definition providerOf (name npi : string) : ProviderDoc :=
  {| p_name := Some (js name); p_npi := Some (js npi);
     p_firstOrderDate := Some {| seconds := 1690000000; nanoseconds := 0 |};
     p_orderCount := Some 1%Z |}.

(** A store with conflicting records behind agreeing ones: the MRN 123456
    belongs to John Doe in the first order and to Jane Roe in the second;
    John Doe has MRN 654321 in the third; Dr. Sarah Smith has a second NPI in
    the second provider document, and the NPI 1234567890 a second name in
    the third. *)
Definition conflictStore : Store :=
  {| orders :=
       [("order-1", orderOf "John" "Doe" "123456" "Gamunex");
        ("order-2", orderOf "Jane" "Roe" "123456" "Gamunex");
        ("order-3", orderOf "John" "Doe" "654321" "Gamunex")];
     patients := [];
     providers :=
       [("provider-1", providerOf "Dr. Sarah Smith" "1234567890");
        ("provider-2", providerOf "Dr. Sarah Smith" "1111111111");
        ("provider-3", providerOf "Dr. Jane Other" "1234567890")] |}.

(** The same documents, returned in the opposite order. *)
Definition conflictStoreReversed : Store :=
  {| orders := rev (orders conflictStore);
     patients := [];
     providers := rev (providers conflictStore) |}.

Definition existingOrder : OrderDoc := orderOf "John" "Doe" "123456" "Privigen".

(** A store holding one order with the four keys of [validForm], and its
    provider. *)
Definition dupStore : Store :=
  {| orders := [("order-1", existingOrder)];
     patients := [];
     providers := [("provider-1", drSmith)] |}.

(** The component after the duplicate prompt, with the update form filled. *)
Definition promptUI : UI :=
  {| formData := validForm; warnings := []; loading := false; carePlan := None;
     errors := ∅; duplicateFound := Some ("order-1", existingOrder);
     showDuplicateDialog := false; showUpdateForm := true;
     updateFields :=
       {| u_additionalDiagnoses := js "I10, E11.9";
          u_medicationHistory := js "Prednisone 10mg daily";
          u_patientRecords := js "New clinical notes" |};
     alerts := [] |}.

(** A review of the stored order with the given feedback items. *)
Definition reviewOf (fb : list PharmacistFeedback) : Review :=
  {| r_orders := [(Some "order-1", existingOrder)];
     selectedOrder := Some (Some "order-1", existingOrder);
     r_loading := false;
     feedback := fb;
     r_pharmacistName := js "Pat Lee";
     improvedCarePlan := None; showImprovedPlan := false; r_alerts := [] |}.

(** An order document with its creation timestamp replaced. *)
Definition stamped (o : OrderDoc) (t : Timestamp) : OrderDoc :=
  {| o_patientFirstName := o_patientFirstName o;
     o_patientLastName := o_patientLastName o;
     o_patientMRN := o_patientMRN o;
     o_primaryDiagnosis := o_primaryDiagnosis o;
     o_referringProvider := o_referringProvider o;
     o_providerNPI := o_providerNPI o;
     o_medicationName := o_medicationName o;
     o_additionalDiagnoses := o_additionalDiagnoses o;
     o_medicationHistory := o_medicationHistory o;
     o_patientRecords := o_patientRecords o;
     o_carePlan := o_carePlan o;
     o_timestamp := Some t;
     o_lastUpdated := o_lastUpdated o;
     o_history := o_history o;
     o_approvalStatus := o_approvalStatus o;
     o_pharmacistFeedback := o_pharmacistFeedback o;
     o_correctionHistory := o_correctionHistory o |}.

(** 2023-12-31 is day 19722 from the epoch; one order is created at noon of
    that day and one at 23:59:59.500, UTC. *)
Definition noonOrder : OrderDoc :=
  stamped existingOrder {| seconds := 1704024000; nanoseconds := 0 |}.
Definition lateOrder : OrderDoc :=
  stamped existingOrder {| seconds := 1704067199; nanoseconds := 500000000 |}.

Definition yearEndStore : Store :=
  {| orders := [("order-noon", noonOrder); ("order-late", lateOrder)];
     patients := []; providers := [] |}.

Definition yearEndExport : ExportForm :=
  {| startDate := None; endDate := Some 19722%Z; medFilter := [] |}.

(** ** Further functions of the source files *)

(** validation.ts, [validateRequiredFields]. *)
Definition validateRequiredFields (fd : FormData) : bool :=
  forallb (fun field => validateRequiredField (field_value fd field))
    [FpatientFirstName; FpatientLastName; FpatientMRN; FprimaryDiagnosis;
     FreferringProvider; FproviderNPI; FmedicationName; FpatientRecords].

(** The shape that the ICD-10 pattern describes, case ignored: a letter, two
    digits, an optional dot, letters and digits. *)
Definition isAsciiLetter (c : N) : bool :=
  ((65 <=? c) && (c <=? 90)) || ((97 <=? c) && (c <=? 122)).

Definition isAsciiAlnum (c : N) : bool := isDigit c || isAsciiLetter c.

Definition icd10Shape (t : jsstring) : bool :=
  match t with
  | c :: d1 :: d2 :: rest =>
      isAsciiLetter c && isDigit d1 && isDigit d2
      && match rest with
         | x :: r => if x =? 46 then forallb isAsciiAlnum r else forallb isAsciiAlnum rest
         | [] => true
         end
  | _ => false
  end.

(** services/api.ts, [regenerateCarePlanWithFeedback]; the reply's error
    text is its [detail]. *)
Definition regenerateCarePlanWithFeedback (reply : HttpReply) : result jsstring :=
  match reply with
  | Response (Some (c :: p)) => Ok (c :: p)
  | Response _ => Throw "Invalid response format from server"
  | ErrorResponse status errorData =>
      if ((status =? 401) || (status =? 403))%Z then Throw "Authentication error."
      else if (status =? 400)%Z then
        Throw ("Invalid request data: " +:+ or_else errorData "Please check your input")
      else
        Throw ("API request failed with status " +:+ pretty status +:+ ": "
               +:+ or_else errorData "Unknown error")
  | NoResponse =>
      Throw "Cannot connect to API server. Make sure the backend server is running."
  | SetupError m => Throw (or_else (Some m) "Unknown error occurred")
  end.

(** PharmacistReview.tsx: the form for one new feedback item. *)
Record NewFeedback := {
  nf_sectionName : jsstring;
  nf_feedbackType : FeedbackType;
  nf_originalText : jsstring;
  nf_correctedText : jsstring;
  nf_comment : jsstring;
  nf_approved : bool
}.

Definition emptyNewFeedback : NewFeedback :=
  {| nf_sectionName := []; nf_feedbackType := suggestion; nf_originalText := [];
     nf_correctedText := []; nf_comment := []; nf_approved := false |}.

(** [s || undefined] *)
Definition orUndefined (s : jsstring) : option jsstring :=
  match s with
  | [] => None
  | _ => Some s
  end.

Definition r_setFeedback (fb : list PharmacistFeedback) (rv : Review) : Review :=
  {| r_orders := r_orders rv; selectedOrder := selectedOrder rv;
     r_loading := r_loading rv; feedback := fb;
     r_pharmacistName := r_pharmacistName rv;
     improvedCarePlan := improvedCarePlan rv;
     showImprovedPlan := showImprovedPlan rv; r_alerts := r_alerts rv |}.

(** [handleAddFeedback]; [dateNow] is [Date.now()] and [now] is [new Date()].
    The third component is the text of the alert shown, if any. *)
Definition handleAddFeedback (dateNow : Z) (now : Timestamp)
  (s : NewFeedback * Review) : NewFeedback * Review * option string :=
  let '(nf, rv) := s in
  if falsy (nf_sectionName nf) || falsy (r_pharmacistName rv) then
    (nf, rv, Some "Please fill in pharmacist name and section name")
  else
    let feedbackItem :=
      {| feedbackId := Some ("feedback_" +:+ pretty dateNow);
         fb_timestamp := Some now;
         pharmacistName := r_pharmacistName rv;
         feedbackType := nf_feedbackType nf;
         sectionName := nf_sectionName nf;
         originalText := orUndefined (nf_originalText nf);
         correctedText := orUndefined (nf_correctedText nf);
         comment := orUndefined (nf_comment nf);
         approved := nf_approved nf |} in
    (emptyNewFeedback, r_setFeedback (feedback rv ++ [feedbackItem]) rv, None).

(** [l.filter((_, i) => i !== index)], scanning from position [i]. *)
Fixpoint filterIndexFrom {A} (i index : nat) (l : list A) : list A :=
  match l with
  | [] => []
  | x :: r =>
      if Nat.eqb i index then filterIndexFrom (S i) index r
      else x :: filterIndexFrom (S i) index r
  end.

Definition handleRemoveFeedback (index : nat) (rv : Review) : Review :=
  r_setFeedback (filterIndexFrom 0 index (feedback rv)) rv.

Definition r_setImproved (plan : option jsstring) (shown : bool) (rv : Review) : Review :=
  {| r_orders := r_orders rv; selectedOrder := selectedOrder rv;
     r_loading := r_loading rv; feedback := feedback rv;
     r_pharmacistName := r_pharmacistName rv;
     improvedCarePlan := plan; showImprovedPlan := shown; r_alerts := r_alerts rv |}.

(** [handleRegenerateCarePlan], given the reply of the backend; it makes no
    call to the store.  The second component is the alert shown, if any. *)
Definition handleRegenerateCarePlan (reply : HttpReply) (rv : Review)
  : Review * option string :=
  match selectedId rv with
  | Some _ =>
      if (length (feedback rv) =? 0)%nat then
        (rv, Some "Please select an order and add feedback first")
      else
        match regenerateCarePlanWithFeedback reply with
        | Ok improvedPlan => (r_setImproved (Some improvedPlan) true rv, None)
        | Throw message => (rv, Some ("Error regenerating care plan: " +:+ message))
        end
  | None => (rv, Some "Please select an order and add feedback first")
  end.


(** The MRNs on file, in the order of the collection. *)
Definition patientMRNs (c : Coll PatientDoc) : list jsstring :=
  List.map (fun d => mrn (snd d)) c.

(** A store with one patient master record, that of [validForm], and the
    order and provider of [dupStore]. *)
Definition patientStore : Store :=
  {| orders := [("order-1", existingOrder)];
     patients :=
       [("patient-1",
         {| mrn := js "123456"; firstName := js "John"; lastName := js "Doe";
            lastUpdated := {| seconds := 1690000000; nanoseconds := 0 |};
            totalOrders := 1 |})];
     providers := [("provider-1", drSmith)] |}.

(** The fields of an order that an update is not meant to touch: patient
    name, the four keys, provider name and creation timestamp. *)
Definition identityOf (d : OrderDoc) :=
  (o_patientFirstName d, o_patientLastName d, o_patientMRN d, o_primaryDiagnosis d,
   o_referringProvider d, o_providerNPI d, o_medicationName d, o_timestamp d).

(** The component holding a prompt for an order that is not in the store. *)
Definition stalePromptUI : UI :=
  {| formData := validForm; warnings := []; loading := false; carePlan := None;
     errors := ∅; duplicateFound := Some ("order-gone", existingOrder);
     showDuplicateDialog := false; showUpdateForm := true;
     updateFields :=
       {| u_additionalDiagnoses := js "I10";
          u_medicationHistory := [];
          u_patientRecords := js "New clinical notes" |};
     alerts := [] |}.

(** An item as the comma-separated inputs keep it: not empty, with no white
    space at either end, and without a comma. *)
Definition cleanItem (x : jsstring) : Prop :=
  x <> [] /\ trim x = x /\ forallb (fun c => negb (c =? 44)) x = true.



(** A feedback item as [handleAddFeedback] builds it: it has an id, a
    section and a reviewer name, and none of its optional texts is the empty
    string. *)
Definition wellFormedItem (f : PharmacistFeedback) : Prop :=
  feedbackId f <> None /\ sectionName f <> [] /\ pharmacistName f <> []
  /\ originalText f <> Some [] /\ correctedText f <> Some [] /\ comment f <> Some [].

(** A feedback form with a section and a comment, not approved. *)
Definition commentForm : NewFeedback :=
  {| nf_sectionName := js "GOALS"; nf_feedbackType := correction;
     nf_originalText := []; nf_correctedText := [];
     nf_comment := js "Add a target date"; nf_approved := false |}.

(** A review of the stored order holding a regenerated plan. *)
Definition improvedReview : Review :=
  {| r_orders := [(Some "order-1", existingOrder)];
     selectedOrder := Some (Some "order-1", existingOrder);
     r_loading := false;
     feedback := [{| feedbackId := Some "feedback_1700000000000";
                     fb_timestamp := Some {| seconds := 1700000000; nanoseconds := 0 |};
                     pharmacistName := js "Pat Lee";
                     feedbackType := correction;
                     sectionName := js "GOALS";
                     originalText := Some (js "Monitor weekly");
                     correctedText := Some (js "Monitor daily");
                     comment := Some (js "Dose change");
                     approved := false |}];
     r_pharmacistName := js "Pat Lee";
     improvedCarePlan := Some (js "IMPROVED PLAN"); showImprovedPlan := true;
     r_alerts := [] |}.

(** A feedback form that names a section and leaves every text empty. *)
Definition sectionOnlyForm (section : string) (ok : bool) : NewFeedback :=
  {| nf_sectionName := js section; nf_feedbackType := suggestion;
     nf_originalText := []; nf_correctedText := []; nf_comment := [];
     nf_approved := ok |}.

(** The review of the stored order after two such items have been added
    through [handleAddFeedback], the second one not approved. *)
Definition addedReview : Review :=
  let now := {| seconds := 1700000000; nanoseconds := 0 |} in
  let rv1 :=
    snd (fst (handleAddFeedback 1700000000000 now
                (sectionOnlyForm "PROBLEM LIST" true, reviewOf []))) in
  snd (fst (handleAddFeedback 1700000000001 now (sectionOnlyForm "GOALS" false, rv1))).

(** A feedback item with every optional text filled in. *)
Definition fullItem (section : string) (ok : bool) : PharmacistFeedback :=
  {| feedbackId := Some "feedback_1700000000000";
     fb_timestamp := Some {| seconds := 1700000000; nanoseconds := 0 |};
     pharmacistName := js "Pat Lee";
     feedbackType := correction;
     sectionName := js section;
     originalText := Some (js "Monitor weekly");
     correctedText := Some (js "Monitor daily");
     comment := Some (js "Dose change");
     approved := ok |}.

Definition fullReview : Review :=
  reviewOf [fullItem "PROBLEM LIST" true; fullItem "GOALS" false].

(** The store before anything has been submitted. *)
Definition freshStore : Store := {| orders := []; patients := []; providers := [] |}.

(** services/api.ts, [downloadCarePlan].  What it asks of jsPDF is recorded
    as a list of operations; positions are in tenths of a millimetre.  The
    page height (2794 for the letter format that the code requests), the
    splitting of the plan into lines of the content width, and the two
    renderings of the current date come from outside. *)
Inductive FontStyle := Fbold | Fnormal | Fitalic.

Inductive PdfOp :=
| PText (page : nat) (y : Z) (size : Z) (style : FontStyle) (text : jsstring)
| PRule (page : nat) (y : Z).

Definition pdfMargin : Z := 200.

(** [line.match(r)] for a pattern anchored at the start only. *)
Definition test_prefix (r : regex) (s : jsstring) : bool :=
  matches (Seq r (Star (Cls [ClsAny]))) s.

(** [line.match(/^[A-Z\s]+:/) || line.match(/^\d+\./)] *)
Definition isHeading (line : jsstring) : bool :=
  test_prefix (Seq (Plus (Cls [Range 65 90; ClsSpace])) (Cls [Range 58 58])) line
  || test_prefix (Seq (Plus (Cls [ClsDigit])) (Cls [Range 46 46])) line.

Definition decimal (n : nat) : jsstring := js (pretty n).

Definition pageHeaderText (first last mrnv : jsstring) (page : nat) : jsstring :=
  js "Care Plan - " ++ first ++ js " " ++ last ++ js " (MRN: " ++ mrnv
  ++ js ") - Page " ++ decimal page.

(** The loop over the lines of the plan: the operations issued, and the
    position and page reached. *)
Fixpoint pdfBody (pageHeight10 : Z) (first last mrnv : jsstring)
  (lines : list jsstring) (yPosition : Z) (page : nat) : list PdfOp * Z * nat :=
  match lines with
  | [] => ([], yPosition, page)
  | line :: rest =>
      let '(pre, y, pg) :=
        if (pageHeight10 - pdfMargin - 100 <? yPosition)%Z then
          ([PText (S page) pdfMargin 8 Fitalic (pageHeaderText first last mrnv (S page))],
           (pdfMargin + 80)%Z, S page)
        else ([], yPosition, page) in
      let op := PText pg y 9 (if isHeading line then Fbold else Fnormal) line in
      let '(ops, yEnd, pgEnd) :=
        pdfBody pageHeight10 first last mrnv rest (y + 50)%Z pg in
      (pre ++ op :: ops, yEnd, pgEnd)
  end.

Definition footerText (i totalPages : nat) : jsstring :=
  js "Health Planner | Page " ++ decimal i ++ js " of " ++ decimal totalPages.

(** [for (let i = 1; i <= totalPages; i++)] *)
Definition pdfFooters (pageHeight10 : Z) (totalPages : nat) : list PdfOp :=
  List.map (fun i => PText i (pageHeight10 - 100)%Z 8 Fitalic (footerText i totalPages))
    (seq 1 totalPages).

Definition pdfFront (dateText first last mrnv medication diagnosis : jsstring)
  : list PdfOp :=
  [PText 1 200 18 Fbold (js "SPECIALTY PHARMACY CARE PLAN");
   PText 1 300 10 Fbold (js "PATIENT INFORMATION");
   PText 1 360 9 Fnormal (js "Patient Name: " ++ first ++ js " " ++ last);
   PText 1 410 9 Fnormal (js "MRN: " ++ mrnv);
   PText 1 460 9 Fnormal (js "Primary Diagnosis: " ++ diagnosis);
   PText 1 510 9 Fnormal (js "Medication: " ++ medication);
   PText 1 560 9 Fnormal (js "Date Generated: " ++ dateText);
   PRule 1 660;
   PText 1 740 10 Fbold (js "CARE PLAN")].

Definition downloadCarePlan (pageHeight10 : Z) (splitTextToSize : jsstring -> list jsstring)
  (isoDate dateText : jsstring)
  (carePlanText first last mrnv medication diagnosis : jsstring)
  : jsstring * list PdfOp :=
  let filename :=
    js "CarePlan_" ++ first ++ js "_" ++ last ++ js "_MRN" ++ mrnv ++ js "_" ++ isoDate
    ++ js ".pdf" in
  let lines := splitTextToSize carePlanText in
  let '(body, _, totalPages) := pdfBody pageHeight10 first last mrnv lines 800 1 in
  (filename,
   pdfFront dateText first last mrnv medication diagnosis ++ body
   ++ pdfFooters pageHeight10 totalPages).

(** The texts of size 9, which in the body of the document are the lines of
    the plan. *)
Definition bodyLines (ops : list PdfOp) : list jsstring :=
  flat_map (fun op =>
    match op with
    | PText _ _ size _ text => if (size =? 9)%Z then [text] else []
    | PRule _ _ => []
    end) ops.

Definition opPage (op : PdfOp) : nat :=
  match op with
  | PText page _ _ _ _ => page
  | PRule page _ => page
  end.

Definition opY (op : PdfOp) : Z :=
  match op with
  | PText _ y _ _ _ => y
  | PRule _ y => y
  end.

(** Successive operations either stay on the page and move down by at least
    the line step of 5 mm, or open the next page at the margin. *)
Fixpoint spaced (page : nat) (y : Z) (ops : list PdfOp) : bool :=
  match ops with
  | [] => true
  | op :: rest =>
      ((Nat.eqb (opPage op) page && (y + 50 <=? opY op)%Z)
       || (Nat.eqb (opPage op) (S page) && (opY op =? pdfMargin)%Z))
      && spaced (opPage op) (opY op) rest
  end.

(** The ICD-10 pattern without the [i] flag, as a shape. *)
Definition icd10ShapeUpper (w : jsstring) : bool :=
  match w with
  | c :: d1 :: d2 :: rest =>
      in_class upperCls c && in_class digitCls d1 && in_class digitCls d2
      && match rest with
         | x :: r =>
             if x =? 46 then forallb (in_class [Range 48 57; Range 65 90]) r
             else forallb (in_class [Range 48 57; Range 65 90]) rest
         | [] => true
         end
  | _ => false
  end.

(** The height of the letter format that [downloadCarePlan] requests, 279.4
    mm, and the number of pages that a plan of [n] lines takes on it: 34
    lines on the first page and 45 on each page after it. *)
Definition letterHeight10 : Z := 2794.

Definition letterPages (n : nat) : nat := 1 + (n - 34 + 44) / 45.

(** ** Tactics *)

(** Case analysis on the comparisons of a goal, one at a time, dropping the
    cases whose bounds contradict each other. *)
Ltac split_cmp :=
  repeat match goal with
         | |- context [N.leb ?a ?b] =>
             destruct (N.leb_spec a b); try lia
         | |- context [N.eqb ?a ?b] =>
             destruct (N.eqb_spec a b); try lia
         end.

Ltac ascii_lower :=
  repeat match goal with
         | |- context [toLowerCase ?l] =>
             rewrite (toLowerCase_ascii l) by (repeat constructor)
         end.

(** ** Regular expressions: the matcher decides the language *)

Lemma nullable_Lang r : nullable r = true <-> Lang r [].
Proof.
  split.
  - induction r; simpl; intros Hn; try discriminate; auto.
    + apply orb_true_iff in Hn as [Hn | Hn]; auto.
    + apply andb_true_iff in Hn as [H1 H2].
      change (@nil N) with (@nil N ++ []). auto.
  - intros HL. remember [] as s eqn:Es.
    induction HL; simpl; subst; try discriminate; auto.
    + rewrite IHHL; auto.
    + rewrite IHHL; auto. apply orb_true_r.
    + apply app_eq_nil in Es as [-> ->]. rewrite IHHL1, IHHL2; auto.
Qed.

Lemma Lang_Eps_inv s : Lang Eps s -> s = [].
Proof. inversion 1; reflexivity. Qed.

Lemma Lang_Seq_inv a b s :
  Lang (Seq a b) s -> exists s1 s2, s = s1 ++ s2 /\ Lang a s1 /\ Lang b s2.
Proof. inversion 1; eauto. Qed.

Lemma Lang_Alt_inv a b s : Lang (Alt a b) s -> Lang a s \/ Lang b s.
Proof. inversion 1; auto. Qed.

Lemma Lang_Seq_cons a b c s1 s2 :
  Lang a (c :: s1) -> Lang b s2 -> Lang (Seq a b) (c :: s1 ++ s2).
Proof. intros. change (c :: s1 ++ s2) with ((c :: s1) ++ s2). auto. Qed.

Lemma deriv_sound c r : forall s, Lang (deriv c r) s -> Lang r (c :: s).
Proof.
  induction r; simpl; intros s HL.
  - inversion HL.
  - inversion HL.
  - destruct (in_class items c) eqn:E.
    + apply Lang_Eps_inv in HL as ->. auto.
    + inversion HL.
  - apply Lang_Alt_inv in HL as [HL | HL]; auto.
  - destruct (nullable r1) eqn:E.
    + apply Lang_Alt_inv in HL as [HL | HL].
      * apply Lang_Seq_inv in HL as (s1 & s2 & -> & H1 & H2).
        apply Lang_Seq_cons; auto.
      * apply nullable_Lang in E.
        change (c :: s) with ([] ++ c :: s). auto.
    + apply Lang_Seq_inv in HL as (s1 & s2 & -> & H1 & H2).
      apply Lang_Seq_cons; auto.
  - apply Lang_Seq_inv in HL as (s1 & s2 & -> & H1 & H2).
    change (c :: s1 ++ s2) with ((c :: s1) ++ s2). auto.
Qed.

Lemma deriv_complete c r s : Lang r (c :: s) -> Lang (deriv c r) s.
Proof.
  intros HL. remember (c :: s) as w eqn:Ew. revert s Ew.
  induction HL as [| items x Hx | a b w Ha IHa | a b w Hb IHb
                   | a b s1 s2 Ha IHa Hb IHb | a | a s1 s2 Ha IHa Hb IHb];
    intros t Ew; simpl; try discriminate.
  - injection Ew as -> <-. rewrite Hx. auto.
  - auto.
  - auto.
  - destruct s1 as [| x s1'].
    + simpl in Ew. subst s2.
      apply nullable_Lang in Ha. rewrite Ha. auto.
    + simpl in Ew. injection Ew as -> <-.
      destruct (nullable a); auto.
  - destruct s1 as [| x s1'].
    + simpl in Ew. apply (IHb t Ew).
    + simpl in Ew. injection Ew as -> <-. auto.
Qed.

Lemma matches_Lang s : forall r, matches r s = true <-> Lang r s.
Proof.
  induction s as [| c s IH]; intros r; simpl.
  - apply nullable_Lang.
  - rewrite IH. split; [apply deriv_sound | apply deriv_complete].
Qed.

Lemma Lang_Cls_inv items s :
  Lang (Cls items) s -> exists c, s = [c] /\ in_class items c = true.
Proof. inversion 1; eauto. Qed.

Lemma Lang_Star_Cls items s :
  Lang (Star (Cls items)) s <-> forallb (in_class items) s = true.
Proof.
  split.
  - intros HL. remember (Star (Cls items)) as r eqn:Er.
    induction HL; try discriminate; auto.
    injection Er as ->.
    apply Lang_Cls_inv in HL1 as (c & -> & Hc). simpl.
    rewrite Hc. auto.
  - induction s as [| c s IH]; simpl; intros Hf; auto.
    apply andb_true_iff in Hf as [Hc Hs].
    change (c :: s) with ([c] ++ s). auto.
Qed.

Lemma Lang_Plus_Cls items s :
  Lang (Plus (Cls items)) s <-> s <> [] /\ forallb (in_class items) s = true.
Proof.
  unfold Plus. split.
  - intros HL. apply Lang_Seq_inv in HL as (s1 & s2 & -> & H1 & H2).
    apply Lang_Cls_inv in H1 as (c & -> & Hc).
    apply Lang_Star_Cls in H2. simpl. rewrite Hc, H2. split; [discriminate | reflexivity].
  - intros [Hne Hf]. destruct s as [| c s]; [contradiction |].
    simpl in Hf. apply andb_true_iff in Hf as [Hc Hs].
    change (c :: s) with ([c] ++ s). constructor; auto.
    apply Lang_Star_Cls; assumption.
Qed.

Lemma Lang_Rep_Cls items n : forall s,
  Lang (Rep n (Cls items)) s <-> length s = n /\ forallb (in_class items) s = true.
Proof.
  induction n as [| n IH]; intros s; simpl.
  - split.
    + intros HL. apply Lang_Eps_inv in HL as ->. auto.
    + intros [Hl _]. destruct s; [auto | discriminate].
  - split.
    + intros HL. apply Lang_Seq_inv in HL as (s1 & s2 & -> & H1 & H2).
      apply Lang_Cls_inv in H1 as (c & -> & Hc).
      apply IH in H2 as [Hl Hf]. simpl. rewrite Hc, Hf, Hl. auto.
    + intros [Hl Hf]. destruct s as [| c s]; [discriminate |].
      simpl in Hl, Hf. apply andb_true_iff in Hf as [Hc Hs].
      change (c :: s) with ([c] ++ s). constructor; auto.
      apply IH. split; [lia | assumption].
Qed.

Lemma forallb_any s : forallb (in_class [ClsAny]) s = true.
Proof. induction s; simpl; auto. Qed.

Lemma test_search_Cls items s :
  test_search (Cls items) s = existsb (in_class items) s.
Proof.
  unfold test_search.
  apply eq_true_iff_eq. rewrite matches_Lang. split.
  - intros HL. apply Lang_Seq_inv in HL as (s1 & s2 & -> & _ & H2).
    apply Lang_Seq_inv in H2 as (s3 & s4 & -> & H3 & _).
    apply Lang_Cls_inv in H3 as (c & -> & Hc).
    rewrite existsb_app. simpl. rewrite Hc. simpl. apply orb_true_r.
  - intros He. apply existsb_exists in He as (c & Hin & Hc).
    apply in_split in Hin as (l1 & l2 & ->).
    constructor.
    + apply Lang_Star_Cls, forallb_any.
    + change (c :: l2) with ([c] ++ l2). constructor; auto.
      apply Lang_Star_Cls, forallb_any.
Qed.

(** ** Field validators *)

Lemma falsy_length s : (length s =? 0)%nat = falsy s.
Proof. destruct s; reflexivity. Qed.

Lemma test_Plus_Cls items s :
  test_anchored (Plus (Cls items)) s = negb (falsy s) && forallb (in_class items) s.
Proof.
  unfold test_anchored. apply eq_true_iff_eq.
  rewrite matches_Lang, Lang_Plus_Cls, andb_true_iff, negb_true_iff.
  destruct s; simpl; intuition congruence.
Qed.

Lemma test_Rep_Cls items n s :
  test_anchored (Rep n (Cls items)) s
  = (length s =? n)%nat && forallb (in_class items) s.
Proof.
  unfold test_anchored. apply eq_true_iff_eq.
  rewrite matches_Lang, Lang_Rep_Cls, andb_true_iff, Nat.eqb_eq. reflexivity.
Qed.

Lemma forallb_digitCls t : forallb (in_class digitCls) t = forallb isDigit t.
Proof.
  induction t as [| c t IH]; simpl; [reflexivity |].
  rewrite IH. unfold in_class, digitCls, isDigit. simpl.
  rewrite orb_false_r. reflexivity.
Qed.

(** [validateMRN]: the trimmed value is six digits. *)
Lemma validateMRN_spec s :
  validateMRN s = (length (trim s) =? 6)%nat && forallb isDigit (trim s).
Proof.
  unfold validateMRN, reMRN. rewrite test_Rep_Cls, forallb_digitCls.
  destruct s; reflexivity.
Qed.

(** [validateNPI]: the trimmed value is ten digits. *)
Lemma validateNPI_spec s :
  validateNPI s = (length (trim s) =? 10)%nat && forallb isDigit (trim s).
Proof.
  unfold validateNPI, reNPI. rewrite test_Rep_Cls, forallb_digitCls.
  destruct s; reflexivity.
Qed.

Lemma existsb_digit_class t :
  existsb (in_class [ClsDigit]) t = existsb isDigit t.
Proof.
  induction t as [| c t IH]; simpl; [reflexivity |].
  rewrite IH. unfold in_class. simpl. rewrite orb_false_r. reflexivity.
Qed.

(** What [validateName] computes, without the regular expressions. *)
Lemma validateName_unfold s :
  validateName s
  = negb (falsy (trim s)) && forallb nameChar (trim s)
    && negb (existsb isDigit (trim s)).
Proof.
  unfold validateName. destruct s as [| c s]; [reflexivity |].
  cbn [falsy]. cbv zeta. unfold reName.
  rewrite falsy_length, test_Plus_Cls, test_search_Cls.
  destruct (falsy (trim (c :: s))) eqn:E; simpl; [reflexivity |].
  rewrite existsb_digit_class. reflexivity.
Qed.

Lemma nameChar_cases c : nameChar c = latin1NameChar c || isMathSign c.
Proof.
  unfold nameChar, nameCls, in_class, latin1NameChar, latin1Letter, isMathSign.
  cbn [existsb in_item].
  generalize (isWhiteSpace c) as w. intros w.
  split_cmp; simpl; destruct w; reflexivity.
Qed.

Lemma nameChar_not_digit c : nameChar c = true -> isDigit c = false.
Proof.
  unfold nameChar, nameCls, in_class, isDigit. cbn [existsb in_item].
  unfold isWhiteSpace.
  destruct (N.leb_spec 48 c); [| reflexivity].
  destruct (N.leb_spec c 57); [| reflexivity].
  intros Hn. exfalso. revert Hn.
  split_cmp; simpl; discriminate.
Qed.

Lemma forallb_nameChar_no_digit t :
  forallb nameChar t = true -> existsb isDigit t = false.
Proof.
  induction t as [| c t IH]; simpl; [reflexivity |].
  intros Hf. apply andb_true_iff in Hf as [Hc Ht].
  rewrite (nameChar_not_digit c Hc), (IH Ht). reflexivity.
Qed.

Lemma negb_existsb {A} (p : A -> bool) l :
  negb (existsb p l) = forallb (fun x => negb (p x)) l.
Proof.
  induction l as [| x l IH]; simpl; [reflexivity |].
  rewrite negb_orb, IH. reflexivity.
Qed.

Lemma forallb_nameChar_latin1 t :
  forallb (fun c => negb (isMathSign c)) t = true ->
  forallb nameChar t = forallb latin1NameChar t.
Proof.
  induction t as [| c t IH]; simpl; [reflexivity |].
  intros Hm. apply andb_true_iff in Hm as [Hc Ht].
  rewrite (IH Ht), nameChar_cases.
  apply negb_true_iff in Hc. rewrite Hc, orb_false_r. reflexivity.
Qed.

(** C7, as the specification words it, fails on the code: the name Dvořák
    consists of Latin letters only, one of them accented outside Latin-1, and
    [validateName] rejects it. *)
Lemma validateName_rejects_latin_extended :
  spec_validName dvorak = true /\ validateName dvorak = false.
Proof. split; vm_compute; reflexivity. Qed.

(** C7, with the letters that the code has: for every string whose trimmed
    value holds neither the multiplication nor the division sign, [validateName] returns true iff the
    trimmed value is non-empty, consists of Basic Latin and Latin-1 letters,
    white space, hyphens and apostrophes, and holds no digit; O'Brien,
    Mary-Jane and José are valid, John123 and John@Doe are not. *)
Theorem validateName_latin1 :
  (forall s,
     forallb (fun c => negb (isMathSign c)) (trim s) = true ->
     (validateName s = true <-> latin1_validName s = true))
  /\ validateName (js "O'Brien") = true
  /\ validateName (js "Mary-Jane") = true
  /\ validateName jose = true
  /\ validateName (js "John123") = false
  /\ validateName (js "John@Doe") = false.
Proof.
  split; [| repeat split; vm_compute; reflexivity].
  intros s Hm. rewrite validateName_unfold. unfold latin1_validName.
  rewrite (forallb_nameChar_latin1 _ Hm), negb_existsb. reflexivity.
Qed.

(** The theorem at José. *)
Lemma validateName_latin1_witness :
  forallb (fun c => negb (isMathSign c)) (trim jose) = true
  /\ (validateName jose = true <-> latin1_validName jose = true).
Proof.
  split; [vm_compute; reflexivity |].
  apply (proj1 validateName_latin1 jose). vm_compute; reflexivity.
Defined.

Section Properties.
Context `{Platform}.

(** ** Submission: field validation *)

(** C4: a submission whose fields are all valid under the field validators
    of section 4.1 is not aborted for a validation error.  The code breaks
    this: [handleSubmit] runs its own [validateField], whose name pattern has
    no accented letters and whose diagnosis pattern has no lower case, so the
    forms with first name José and with diagnosis g70.0, both free of errors
    under [validateAllFields], are aborted with a format error and nothing
    is submitted. *)
Theorem handleSubmit_aborts_valid_submission (env : Env) (st : Store) :
  validateAllFields joseForm = ∅
  /\ handleSubmit env (st, initialUI joseForm)
     = (st, alert AlertCorrectErrors
              (setErrors
                 {[ "patientFirstName" :=
                      "Name must contain only letters, spaces, hyphens, or apostrophes" ]}
                 (initialUI joseForm)))
  /\ validateAllFields lowerCodeForm = ∅
  /\ handleSubmit env (st, initialUI lowerCodeForm)
     = (st, alert AlertCorrectErrors
              (setErrors {[ "primaryDiagnosis" := "Invalid ICD-10 format" ]}
                 (initialUI lowerCodeForm))).
Proof.
  repeat split; vm_compute; reflexivity.
Qed.

(** ** String equality *)

Lemma jsstring_eqb_eq a : forall b, jsstring_eqb a b = true <-> a = b.
Proof.
  induction a as [| x a IH]; intros [| y b]; simpl; try (split; congruence).
  rewrite andb_true_iff, N.eqb_eq, IH. split; [intros [-> ->] | intros [= -> ->]]; auto.
Qed.

Lemma optstr_eqb_eq o b : optstr_eqb o b = true <-> o = Some b.
Proof.
  destruct o as [a |]; simpl; [| split; congruence].
  rewrite jsstring_eqb_eq. split; congruence.
Qed.

Lemma optstr_eqb_false o b : optstr_eqb o b = false <-> o <> Some b.
Proof.
  rewrite <- optstr_eqb_eq. destruct (optstr_eqb o b); split; congruence.
Qed.

Lemma jsstring_eqb_refl a : jsstring_eqb a a = true.
Proof. apply jsstring_eqb_eq. reflexivity. Qed.

(** ** The document store *)

Lemma getDoc_patch_eq {A} (c : Coll A) id f :
  getDoc (patch c id f) id = f <$> getDoc c id.
Proof.
  unfold getDoc. induction c as [| [i d] c IH]; simpl; [reflexivity |].
  destruct (String.eqb i id) eqn:E; simpl; rewrite E; [reflexivity | exact IH].
Qed.

Lemma getDoc_patch_ne {A} (c : Coll A) id id' f :
  id' <> id -> getDoc (patch c id f) id' = getDoc c id'.
Proof.
  intros Hne. unfold getDoc. induction c as [| [i d] c IH]; simpl; [reflexivity |].
  destruct (String.eqb i id) eqn:E; simpl.
  - apply String.eqb_eq in E. subst i.
    destruct (String.eqb id id') eqn:E'; [| reflexivity].
    apply String.eqb_eq in E'. congruence.
  - destruct (String.eqb i id'); [reflexivity | exact IH].
Qed.

Lemma patch_ids {A} (c : Coll A) id f : List.map fst (patch c id f) = List.map fst c.
Proof.
  induction c as [| [i d] c IH]; simpl; [reflexivity |].
  destruct (String.eqb i id); simpl; congruence.
Qed.

Lemma getDoc_In {A} (c : Coll A) id d :
  ids_unique c -> In (id, d) c -> getDoc c id = Some d.
Proof.
  unfold ids_unique, getDoc. induction c as [| [i x] c IH]; simpl; [tauto |].
  intros Hu [Heq | Hin].
  - injection Heq as -> ->. rewrite String.eqb_refl. reflexivity.
  - apply NoDup_cons in Hu as [Hni Hu].
    destruct (String.eqb i id) eqn:E.
    + apply String.eqb_eq in E. subst i. exfalso. apply Hni.
      apply list_elem_of_In. apply (in_map fst) in Hin. exact Hin.
    + apply IH; assumption.
Qed.

Lemma orders_updatePatientMaster env fd m st :
  orders (updatePatientMaster env fd m st) = orders st.
Proof.
  unfold updatePatientMaster.
  destruct (query (patients st) _) as [| [i p] r]; [reflexivity |].
  destruct (updateDoc _ _ _); reflexivity.
Qed.

Lemma providers_updatePatientMaster env fd m st :
  providers (updatePatientMaster env fd m st) = providers st.
Proof.
  unfold updatePatientMaster.
  destruct (query (patients st) _) as [| [i p] r]; [reflexivity |].
  destruct (updateDoc _ _ _); reflexivity.
Qed.

Lemma orders_saveProvider env fd st : orders (saveProvider env fd st) = orders st.
Proof.
  unfold saveProvider. destruct (query (providers st) _); reflexivity.
Qed.

Lemma query_nil_iff {A} (c : Coll A) p :
  query c p = [] <-> forall d, In d c -> p (snd d) = false.
Proof.
  unfold query. induction c as [| x c IH]; simpl.
  - split; [intros _ d [] | reflexivity].
  - destruct (p (snd x)) eqn:E.
    + split; [discriminate |]. intros Hall.
      rewrite (Hall x (or_introl eq_refl)) in E. discriminate.
    + rewrite IH. split.
      * intros Hall d [<- | Hin]; auto.
      * intros Hall d Hin. apply Hall. right. exact Hin.
Qed.

(** ** Provider upsert on a new order *)

(** When no provider holds the submitted NPI, [submitOrder] adds a provider
    record with order count 1. *)
Lemma saveProvider_creates env fd st :
  (forall d, In d (providers st) -> p_npi (snd d) <> Some (providerNPI fd)) ->
  providers (saveProvider env fd st)
  = providers st
    ++ [(newProviderId env,
         {| p_name := Some (referringProvider fd); p_npi := Some (providerNPI fd);
            p_firstOrderDate := Some (serverTimestamp env);
            p_orderCount := Some 1%Z |})].
Proof.
  intros Hnone. unfold saveProvider.
  replace (query (providers st) _) with (@nil (DocId * ProviderDoc)); [reflexivity |].
  symmetry. apply query_nil_iff. intros d Hin.
  apply optstr_eqb_false. apply Hnone, Hin.
Qed.

(** When a provider holds the submitted NPI, the stored providers are left
    as they are and a further document, holding a count and nothing else,
    is added. *)
Lemma saveProvider_existing env fd st d :
  In d (providers st) -> p_npi (snd d) = Some (providerNPI fd) ->
  providers (saveProvider env fd st)
  = providers st
    ++ [(newProviderId env,
         {| p_name := None; p_npi := None; p_firstOrderDate := None;
            p_orderCount := Some 1%Z |})].
Proof.
  intros Hin Hnpi. unfold saveProvider.
  destruct (query (providers st) _) as [| x r] eqn:E; [| reflexivity].
  exfalso. rewrite query_nil_iff in E. specialize (E d Hin).
  apply optstr_eqb_false in E. contradiction.
Qed.

(** C1: on a new order whose NPI is already on record, the provider record's
    order count goes up by one and no provider document is created.  The code
    breaks this: lines 346-350 of [submitOrder] call [addDoc] where the
    patient path calls [updateDoc], so the record on file keeps its count of
    1 and a second document, holding only a count, is added. *)
Theorem submitOrder_existing_provider_count_unchanged :
  providers (fst (submitOrder okEnv (storeWithProvider, initialUI validForm)))
  = [("provider-1", drSmith);
     ("provider-new",
      {| p_name := None; p_npi := None; p_firstOrderDate := None;
         p_orderCount := Some 1%Z |})]
  /\ p_orderCount drSmith = Some 1%Z
  /\ getDoc (orders (fst (submitOrder okEnv (storeWithProvider, initialUI validForm))))
       "order-new"
     = Some (newOrderDoc okEnv validForm planText).
Proof. repeat split. Qed.

(** ** Versioned update *)

Lemma orders_handleSubmitUpdate_ok env st ui dupId existingData plan d :
  duplicateFound ui = Some (dupId, existingData) ->
  getDoc (orders st) dupId = Some d ->
  generateCarePlan (backend env (updatedFormData (formData ui) (updateFields ui)))
  = Ok plan ->
  orders (fst (handleSubmitUpdate env (st, ui)))
  = patch (orders st) dupId (updatePatch env existingData (updateFields ui) plan).
Proof.
  intros Hdup Hget Hgen. unfold handleSubmitUpdate. rewrite Hdup. simpl.
  rewrite Hgen. unfold updateDoc. rewrite Hget. simpl.
  apply orders_updatePatientMaster.
Qed.

(** C2: a confirmed update, whose plan generation succeeds, on the record
    that the duplicate prompt holds: the stored history becomes the previous
    history with exactly one entry appended at its end, that entry holds the
    values stored before the update (additional diagnoses, medication
    history, clinical-record text, care-plan text), and the live
    clinical-record field holds the newly submitted text.  Every other order
    is left as it was. *)
Theorem handleSubmitUpdate_appends_snapshot
  (env : Env) (st : Store) (ui : UI) (dupId : DocId) (existingData : OrderDoc)
  (plan : jsstring) :
  duplicateFound ui = Some (dupId, existingData) ->
  getDoc (orders st) dupId = Some existingData ->
  generateCarePlan (backend env (updatedFormData (formData ui) (updateFields ui)))
  = Ok plan ->
  let st' := fst (handleSubmitUpdate env (st, ui)) in
  (exists d',
     getDoc (orders st') dupId = Some d'
     /\ o_history d'
        = Some (default [] (o_history existingData)
                ++ [ {| h_timestamp := clientNow env;
                        h_additionalDiagnoses :=
                          default [] (o_additionalDiagnoses existingData);
                        h_medicationHistory :=
                          default [] (o_medicationHistory existingData);
                        h_patientRecords := default [] (o_patientRecords existingData);
                        h_carePlan := default [] (o_carePlan existingData) |} ])
     /\ o_patientRecords d' = Some (u_patientRecords (updateFields ui))
     /\ o_additionalDiagnoses d'
        = Some (commaList (u_additionalDiagnoses (updateFields ui)))
     /\ o_medicationHistory d'
        = Some (commaList (u_medicationHistory (updateFields ui)))
     /\ o_carePlan d' = Some plan)
  /\ (forall id, id <> dupId -> getDoc (orders st') id = getDoc (orders st) id)
  /\ List.map fst (orders st') = List.map fst (orders st).
Proof.
  intros Hdup Hget Hgen st'. subst st'.
  rewrite (orders_handleSubmitUpdate_ok env st ui dupId existingData plan existingData)
    by assumption.
  split; [| split].
  - eexists. split.
    + rewrite getDoc_patch_eq, Hget. reflexivity.
    + repeat split.
  - intros id Hne. apply getDoc_patch_ne. exact Hne.
  - apply patch_ids.
Qed.

(** The record held by the duplicate prompt is the stored one. *)
Lemma checkForExactDuplicate_stored st fd id d :
  ids_unique (orders st) ->
  checkForExactDuplicate st fd = Some (id, d) ->
  getDoc (orders st) id = Some d.
Proof.
  intros Hu Hc. apply getDoc_In; [exact Hu |].
  unfold checkForExactDuplicate, orderQuery, query in Hc.
  apply find_some in Hc as [Hin _]. apply filter_In in Hin as [Hin _]. exact Hin.
Qed.

(** C3: when plan generation fails during a confirmed update, the store is
    left exactly as it was: no history entry, no new content, no new plan. *)
Theorem handleSubmitUpdate_generation_failure
  (env : Env) (st : Store) (ui : UI) (message : string) :
  generateCarePlan (backend env (updatedFormData (formData ui) (updateFields ui)))
  = Throw message ->
  fst (handleSubmitUpdate env (st, ui)) = st.
Proof.
  intros Hgen. unfold handleSubmitUpdate.
  destruct (duplicateFound ui) as [[dupId existingData] |]; [| reflexivity].
  simpl. rewrite Hgen. reflexivity.
Qed.

(** ** Duplicate detection *)

Lemma truthy_ne s : s <> [] -> truthy s = true.
Proof. destruct s; [contradiction | reflexivity]. Qed.

Lemma truthy_length s n : length s = S n -> truthy s = true.
Proof. destruct s; [discriminate | reflexivity]. Qed.

Lemma checkForExactDuplicate_Some st fd m :
  checkForExactDuplicate st fd = Some m -> In m (orders st) /\ sharesKeys fd (snd m).
Proof.
  unfold checkForExactDuplicate, orderQuery, query. intros Hf.
  apply find_some in Hf as [Hin Hp]. apply filter_In in Hin as [Hin Hq].
  unfold sameDiagnosisAndNPI in Hp.
  apply andb_true_iff in Hp as [H1 H2]. apply andb_true_iff in Hq as [H3 H4].
  rewrite jsstring_eqb_eq in H1, H2, H3, H4. unfold sharesKeys. auto.
Qed.

Lemma checkForExactDuplicate_finds st fd d :
  In d (orders st) -> sharesKeys fd (snd d) ->
  exists m, checkForExactDuplicate st fd = Some m.
Proof.
  intros Hin (Hm & Hmed & Hdx & Hnpi).
  destruct (checkForExactDuplicate st fd) as [m |] eqn:E; [eauto |].
  exfalso. unfold checkForExactDuplicate in E.
  assert (Hq : In d (orderQuery st fd)).
  { unfold orderQuery, query. apply filter_In. split; [exact Hin |].
    rewrite Hm, Hmed, !jsstring_eqb_refl. reflexivity. }
  pose proof (find_none _ _ E d Hq) as Hf.
  unfold sameDiagnosisAndNPI in Hf.
  rewrite Hdx, Hnpi, !jsstring_eqb_refl in Hf. discriminate.
Qed.

Lemma patientChecks_type st fd w :
  In w (patientChecks st fd) -> w_type w = Wpatient.
Proof.
  unfold patientChecks.
  destruct (_ && _); [| intros []].
  intros Hin. apply in_app_or in Hin as [Hin | Hin].
  - destruct (query _ _) as [| [i o] r]; [destruct Hin |].
    destruct (_ || _); [| destruct Hin].
    destruct Hin as [<- | []]. reflexivity.
  - destruct (query (orders st) (fun o => _ && _)) as [| [i o] r]; [destruct Hin |].
    destruct (negb _); [| destruct Hin].
    destruct Hin as [<- | []]. reflexivity.
Qed.

Lemma providerChecks_type st fd ws w :
  providerChecks st fd = Ok ws -> In w ws -> w_type w = Wprovider.
Proof.
  unfold providerChecks.
  destruct (_ && _); [| intros [= <-] []].
  set (w1 := match query (providers st) _ with [] => [] | _ => _ end).
  assert (Hw1 : forall x, In x w1 -> w_type x = Wprovider).
  { subst w1. intros x Hx.
    destruct (query _ _) as [| [i p] r]; [destruct Hx |].
    destruct (negb _); [| destruct Hx]. destruct Hx as [<- | []]. reflexivity. }
  destruct (query (providers st) (fun p => optstr_eqb (p_npi p) _)) as [| [i p] r].
  - intros [= <-]. apply Hw1.
  - destruct (p_name p); [| discriminate].
    destruct (negb _); intros [= <-]; [| apply Hw1].
    intros Hin. apply in_app_or in Hin as [Hin | [<- | []]]; [apply Hw1, Hin | reflexivity].
Qed.

Lemma providerChecks_Ok st fd :
  providers_named st -> exists ws, providerChecks st fd = Ok ws.
Proof.
  intros Hn. unfold providerChecks.
  destruct (_ && _); [| eauto].
  destruct (query (providers st) (fun p => optstr_eqb (p_npi p) _))
    as [| [i p] r] eqn:E; [eauto |].
  assert (Hin : In (i, p) (query (providers st)
            (fun p => optstr_eqb (p_npi p) (providerNPI fd))))
    by (rewrite E; left; reflexivity).
  unfold query in Hin. apply filter_In in Hin as [Hin Hp]. simpl in Hp.
  apply optstr_eqb_eq in Hp.
  specialize (Hn (i, p) Hin). simpl in Hn. rewrite Hp in Hn.
  destruct (p_name p); [| exfalso; apply Hn; [discriminate | reflexivity]].
  destruct (negb _); eauto.
Qed.

Lemma orderCheck_duplicate st fd m :
  length (patientMRN fd) = 6%nat -> length (providerNPI fd) = 10%nat ->
  medicationName fd <> [] -> primaryDiagnosis fd <> [] ->
  checkForExactDuplicate st fd = Some m ->
  orderCheck st fd = [mkWarning Worder Swarning (msgDuplicate (dateStrOf (snd m)))].
Proof.
  intros Hm Hn Hmed Hdx Hc. unfold orderCheck.
  rewrite (truthy_length _ _ Hm), (truthy_length _ _ Hn), (truthy_ne _ Hmed),
    (truthy_ne _ Hdx), Hm, Hn. simpl.
  unfold checkForExactDuplicate in Hc. rewrite Hc. reflexivity.
Qed.

Lemma warnings_checkDuplicates st ui ws :
  providerChecks st (formData ui) = Ok ws ->
  warnings (checkDuplicates st ui)
  = patientChecks st (formData ui) ++ orderCheck st (formData ui) ++ ws.
Proof.
  intros Hp. unfold checkDuplicates, computeWarnings. rewrite Hp. simpl.
  rewrite <- app_assoc. reflexivity.
Qed.

(** C5: when a stored order shares MRN, medication name, primary diagnosis
    code and provider NPI with the form (and those fields have their shape),
    the duplicate detector shows for it a warning of subject order and
    severity warning whose text names the day on which the matching order
    was created, as the locale writes it; that is the only warning of
    subject order and it is not a blocking error.  On submit, once
    validation passes and no blocking error is shown, nothing is persisted,
    no plan is generated and no alert is shown: the duplicate dialog is
    opened on the matching record.  From there cancelling closes the dialog
    and drops the record, choosing to update closes the dialog and opens the
    update form, and both leave the store as it is. *)
Theorem exact_duplicate_warns_and_prompts
  (env : Env) (st : Store) (ui : UI) (d : DocId * OrderDoc) :
  In d (orders st) ->
  sharesKeys (formData ui) (snd d) ->
  length (patientMRN (formData ui)) = 6%nat ->
  length (providerNPI (formData ui)) = 10%nat ->
  medicationName (formData ui) <> [] ->
  primaryDiagnosis (formData ui) <> [] ->
  providers_named st ->
  exists m,
    checkForExactDuplicate st (formData ui) = Some m
    /\ In m (orders st) /\ sharesKeys (formData ui) (snd m)
    /\ In (mkWarning Worder Swarning (msgDuplicate (dateStrOf (snd m))))
          (warnings (checkDuplicates st ui))
    /\ In (spec_duplicateWarning (snd m)) (warnings (checkDuplicates st ui))
    /\ (forall w, In w (warnings (checkDuplicates st ui)) ->
                  w_type w = Worder ->
                  w = spec_duplicateWarning (snd m) /\ is_error w = false)
    /\ (collectErrors (formData ui) = ∅ ->
        List.filter is_error (warnings ui) = [] ->
        let s' := handleSubmit env (st, ui) in
        s' = (st, setShowDuplicateDialog true (setDuplicateFound (Some m) ui))
        /\ fst s' = st
        /\ showDuplicateDialog (snd s') = true
        /\ duplicateFound (snd s') = Some m
        /\ showUpdateForm (snd s') = showUpdateForm ui
        /\ carePlan (snd s') = carePlan ui
        /\ alerts (snd s') = alerts ui
        /\ fst (handleCancelUpdate s') = st
        /\ showDuplicateDialog (snd (handleCancelUpdate s')) = false
        /\ duplicateFound (snd (handleCancelUpdate s')) = None
        /\ fst (handleUpdateExisting s') = st
        /\ showDuplicateDialog (snd (handleUpdateExisting s')) = false
        /\ showUpdateForm (snd (handleUpdateExisting s')) = true).
Proof.
  intros Hin Hkeys Hmrn Hnpi Hmed Hdx Hnamed.
  destruct (checkForExactDuplicate_finds st _ d Hin Hkeys) as [m Hm].
  destruct (checkForExactDuplicate_Some st _ m Hm) as [Hmin Hmkeys].
  destruct (providerChecks_Ok st (formData ui) Hnamed) as [pw Hpw].
  pose proof (orderCheck_duplicate st _ m Hmrn Hnpi Hmed Hdx Hm) as Hoc.
  exists m. split; [exact Hm |]. split; [exact Hmin |]. split; [exact Hmkeys |].
  split; [| split; [| split]].
  - rewrite (warnings_checkDuplicates st ui pw Hpw), Hoc.
    apply in_or_app. right. left. reflexivity.
  - rewrite (warnings_checkDuplicates st ui pw Hpw), Hoc.
    apply in_or_app. right. left. reflexivity.
  - intros w Hw Ht. rewrite (warnings_checkDuplicates st ui pw Hpw), Hoc in Hw.
    apply in_app_or in Hw as [Hw | [<- | Hw]].
    + apply patientChecks_type in Hw. congruence.
    + split; reflexivity.
    + apply (providerChecks_type st _ pw w Hpw) in Hw. congruence.
  - intros Hvalid Hnoblock s'. subst s'.
    unfold handleSubmit. rewrite Hvalid. simpl. rewrite Hnoblock. simpl. rewrite Hm.
    destruct m as [mid mdata]. repeat split.
Qed.

(** ** Review *)

Lemma forallb_Forall_true {A} (p : A -> bool) l :
  forallb p l = true <-> Forall (fun x => p x = true) l.
Proof.
  induction l as [| x l IH]; simpl.
  - split; constructor.
  - rewrite andb_true_iff, IH. split.
    + intros [Hx Hl]. constructor; assumption.
    + intros Hall. inversion Hall; subst. split; assumption.
Qed.

Lemma forallb_Exists_false {A} (p : A -> bool) l :
  forallb p l = false <-> Exists (fun x => p x = false) l.
Proof.
  induction l as [| x l IH]; simpl.
  - split; [discriminate | intros Hex; inversion Hex].
  - rewrite andb_false_iff, IH. split.
    + intros [Hx | Hl]; [left | right]; assumption.
    + intros Hex. inversion Hex; subst; [left | right]; assumption.
Qed.

Lemma deriveStatus_approved fb :
  deriveStatus fb = approved_status <-> Forall (fun f => approved f = true) fb.
Proof.
  rewrite <- forallb_Forall_true. unfold deriveStatus.
  destruct (forallb approved fb); split; congruence.
Qed.

Lemma deriveStatus_pending fb :
  deriveStatus fb = corrections_pending <-> Exists (fun f => approved f = false) fb.
Proof.
  rewrite <- forallb_Exists_false. unfold deriveStatus.
  destruct (forallb approved fb); split; congruence.
Qed.

(** Submitting a non-empty list of feedback items none of which holds an
    undefined field, on a selected, stored order, sets the order's approval
    status: approved iff every item's approval flag is true, and
    corrections_pending iff at least one item's flag is false. *)
Lemma handleSubmitFeedback_status
  (ts : Timestamp) (st : Store) (rv : Review) (id : DocId) (sel d : OrderDoc) :
  selectedOrder rv = Some (Some id, sel) ->
  id <> EmptyString ->
  r_pharmacistName rv <> [] ->
  feedback rv <> [] ->
  forallb definedItem (feedback rv) = true ->
  getDoc (orders st) id = Some d ->
  exists d',
    getDoc (orders (fst (handleSubmitFeedback ts (st, rv)))) id = Some d'
    /\ (o_approvalStatus d' = Some approved_status
        <-> Forall (fun f => approved f = true) (feedback rv))
    /\ (o_approvalStatus d' = Some corrections_pending
        <-> Exists (fun f => approved f = false) (feedback rv)).
Proof.
  intros Hsel Hid Hname Hfb Hdef Hget.
  unfold handleSubmitFeedback, selectedId. rewrite Hsel.
  destruct id as [| a r]; [contradiction |].
  destruct (r_pharmacistName rv) as [| c n] eqn:En; [contradiction |].
  destruct (feedback rv) as [| f fb] eqn:Ef; [contradiction |].
  cbn [falsy length Nat.eqb].
  unfold updateDoc. rewrite Hdef, Hget. cbn [fst orders setOrders].
  exists (feedbackPatch ts sel (f :: fb) d). split.
  - rewrite getDoc_patch_eq, Hget. reflexivity.
  - cbn [o_approvalStatus feedbackPatch]. split.
    + rewrite <- deriveStatus_approved. split; congruence.
    + rewrite <- deriveStatus_pending. split; congruence.
Qed.

(** ** Approval status of a new order *)

Lemma orders_submitOrder env st ui :
  orders (fst (submitOrder env (st, ui)))
  = match generateCarePlan (backend env (formData ui)) with
    | Ok plan => orders st ++ [(newOrderId env, newOrderDoc env (formData ui) plan)]
    | Throw _ => orders st
    end.
Proof.
  unfold submitOrder. cbn [formData setLoading].
  destruct (generateCarePlan _); [| reflexivity].
  cbn [fst]. rewrite orders_saveProvider, orders_updatePatientMaster. reflexivity.
Qed.

Lemma status_handleSubmitUpdate env st ui id :
  o_approvalStatus <$> getDoc (orders (fst (handleSubmitUpdate env (st, ui)))) id
  = o_approvalStatus <$> getDoc (orders st) id.
Proof.
  unfold handleSubmitUpdate.
  destruct (duplicateFound ui) as [[dupId existingData] |]; [| reflexivity].
  cbn [formData updateFields setLoading].
  destruct (generateCarePlan _); [| reflexivity].
  unfold updateDoc. destruct (getDoc (orders st) dupId) eqn:Hget; [| reflexivity].
  cbn [fst]. rewrite orders_updatePatientMaster. cbn [orders setOrders].
  destruct (decide (id = dupId)) as [-> | Hne].
  - rewrite getDoc_patch_eq, Hget. reflexivity.
  - rewrite getDoc_patch_ne by exact Hne. reflexivity.
Qed.

(** C9: every order document created by the first-submission path has an
    empty history list and no approval-status field; the update path leaves
    the status field of every order as it is; the two review actions,
    feedback submission and accepting an improved plan, write a status; and
    the pending-review listing is the query for approval status different
    from approved. *)
Theorem new_order_has_empty_history_and_no_status
  (env : Env) (st : Store) (ui : UI) :
  (exists added,
     orders (fst (handleSubmit env (st, ui))) = orders st ++ added
     /\ Forall (fun x => o_history (snd x) = Some []
                         /\ o_approvalStatus (snd x) = None) added)
  /\ orders (fst (submitOrder env (st, ui)))
     = match generateCarePlan (backend env (formData ui)) with
       | Ok plan => orders st ++ [(newOrderId env, newOrderDoc env (formData ui) plan)]
       | Throw _ => orders st
       end
  /\ (forall fd plan,
        o_history (newOrderDoc env fd plan) = Some []
        /\ o_approvalStatus (newOrderDoc env fd plan) = None)
  /\ (forall id,
        o_approvalStatus <$> getDoc (orders (fst (handleSubmitUpdate env (st, ui)))) id
        = o_approvalStatus <$> getDoc (orders st) id)
  /\ (forall ts sel fb d,
        o_approvalStatus (feedbackPatch ts sel fb d) = Some (deriveStatus fb))
  /\ (forall ts plan fb d,
        o_approvalStatus (acceptPatch ts plan fb d) = Some approved_status)
  /\ (forall rv,
        r_orders (fetchPendingOrders st rv)
        = List.map (fun x => (Some (fst x), snd x))
            (List.filter (fun x => notApproved (snd x)) (orders st)))
  /\ (forall d,
        notApproved d
        = match o_approvalStatus d with
          | Some s => bool_decide (s <> approved_status)
          | None => neMatchesMissing
          end).
Proof.
  split; [| split; [apply orders_submitOrder |]].
  - unfold handleSubmit.
    destruct (negb _); [exists []; rewrite app_nil_r; split; [reflexivity | constructor] |].
    destruct (0 <? _)%nat; [exists []; rewrite app_nil_r; split; [reflexivity | constructor] |].
    destruct (checkForExactDuplicate st (formData ui));
      [exists []; rewrite app_nil_r; split; [reflexivity | constructor] |].
    rewrite orders_submitOrder.
    destruct (generateCarePlan _);
      [| exists []; rewrite app_nil_r; split; [reflexivity | constructor]].
    eexists. split; [reflexivity |]. constructor; [| constructor]. split; reflexivity.
  - split; [intros; split; reflexivity |].
    split; [apply status_handleSubmitUpdate |].
    split; [reflexivity |]. split; [reflexivity |]. split; [reflexivity |].
    intros d. unfold notApproved. destruct (o_approvalStatus d) as [[] |]; reflexivity.
Qed.

(** ** The mismatch checks read the first matching document *)

(** C10: each of the four mismatch checks compares the form with the first
    document of its query result only.  In [conflictStore] the submitted MRN
    is on two orders, the first under the submitted name and the second under
    another; the submitted name is on two orders, the first with the
    submitted MRN and the second with another; likewise for the provider
    name and the NPI; and no warning at all, so no blocking error, is
    emitted.  With the same documents returned in the opposite order all
    four errors are emitted. *)
Theorem mismatch_checks_read_first_document_only :
  List.map (fun d => (fst d, o_patientFirstName (snd d), o_patientLastName (snd d)))
    (query (orders conflictStore)
       (fun o => jsstring_eqb (o_patientMRN o) (patientMRN validForm)))
  = [("order-1", js "John", js "Doe"); ("order-2", js "Jane", js "Roe")]
  /\ List.map (fun d => (fst d, o_patientMRN (snd d)))
       (query (orders conflictStore)
          (fun o => jsstring_eqb (o_patientFirstName o) (patientFirstName validForm)
                    && jsstring_eqb (o_patientLastName o) (patientLastName validForm)))
     = [("order-1", js "123456"); ("order-3", js "654321")]
  /\ List.map (fun d => (fst d, p_npi (snd d)))
       (query (providers conflictStore)
          (fun p => optstr_eqb (p_name p) (referringProvider validForm)))
     = [("provider-1", Some (js "1234567890")); ("provider-2", Some (js "1111111111"))]
  /\ List.map (fun d => (fst d, p_name (snd d)))
       (query (providers conflictStore)
          (fun p => optstr_eqb (p_npi p) (providerNPI validForm)))
     = [("provider-1", Some (js "Dr. Sarah Smith"));
        ("provider-3", Some (js "Dr. Jane Other"))]
  /\ computeWarnings conflictStore validForm = Ok []
  /\ warnings (checkDuplicates conflictStore (initialUI validForm)) = []
  /\ computeWarnings conflictStoreReversed validForm
     = Ok [mkWarning Wpatient Serror msgMrnMismatch;
           mkWarning Wpatient Serror msgNameMismatch;
           mkWarning Wprovider Serror msgNpiMismatch;
           mkWarning Wprovider Serror msgProviderMismatch].
Proof.
  assert (Q1 : query (orders conflictStore)
                 (fun o => jsstring_eqb (o_patientMRN o) (patientMRN validForm))
               = [("order-1", orderOf "John" "Doe" "123456" "Gamunex");
                  ("order-2", orderOf "Jane" "Roe" "123456" "Gamunex")])
    by (vm_compute; reflexivity).
  assert (Q2 : query (orders conflictStore)
                 (fun o => jsstring_eqb (o_patientFirstName o) (patientFirstName validForm)
                           && jsstring_eqb (o_patientLastName o) (patientLastName validForm))
               = [("order-1", orderOf "John" "Doe" "123456" "Gamunex");
                  ("order-3", orderOf "John" "Doe" "654321" "Gamunex")])
    by (vm_compute; reflexivity).
  assert (Q3 : query (providers conflictStore)
                 (fun p => optstr_eqb (p_name p) (referringProvider validForm))
               = [("provider-1", providerOf "Dr. Sarah Smith" "1234567890");
                  ("provider-2", providerOf "Dr. Sarah Smith" "1111111111")])
    by (vm_compute; reflexivity).
  assert (Q4 : query (providers conflictStore)
                 (fun p => optstr_eqb (p_npi p) (providerNPI validForm))
               = [("provider-1", providerOf "Dr. Sarah Smith" "1234567890");
                  ("provider-3", providerOf "Dr. Jane Other" "1234567890")])
    by (vm_compute; reflexivity).
  assert (Hc : computeWarnings conflictStore validForm = Ok []).
  { unfold computeWarnings, patientChecks, orderCheck, providerChecks.
    rewrite Q1, Q2, Q3, Q4. cbn [p_name providerOf].
    rewrite !jsstring_eqb_refl. vm_compute. reflexivity. }
  split; [rewrite Q1; reflexivity |]. split; [rewrite Q2; reflexivity |].
  split; [rewrite Q3; reflexivity |]. split; [rewrite Q4; reflexivity |].
  split; [exact Hc |]. split.
  - unfold checkDuplicates. cbn [formData initialUI]. rewrite Hc. reflexivity.
  - assert (R1 : query (orders conflictStoreReversed)
                   (fun o => jsstring_eqb (o_patientMRN o) (patientMRN validForm))
                 = [("order-2", orderOf "Jane" "Roe" "123456" "Gamunex");
                    ("order-1", orderOf "John" "Doe" "123456" "Gamunex")])
      by (vm_compute; reflexivity).
    assert (R2 : query (orders conflictStoreReversed)
                   (fun o => jsstring_eqb (o_patientFirstName o) (patientFirstName validForm)
                             && jsstring_eqb (o_patientLastName o) (patientLastName validForm))
                 = [("order-3", orderOf "John" "Doe" "654321" "Gamunex");
                    ("order-1", orderOf "John" "Doe" "123456" "Gamunex")])
      by (vm_compute; reflexivity).
    assert (R3 : query (providers conflictStoreReversed)
                   (fun p => optstr_eqb (p_name p) (referringProvider validForm))
                 = [("provider-2", providerOf "Dr. Sarah Smith" "1111111111");
                    ("provider-1", providerOf "Dr. Sarah Smith" "1234567890")])
      by (vm_compute; reflexivity).
    assert (R4 : query (providers conflictStoreReversed)
                   (fun p => optstr_eqb (p_npi p) (providerNPI validForm))
                 = [("provider-3", providerOf "Dr. Jane Other" "1234567890");
                    ("provider-1", providerOf "Dr. Sarah Smith" "1234567890")])
      by (vm_compute; reflexivity).
    unfold computeWarnings, patientChecks, orderCheck, providerChecks.
    rewrite R1, R2, R3, R4. cbn [p_name providerOf].
    ascii_lower. vm_compute. reflexivity.
Qed.

(** ** Export *)

(** What the three filters of [handleExport] keep: the filters that are set
    combine by conjunction, and the order of the rows is that of the store.
    The end of the range is 23:59:59.000, local time, of the end date. *)
Lemma exportSelection_filter st ex :
  exportSelection st ex
  = List.filter (fun x => startOk ex (snd x) && endOk ex (snd x)
                          && medicationOk ex (snd x)) (orders st).
Proof.
  unfold exportSelection, byMedication, byEnd, byStart, startOk, endOk, medicationOk.
  induction (orders st) as [| x l IH]; simpl.
  - destruct (startDate ex), (endDate ex), (_ && _); reflexivity.
  - destruct (startDate ex) as [s |], (endDate ex) as [e |],
      (truthy (medFilter ex) && truthy (trim (medFilter ex))); simpl in *;
      repeat (match goal with
              | |- context [if ?b then _ else _] => destruct b eqn:?; simpl
              end);
      rewrite <- ?IH; try reflexivity; try congruence.
Qed.

(** The medication filter of the example: priv matches Privigen and not
    Albuterol, whatever the case of the letters. *)
Lemma medication_filter_example :
  includes (toLowerCase (js "Privigen")) (toLowerCase (js "priv")) = true
  /\ includes (toLowerCase (js "Albuterol")) (toLowerCase (js "priv")) = false
  /\ includes (toLowerCase (js "PRIVIGEN")) (toLowerCase (js "Priv")) = true.
Proof. repeat split; ascii_lower; vm_compute; reflexivity. Qed.

(** An instant after 23:59:59.000 of the end date and before the next
    midnight falls on the end date and fails the end filter. *)
Lemma end_filter_cuts_last_second (day : Z) (o : OrderDoc) (t : Z) :
  orderDate o = Some t ->
  (localLastSecond day < t < localMidnight (day + 1))%Z ->
  localDayOf t = day /\ onOrBefore o (localLastSecond day) = false.
Proof.
  intros Ho [Hlo Hhi]. unfold onOrBefore. rewrite Ho. split.
  - unfold localDayOf, localLastSecond, localMidnight, msPerDay in *.
    symmetry. apply (Z.div_unique _ _ _ (t + tzOffsetMs - day * 86400000)); lia.
  - apply Z.leb_gt. exact Hlo.
Qed.

End Properties.

(** ** Concrete runs *)

(** An update of the one stored order: its history, empty before, holds the
    earlier records and plan afterwards. *)
Lemma handleSubmitUpdate_appends_snapshot_witness :
  exists d',
    getDoc (orders (fst (handleSubmitUpdate okEnv (dupStore, promptUI)))) "order-1"
    = Some d'
    /\ o_history d'
       = Some [ {| h_timestamp := clientNow okEnv;
                   h_additionalDiagnoses := [];
                   h_medicationHistory := [];
                   h_patientRecords := js "Earlier records";
                   h_carePlan := js "Earlier plan" |} ]
    /\ o_patientRecords d' = Some (js "New clinical notes").
Proof.
  destruct (handleSubmitUpdate_appends_snapshot okEnv dupStore promptUI "order-1"
              existingOrder planText eq_refl eq_refl eq_refl)
    as [(d' & Hget & Hhist & Hrec & _) _].
  exists d'. split; [exact Hget |]. split; [exact Hhist | exact Hrec].
Defined.

(** The backend is down during an update. *)
Lemma handleSubmitUpdate_generation_failure_witness :
  generateCarePlan
    (backend downEnv (updatedFormData (formData promptUI) (updateFields promptUI)))
  = Throw "Cannot connect to API server. Make sure the backend server is running."
  /\ fst (handleSubmitUpdate downEnv (dupStore, promptUI)) = dupStore.
Proof.
  split; [reflexivity |].
  apply (handleSubmitUpdate_generation_failure downEnv dupStore promptUI
           "Cannot connect to API server. Make sure the backend server is running.").
  reflexivity.
Defined.

Lemma dupStore_providers_named : providers_named dupStore.
Proof. intros d [<- | []] _. discriminate. Defined.

(** Resubmitting the four keys of the stored order. *)
Lemma exact_duplicate_warns_and_prompts_witness :
  exists m,
    checkForExactDuplicate dupStore validForm = Some m
    /\ In (mkWarning Worder Swarning
             (msgDuplicate (@dateStrOf latin1Platform (snd m))))
          (warnings (@checkDuplicates latin1Platform dupStore (initialUI validForm)))
    /\ In (@spec_duplicateWarning latin1Platform (snd m))
          (warnings (@checkDuplicates latin1Platform dupStore (initialUI validForm)))
    /\ handleSubmit okEnv (dupStore, initialUI validForm)
       = (dupStore,
          setShowDuplicateDialog true (setDuplicateFound (Some m) (initialUI validForm)))
    /\ showDuplicateDialog (snd (handleSubmit okEnv (dupStore, initialUI validForm)))
       = true
    /\ duplicateFound (snd (handleSubmit okEnv (dupStore, initialUI validForm)))
       = Some m.
Proof.
  destruct (@exact_duplicate_warns_and_prompts latin1Platform okEnv dupStore
              (initialUI validForm) ("order-1", existingOrder))
    as (m & Hm & _ & _ & Hw & Hsw & _ & Hs).
  - left; reflexivity.
  - repeat split.
  - reflexivity.
  - reflexivity.
  - discriminate.
  - discriminate.
  - exact dupStore_providers_named.
  - exists m. split; [exact Hm |]. split; [exact Hw |]. split; [exact Hsw |].
    assert (Hv : collectErrors validForm = ∅) by (vm_compute; reflexivity).
    destruct (Hs Hv eq_refl) as (He & _ & Hd & Hf & _).
    split; [exact He |]. split; [exact Hd | exact Hf].
Defined.

(** C6: for every non-empty list of feedback items submitted on an order,
    the order's approval status is set to approved iff every item's flag is
    true and to corrections_pending if one is false.  The code breaks this
    for items that leave an optional text empty.  The two items below are
    added through [handleAddFeedback] with a section name only, one of them
    not approved; their texts are stored as [undefined], the write of
    [handleSubmitFeedback] is refused for it, the store is left as it was,
    the order has no approval status, and an error is shown. *)
Theorem handleSubmitFeedback_undefined_text_sets_no_status :
  List.map approved (feedback addedReview) = [true; false]
  /\ selectedOrder addedReview = Some (Some "order-1", existingOrder)
  /\ r_pharmacistName addedReview <> []
  /\ getDoc (orders dupStore) "order-1" = Some existingOrder
  /\ fst (@handleSubmitFeedback latin1Platform (serverTimestamp okEnv)
            (dupStore, addedReview)) = dupStore
  /\ o_approvalStatus
       <$> getDoc (orders (fst (@handleSubmitFeedback latin1Platform
                                  (serverTimestamp okEnv) (dupStore, addedReview))))
             "order-1"
     = Some None
  /\ r_alerts (snd (@handleSubmitFeedback latin1Platform (serverTimestamp okEnv)
                      (dupStore, addedReview)))
     = [AlertFeedbackError
          ("Error submitting feedback: "
           +:+ "Function updateDoc() called with invalid data. Unsupported field value: undefined")].
Proof.
  split; [reflexivity |]. split; [reflexivity |]. split; [discriminate |].
  split; [reflexivity |]. split; [vm_compute; reflexivity |].
  split; vm_compute; reflexivity.
Qed.

(** C8: the export selects exactly the orders that satisfy every active
    filter, the end date included.  The code breaks this for the last second
    of the end date: its end of range is 23:59:59.000, so the order created
    at 23:59:59.500 on the end date, which falls on that day, is left out,
    while the order created at noon is selected. *)
Theorem export_leaves_out_last_second_of_end_date :
  @localDayOf latin1Platform (toMillis {| seconds := 1704067199; nanoseconds := 500000000 |})
  = 19722%Z
  /\ In ("order-late", lateOrder) (orders yearEndStore)
  /\ @exportSelection latin1Platform yearEndStore yearEndExport
     = [("order-noon", noonOrder)].
Proof.
  split; [vm_compute; reflexivity |]. split; [right; left; reflexivity |].
  vm_compute. reflexivity.
Qed.

(** ** Further properties: trimming *)

Lemma forallb_rev {A} (p : A -> bool) l : forallb p (rev l) = forallb p l.
Proof.
  induction l as [| x l IH]; simpl; [reflexivity |].
  rewrite forallb_app, IH. simpl. rewrite andb_true_r. apply andb_comm.
Qed.

Lemma trimStart_nil_iff s : trimStart s = [] <-> forallb isWhiteSpace s = true.
Proof.
  induction s as [| c s IH]; simpl; [tauto |].
  destruct (isWhiteSpace c); simpl; [exact IH | split; discriminate].
Qed.

Lemma trimStart_head s c r : trimStart s = c :: r -> isWhiteSpace c = false.
Proof.
  induction s as [| x s IH]; simpl; [discriminate |].
  destruct (isWhiteSpace x) eqn:E; [exact IH |]. intros [= -> _]. exact E.
Qed.

Lemma trimStart_forallb p s : forallb p s = true -> forallb p (trimStart s) = true.
Proof.
  induction s as [| c s IH]; simpl; [reflexivity |].
  intros Hf. destruct (isWhiteSpace c); [| exact Hf].
  apply andb_true_iff in Hf as [_ Hs]. apply IH, Hs.
Qed.

Lemma trimStart_fixed s :
  match s with c :: _ => isWhiteSpace c = false | [] => True end -> trimStart s = s.
Proof. destruct s as [| c s]; simpl; [reflexivity |]. intros ->. reflexivity. Qed.

Lemma trimStart_app_ws a s : forallb isWhiteSpace a = true -> trimStart (a ++ s) = trimStart s.
Proof.
  induction a as [| c a IH]; simpl; [reflexivity |].
  intros Hf. apply andb_true_iff in Hf as [-> Ha]. apply IH, Ha.
Qed.

Lemma trim_forallb p s : forallb p s = true -> forallb p (trim s) = true.
Proof.
  intros Hf. unfold trim, trimEnd. rewrite forallb_rev.
  apply trimStart_forallb. rewrite forallb_rev. apply trimStart_forallb, Hf.
Qed.

Lemma trim_nil_iff s : trim s = [] <-> forallb isWhiteSpace s = true.
Proof.
  unfold trim, trimEnd. rewrite <- trimStart_nil_iff.
  split.
  - intros Hr. apply (f_equal (@rev N)) in Hr. rewrite rev_involutive in Hr.
    simpl in Hr. apply trimStart_nil_iff in Hr. rewrite forallb_rev in Hr.
    destruct (trimStart s) as [| c r] eqn:E; [reflexivity |].
    apply trimStart_head in E. simpl in Hr. rewrite E in Hr. discriminate.
  - intros ->. reflexivity.
Qed.

Lemma trim_no_space s :
  forallb (fun c => negb (isWhiteSpace c)) s = true -> trim s = s.
Proof.
  intros Hf. unfold trim, trimEnd.
  assert (Hs : forall l, forallb (fun c => negb (isWhiteSpace c)) l = true ->
                         trimStart l = l).
  { intros l Hl. apply trimStart_fixed. destruct l as [| c l]; [exact I |].
    simpl in Hl. apply andb_true_iff in Hl as [Hc _]. apply negb_true_iff, Hc. }
  rewrite (Hs s Hf), Hs by (rewrite forallb_rev; exact Hf).
  apply rev_involutive.
Qed.

Lemma forallb_impl {A} (p q : A -> bool) l :
  (forall x, p x = true -> q x = true) -> forallb p l = true -> forallb q l = true.
Proof.
  intros Hpq. induction l as [| x l IH]; simpl; [reflexivity |].
  intros Hf. apply andb_true_iff in Hf as [Hx Hl]. rewrite (Hpq x Hx), (IH Hl). reflexivity.
Qed.

Lemma digit_not_space c : isDigit c = true -> negb (isWhiteSpace c) = true.
Proof.
  unfold isDigit, isWhiteSpace. intros Hd.
  apply andb_true_iff in Hd as [H1 H2]. apply N.leb_le in H1, H2.
  split_cmp; reflexivity.
Qed.

(** ** Further properties: the validators of validation.ts *)

(** X1: [validateMRN] accepts exactly the strings whose trimmed value is six
    decimal digits, and [validateNPI] those whose trimmed value is ten. *)
Theorem validateMRN_validateNPI_digits (s : jsstring) :
  (validateMRN s = true
   <-> length (trim s) = 6%nat /\ Forall (fun c => isDigit c = true) (trim s))
  /\ (validateNPI s = true
      <-> length (trim s) = 10%nat /\ Forall (fun c => isDigit c = true) (trim s)).
Proof.
  rewrite validateMRN_spec, validateNPI_spec, !andb_true_iff, !Nat.eqb_eq,
    forallb_Forall_true. tauto.
Qed.

(** X2: [validateRequiredField] is true exactly when the value holds a code
    unit that is not white space; the empty string and white space only are
    rejected. *)
Theorem validateRequiredField_non_blank (value : jsstring) :
  validateRequiredField value = existsb (fun c => negb (isWhiteSpace c)) value.
Proof.
  unfold validateRequiredField.
  assert (Hn : existsb (fun c => negb (isWhiteSpace c)) value
               = negb (forallb isWhiteSpace value)).
  { induction value as [| c v IH]; simpl; [reflexivity |].
    rewrite IH, negb_andb. reflexivity. }
  rewrite Hn. destruct (forallb isWhiteSpace value) eqn:E.
  - apply trim_nil_iff in E. rewrite E. simpl. apply andb_false_r.
  - destruct (trim value) as [| c r] eqn:Et.
    + apply trim_nil_iff in Et. congruence.
    + destruct value; [discriminate | reflexivity].
Qed.

Lemma Lang_Opt_Star_Cls x items rest :
  Lang (Seq (Opt (Cls [Range x x])) (Star (Cls items))) rest
  <-> forallb (in_class items) rest = true
      \/ exists r, rest = x :: r /\ forallb (in_class items) r = true.
Proof.
  split.
  - intros HL. apply Lang_Seq_inv in HL as (s1 & s2 & -> & H1 & H2).
    apply Lang_Star_Cls in H2. unfold Opt in H1.
    apply Lang_Alt_inv in H1 as [H1 | H1].
    + apply Lang_Eps_inv in H1 as ->. left. exact H2.
    + apply Lang_Cls_inv in H1 as (c & -> & Hc). right. exists s2.
      unfold in_class in Hc. simpl in Hc. rewrite orb_false_r in Hc.
      apply andb_true_iff in Hc as [Ha Hb]. apply N.leb_le in Ha, Hb.
      assert (c = x) as -> by lia. split; [reflexivity | exact H2].
  - intros [Hf | (r & -> & Hf)].
    + change rest with ([] ++ rest). constructor; [unfold Opt; auto |].
      apply Lang_Star_Cls, Hf.
    + change (x :: r) with ([x] ++ r). constructor.
      * unfold Opt. apply LAltR. constructor. unfold in_class. simpl.
        rewrite !N.leb_refl. reflexivity.
      * apply Lang_Star_Cls, Hf.
Qed.

Lemma dot_not_alnum : in_class [Range 48 57; Range 65 90] 46 = false.
Proof. reflexivity. Qed.

Lemma test_reICD10 w : test_anchored reICD10 w = icd10ShapeUpper w.
Proof.
  unfold test_anchored, reICD10. apply eq_true_iff_eq. rewrite matches_Lang. split.
  - intros HL. apply Lang_Seq_inv in HL as (s1 & s2 & -> & H1 & H2).
    apply Lang_Cls_inv in H1 as (c & -> & Hc).
    apply Lang_Seq_inv in H2 as (s3 & s4 & -> & H3 & H4).
    apply Lang_Rep_Cls in H3 as [Hl Hd].
    destruct s3 as [| d1 [| d2 [| ? ?]]]; try discriminate.
    cbn [forallb] in Hd. apply andb_true_iff in Hd as [Hd1 Hd2].
    apply andb_true_iff in Hd2 as [Hd2 _].
    apply Lang_Opt_Star_Cls in H4. cbn [app icd10ShapeUpper].
    rewrite Hc, Hd1, Hd2. cbn [andb].
    destruct H4 as [Hf | (r & -> & Hf)].
    + destruct s4 as [| x r]; [reflexivity |].
      destruct (N.eqb_spec x 46) as [-> | Hne]; [| exact Hf].
      cbn [forallb] in Hf. rewrite dot_not_alnum in Hf. discriminate.
    + rewrite N.eqb_refl. exact Hf.
  - destruct w as [| c [| d1 [| d2 rest]]]; cbn [icd10ShapeUpper]; try discriminate.
    intros Hs. apply andb_true_iff in Hs as [Hs Hrest].
    apply andb_true_iff in Hs as [Hs Hd2]. apply andb_true_iff in Hs as [Hc Hd1].
    change (c :: d1 :: d2 :: rest) with ([c] ++ [d1; d2] ++ rest).
    constructor; [constructor; exact Hc |]. constructor.
    + apply Lang_Rep_Cls. cbn [forallb length]. rewrite Hd1, Hd2. auto.
    + apply Lang_Opt_Star_Cls. destruct rest as [| x r]; [left; reflexivity |].
      destruct (N.eqb_spec x 46) as [-> | Hne]; [right; eauto | left; exact Hrest].
Qed.

Lemma canonicalize_classes c :
  in_class upperCls (canonicalize c) = isAsciiLetter c
  /\ in_class digitCls (canonicalize c) = isDigit c
  /\ in_class [Range 48 57; Range 65 90] (canonicalize c) = isAsciiAlnum c
  /\ (canonicalize c =? 46) = (c =? 46).
Proof.
  unfold canonicalize, isAsciiAlnum, isAsciiLetter, isDigit, in_class, upperCls, digitCls.
  cbn [existsb in_item].
  destruct (N.leb_spec 97 c); destruct (N.leb_spec c 122); cbn [andb];
    repeat split; split_cmp; reflexivity.
Qed.

Lemma forallb_map_canonicalize r :
  forallb (in_class [Range 48 57; Range 65 90]) (List.map canonicalize r)
  = forallb isAsciiAlnum r.
Proof.
  induction r as [| c r IH]; cbn [List.map forallb]; [reflexivity |].
  rewrite IH. destruct (canonicalize_classes c) as (_ & _ & -> & _). reflexivity.
Qed.

Lemma validateICD10_icd10Shape (code : jsstring) :
  validateICD10 code = icd10Shape (trim code).
Proof.
  unfold validateICD10.
  destruct code as [| c0 s0]; [reflexivity |]. cbn [falsy].
  unfold test_anchored_i. change (matches reICD10 ?w) with (test_anchored reICD10 w).
  rewrite test_reICD10.
  destruct (trim (c0 :: s0)) as [| c [| d1 [| d2 rest]]]; try reflexivity.
  cbn [List.map icd10ShapeUpper icd10Shape].
  destruct (canonicalize_classes c) as (-> & _).
  destruct (canonicalize_classes d1) as (_ & -> & _).
  destruct (canonicalize_classes d2) as (_ & -> & _).
  f_equal. destruct rest as [| x r]; [reflexivity |]. cbn [List.map].
  destruct (canonicalize_classes x) as (_ & _ & Hx & ->).
  destruct (x =? 46); [apply forallb_map_canonicalize |].
  change (canonicalize x :: List.map canonicalize r) with (List.map canonicalize (x :: r)).
  apply forallb_map_canonicalize.
Qed.

(** X3: [validateICD10] accepts exactly the strings whose trimmed value is a
    letter, two digits, an optional dot and then letters and digits only,
    the letters in either case. *)
Theorem validateICD10_shape (code : jsstring) :
  validateICD10 code = icd10Shape (trim code).
Proof. apply validateICD10_icd10Shape. Qed.

(** ** Further properties: the batch validator *)

Lemma required_of_trim s : trim s <> [] -> validateRequiredField s = true.
Proof.
  intros Hne. unfold validateRequiredField.
  destruct s as [| c s]; [contradiction |].
  destruct (trim (c :: s)); [contradiction | reflexivity].
Qed.

Lemma validateName_required s : validateName s = true -> validateRequiredField s = true.
Proof.
  rewrite validateName_unfold. intros Hv. apply required_of_trim.
  destruct (trim s); [discriminate | discriminate].
Qed.

Lemma validateMRN_required s : validateMRN s = true -> validateRequiredField s = true.
Proof.
  rewrite validateMRN_spec. intros Hv. apply required_of_trim.
  destruct (trim s); [discriminate | discriminate].
Qed.

Lemma validateNPI_required s : validateNPI s = true -> validateRequiredField s = true.
Proof.
  rewrite validateNPI_spec. intros Hv. apply required_of_trim.
  destruct (trim s); [discriminate | discriminate].
Qed.

Lemma validateICD10_required s : validateICD10 s = true -> validateRequiredField s = true.
Proof.
  rewrite validateICD10_icd10Shape. intros Hv. apply required_of_trim.
  destruct (trim s); [discriminate | discriminate].
Qed.

Lemma step1_empty (c : bool) (k v : string) (e : gmap string string) :
  (if c then <[k := v]> e else e) = ∅ <-> c = false /\ e = ∅.
Proof.
  destruct c.
  - split; [intros Hi; exfalso; exact (insert_non_empty _ _ _ Hi) | intros [? _]; discriminate].
  - tauto.
Qed.

Lemma step2_empty (c1 c2 : bool) (k v1 v2 : string) (e : gmap string string) :
  (if c1 then <[k := v1]> e else if c2 then <[k := v2]> e else e) = ∅
  <-> c1 = false /\ c2 = false /\ e = ∅.
Proof.
  destruct c1.
  - split; [intros Hi; exfalso; exact (insert_non_empty _ _ _ Hi) | intros [? _]; discriminate].
  - rewrite step1_empty. tauto.
Qed.

Lemma validateAllFields_empty_conditions (fd : FormData) :
  validateAllFields fd = ∅
  <-> validateName (patientFirstName fd) = true
      /\ validateName (patientLastName fd) = true
      /\ validateMRN (patientMRN fd) = true
      /\ validateICD10 (primaryDiagnosis fd) = true
      /\ validateNPI (providerNPI fd) = true
      /\ validateRequiredField (referringProvider fd) = true
      /\ validateRequiredField (medicationName fd) = true
      /\ validateRequiredField (patientRecords fd) = true.
Proof.
  unfold validateAllFields. cbv zeta.
  rewrite !step1_empty, !step2_empty, !negb_false_iff.
  split; [tauto |].
  intros (H1 & H2 & H3 & H4 & H5 & H6 & H7 & H8).
  pose proof (validateName_required _ H1). pose proof (validateName_required _ H2).
  pose proof (validateMRN_required _ H3). pose proof (validateICD10_required _ H4).
  pose proof (validateNPI_required _ H5). tauto.
Qed.

(** X4: the batch validator returns an empty mapping exactly when both
    names, the MRN, the diagnosis code and the NPI pass their validators and
    provider, medication and clinical records are not blank. *)
Theorem validateAllFields_empty_iff (fd : FormData) :
  validateAllFields fd = ∅
  <-> validateName (patientFirstName fd) = true
      /\ validateName (patientLastName fd) = true
      /\ validateMRN (patientMRN fd) = true
      /\ validateICD10 (primaryDiagnosis fd) = true
      /\ validateNPI (providerNPI fd) = true
      /\ validateRequiredField (referringProvider fd) = true
      /\ validateRequiredField (medicationName fd) = true
      /\ validateRequiredField (patientRecords fd) = true.
Proof. apply validateAllFields_empty_conditions. Qed.

Lemma step1_lookup (c : bool) (k v k' : string) (e : gmap string string) :
  (if c then <[k := v]> e else e) !! k'
  = if String.eqb k k' then (if c then Some v else e !! k') else e !! k'.
Proof.
  destruct (String.eqb_spec k k') as [-> | Hne]; destruct c; try reflexivity.
  - apply lookup_insert_eq.
  - apply lookup_insert_ne. exact Hne.
Qed.

Lemma step2_lookup (c1 c2 : bool) (k v1 v2 k' : string) (e : gmap string string) :
  (if c1 then <[k := v1]> e else if c2 then <[k := v2]> e else e) !! k'
  = if String.eqb k k'
    then (if c1 then Some v1 else if c2 then Some v2 else e !! k')
    else e !! k'.
Proof.
  destruct c1; [| apply step1_lookup].
  destruct (String.eqb_spec k k') as [-> | Hne].
  - apply lookup_insert_eq.
  - apply lookup_insert_ne. exact Hne.
Qed.

(** The error that the batch validator holds for a key, whatever the other
    fields are. *)
Lemma validateAllFields_at (fd : FormData) (k : string) :
  validateAllFields fd !! k
  = if String.eqb "patientRecords" k then
      if negb (validateRequiredField (patientRecords fd))
      then Some "Patient records are required" else None
    else if String.eqb "medicationName" k then
      if negb (validateRequiredField (medicationName fd))
      then Some "Medication name is required" else None
    else if String.eqb "referringProvider" k then
      if negb (validateRequiredField (referringProvider fd))
      then Some "Referring provider is required" else None
    else if String.eqb "providerNPI" k then
      if negb (validateRequiredField (providerNPI fd))
      then Some "Provider NPI is required"
      else if negb (validateNPI (providerNPI fd))
      then Some "Must be exactly 10 digits" else None
    else if String.eqb "primaryDiagnosis" k then
      if negb (validateRequiredField (primaryDiagnosis fd))
      then Some "Primary diagnosis is required"
      else if negb (validateICD10 (primaryDiagnosis fd))
      then Some "Invalid ICD-10 format" else None
    else if String.eqb "patientMRN" k then
      if negb (validateRequiredField (patientMRN fd))
      then Some "MRN is required"
      else if negb (validateMRN (patientMRN fd))
      then Some "Must be exactly 6 digits" else None
    else if String.eqb "patientLastName" k then
      if negb (validateRequiredField (patientLastName fd))
      then Some "Last name is required"
      else if negb (validateName (patientLastName fd))
      then Some "Invalid name format" else None
    else if String.eqb "patientFirstName" k then
      if negb (validateRequiredField (patientFirstName fd))
      then Some "First name is required"
      else if negb (validateName (patientFirstName fd))
      then Some "Invalid name format" else None
    else None.
Proof.
  unfold validateAllFields. cbv zeta.
  rewrite !step1_lookup, !step2_lookup, lookup_empty.
  repeat match goal with
         | |- context [String.eqb ?a k] => destruct (String.eqb_spec a k); subst
         end; cbn; repeat match goal with
                          | |- context [negb ?b] => destruct b; cbn
                          end; reflexivity.
Qed.

(** X5: in the batch validator each field is judged on its own: a blank
    field gets its required message, a non-blank field that fails its format
    gets the format message, a valid field has no key, whatever the other
    fields hold; the two array fields never get a key. *)
Theorem validateAllFields_per_field (fd : FormData) :
  validateAllFields fd !! "patientMRN"
  = (if negb (validateRequiredField (patientMRN fd)) then Some "MRN is required"
     else if negb (validateMRN (patientMRN fd)) then Some "Must be exactly 6 digits"
     else None)
  /\ validateAllFields fd !! "providerNPI"
     = (if negb (validateRequiredField (providerNPI fd)) then Some "Provider NPI is required"
        else if negb (validateNPI (providerNPI fd)) then Some "Must be exactly 10 digits"
        else None)
  /\ validateAllFields fd !! "primaryDiagnosis"
     = (if negb (validateRequiredField (primaryDiagnosis fd))
        then Some "Primary diagnosis is required"
        else if negb (validateICD10 (primaryDiagnosis fd)) then Some "Invalid ICD-10 format"
        else None)
  /\ validateAllFields fd !! "patientFirstName"
     = (if negb (validateRequiredField (patientFirstName fd))
        then Some "First name is required"
        else if negb (validateName (patientFirstName fd)) then Some "Invalid name format"
        else None)
  /\ validateAllFields fd !! "patientLastName"
     = (if negb (validateRequiredField (patientLastName fd))
        then Some "Last name is required"
        else if negb (validateName (patientLastName fd)) then Some "Invalid name format"
        else None)
  /\ validateAllFields fd !! "referringProvider"
     = (if negb (validateRequiredField (referringProvider fd))
        then Some "Referring provider is required" else None)
  /\ validateAllFields fd !! "medicationName"
     = (if negb (validateRequiredField (medicationName fd))
        then Some "Medication name is required" else None)
  /\ validateAllFields fd !! "patientRecords"
     = (if negb (validateRequiredField (patientRecords fd))
        then Some "Patient records are required" else None)
  /\ validateAllFields fd !! "additionalDiagnoses" = None
  /\ validateAllFields fd !! "medicationHistory" = None.
Proof.
  rewrite !validateAllFields_at. repeat split.
Qed.

(** ** Further properties: the form's own validation *)

Lemma collect_fold_empty (fd : FormData) (l : list FieldName) :
  forall e : gmap string string,
    fold_left (fun (newErrors : gmap string string) field =>
      let error := validateField (field_key field) (field_value fd field) in
      match error with
      | EmptyString => newErrors
      | _ => <[field_key field := error]> newErrors
      end) l e = ∅
    <-> e = ∅
        /\ Forall (fun field =>
                     validateField (field_key field) (field_value fd field) = EmptyString) l.
Proof.
  induction l as [| f l IH]; intros e; cbn [fold_left].
  - split; [intros ->; split; [reflexivity | constructor] | tauto].
  - rewrite IH. cbv zeta.
    destruct (validateField (field_key f) (field_value fd f)) as [| a r] eqn:E.
    + split.
      * intros [He Hl]. split; [exact He |]. constructor; assumption.
      * intros [He Hl]. inversion Hl; subst. tauto.
    + split.
      * intros [He _]. exfalso. exact (insert_non_empty _ _ _ He).
      * intros [_ Hl]. inversion Hl; subst. congruence.
Qed.

Lemma collectErrors_empty_iff (fd : FormData) :
  collectErrors fd = ∅
  <-> Forall (fun field =>
                validateField (field_key field) (field_value fd field) = EmptyString)
        requiredFields.
Proof. unfold collectErrors. rewrite collect_fold_empty. tauto. Qed.

Lemma validateField_not_blank name v :
  validateField name v = EmptyString -> trim v <> [].
Proof.
  unfold validateField. destruct (trim v); [discriminate | discriminate].
Qed.

Lemma nameFieldCls_nameChar c : in_class nameFieldCls c = true -> nameChar c = true.
Proof.
  unfold nameChar, nameCls, nameFieldCls, in_class. cbn [existsb in_item].
  generalize (isWhiteSpace c) as w. intros w.
  split_cmp; destruct w; cbn; congruence.
Qed.

Lemma validateField_name name v :
  name = "patientFirstName" \/ name = "patientLastName" ->
  validateField name v = EmptyString -> validateName v = true.
Proof.
  intros Hn Hv. pose proof (validateField_not_blank _ _ Hv) as Ht.
  assert (Hc : test_anchored (Plus (Cls nameFieldCls)) v = true).
  { unfold validateField in Hv.
    destruct (falsy (trim v)); [discriminate |].
    destruct (test_anchored (Plus (Cls nameFieldCls)) v); [reflexivity |].
    destruct Hn as [-> | ->]; discriminate. }
  rewrite test_Plus_Cls in Hc. apply andb_true_iff in Hc as [_ Hc].
  apply (forallb_impl _ nameChar _ nameFieldCls_nameChar) in Hc.
  apply (trim_forallb nameChar) in Hc.
  rewrite validateName_unfold, Hc, (forallb_nameChar_no_digit _ Hc).
  destruct (trim v); [contradiction | reflexivity].
Qed.

Lemma digits_trim v :
  forallb (in_class digitCls) v = true -> trim v = v /\ forallb isDigit v = true.
Proof.
  rewrite forallb_digitCls. intros Hd. split; [| exact Hd].
  apply trim_no_space. exact (forallb_impl _ _ _ digit_not_space Hd).
Qed.

Lemma validateField_MRN v :
  validateField "patientMRN" v = EmptyString -> validateMRN v = true.
Proof.
  intros Hv. unfold validateField in Hv.
  destruct (falsy (trim v)); [discriminate |].
  destruct (test_anchored reMRN v) eqn:E; [| cbn in Hv; discriminate].
  unfold reMRN in E. rewrite test_Rep_Cls in E. apply andb_true_iff in E as [Hl Hd].
  apply digits_trim in Hd as [Ht Hd].
  rewrite validateMRN_spec, Ht, Hl, Hd. reflexivity.
Qed.

Lemma validateField_NPI v :
  validateField "providerNPI" v = EmptyString -> validateNPI v = true.
Proof.
  intros Hv. unfold validateField in Hv.
  destruct (falsy (trim v)); [discriminate |].
  destruct (test_anchored reNPI v) eqn:E; [| cbn in Hv; discriminate].
  unfold reNPI in E. rewrite test_Rep_Cls in E. apply andb_true_iff in E as [Hl Hd].
  apply digits_trim in Hd as [Ht Hd].
  rewrite validateNPI_spec, Ht, Hl, Hd. reflexivity.
Qed.

Lemma upper_class_facts c :
  (in_class upperCls c = true -> isAsciiLetter c = true /\ isWhiteSpace c = false)
  /\ (in_class digitCls c = true -> isDigit c = true /\ isWhiteSpace c = false)
  /\ (in_class [Range 48 57; Range 65 90] c = true
      -> isAsciiAlnum c = true /\ isWhiteSpace c = false)
  /\ (c = 46 -> isWhiteSpace c = false).
Proof.
  unfold in_class, upperCls, digitCls, isAsciiAlnum, isAsciiLetter, isDigit, isWhiteSpace.
  cbn [existsb in_item].
  repeat split; try (intros ->; reflexivity);
    revert H; split_cmp; cbn; congruence.
Qed.

Lemma icd10ShapeUpper_plain v :
  icd10ShapeUpper v = true ->
  icd10Shape v = true /\ forallb (fun c => negb (isWhiteSpace c)) v = true.
Proof.
  assert (Hall : forall r, forallb (in_class [Range 48 57; Range 65 90]) r = true ->
                 forallb isAsciiAlnum r = true
                 /\ forallb (fun c => negb (isWhiteSpace c)) r = true).
  { induction r as [| x r IH]; cbn [forallb]; [auto |].
    intros Hf. apply andb_true_iff in Hf as [Hx Hr].
    destruct (upper_class_facts x) as (_ & _ & Ha & _).
    destruct (Ha Hx) as [-> ->]. destruct (IH Hr) as [-> ->]. auto. }
  destruct v as [| c [| d1 [| d2 rest]]]; cbn [icd10ShapeUpper]; try discriminate.
  intros Hs. apply andb_true_iff in Hs as [Hs Hrest].
  apply andb_true_iff in Hs as [Hs Hd2]. apply andb_true_iff in Hs as [Hc Hd1].
  destruct (upper_class_facts c) as (Hu & _). destruct (Hu Hc) as [Hc1 Hc2].
  destruct (upper_class_facts d1) as (_ & Hd & _). destruct (Hd Hd1) as [Hd11 Hd12].
  destruct (upper_class_facts d2) as (_ & Hd' & _). destruct (Hd' Hd2) as [Hd21 Hd22].
  cbn [icd10Shape forallb]. rewrite Hc1, Hc2, Hd11, Hd12, Hd21, Hd22. cbn [andb negb].
  destruct rest as [| x r]; [auto |].
  destruct (N.eqb_spec x 46) as [-> | Hne].
  - destruct (Hall r Hrest) as [-> Hw]. cbn [forallb]. rewrite Hw. auto.
  - destruct (Hall (x :: r) Hrest) as [-> ->]. auto.
Qed.

Lemma validateField_ICD10 v :
  validateField "primaryDiagnosis" v = EmptyString -> validateICD10 v = true.
Proof.
  intros Hv. unfold validateField in Hv.
  destruct (falsy (trim v)); [discriminate |].
  destruct (test_anchored reICD10 v) eqn:E; [| cbn in Hv; discriminate].
  rewrite test_reICD10 in E. apply icd10ShapeUpper_plain in E as [Hs Hw].
  rewrite validateICD10_icd10Shape, (trim_no_space _ Hw). exact Hs.
Qed.

(** X6: the form's own field check is at least as strict as the validators
    of validation.ts: a form on which [handleSubmit] finds no field error has
    no error under the batch validator either. *)
Theorem collectErrors_stricter_than_validateAllFields (fd : FormData) :
  collectErrors fd = ∅ -> validateAllFields fd = ∅.
Proof.
  rewrite collectErrors_empty_iff, validateAllFields_empty_conditions.
  unfold requiredFields. intros Hall.
  repeat match goal with
         | H : Forall _ (_ :: _) |- _ => inversion H; subst; clear H
         end.
  cbn [field_key field_value] in *.
  repeat split.
  - apply (validateField_name "patientFirstName"); auto.
  - apply (validateField_name "patientLastName"); auto.
  - apply validateField_MRN; assumption.
  - apply validateField_ICD10; assumption.
  - apply validateField_NPI; assumption.
  - apply required_of_trim. eapply validateField_not_blank; eassumption.
  - apply required_of_trim. eapply validateField_not_blank; eassumption.
  - apply required_of_trim. eapply validateField_not_blank; eassumption.
Qed.

(** A valid form passes both. *)
Lemma collectErrors_stricter_than_validateAllFields_witness :
  collectErrors validForm = ∅ /\ validateAllFields validForm = ∅.
Proof.
  split; [vm_compute; reflexivity |].
  apply (collectErrors_stricter_than_validateAllFields validForm).
  vm_compute; reflexivity.
Defined.

(** ** Further properties: submission *)



Lemma careplan_calls_results (reply : HttpReply) :
  (forall p, generateCarePlan reply = Ok p <-> reply = Response (Some p) /\ p <> [])
  /\ (forall p, regenerateCarePlanWithFeedback reply = Ok p
                <-> reply = Response (Some p) /\ p <> [])
  /\ (forall m, generateCarePlan reply = Throw m -> m <> EmptyString)
  /\ (forall m, regenerateCarePlanWithFeedback reply = Throw m -> m <> EmptyString).
Proof.
  assert (Hor : forall o d, d <> EmptyString -> or_else o d <> EmptyString).
  { intros [[| a r] |] d Hd; cbn; congruence. }
  assert (Hok : forall (f : HttpReply -> result jsstring),
            (f = generateCarePlan \/ f = regenerateCarePlanWithFeedback) ->
            forall p, f reply = Ok p <-> reply = Response (Some p) /\ p <> []).
  { intros f Hf p. split.
    - assert (Hcase : (exists c r, reply = Response (Some (c :: r)))
                      \/ (forall q, f reply <> Ok q)).
      { destruct Hf as [-> | ->];
          (destruct reply as [o | status e | | m];
           [ destruct o as [[| c r] |];
             [right; intros q; discriminate | left; eauto | right; intros q; discriminate]
           | right; intros q; cbn;
             destruct (_ || _)%bool; [discriminate | destruct (_ =? _)%Z; discriminate]
           | right; intros q; discriminate
           | right; intros q; discriminate ]). }
      destruct Hcase as [(c & r & ->) | Hno]; [| intros Hp; destruct (Hno _ Hp)].
      destruct Hf as [-> | ->]; intros [= <-]; split; (reflexivity || discriminate).
    - intros [-> Hp]. destruct p; [contradiction |].
      destruct Hf as [-> | ->]; reflexivity. }
  assert (Hthrow : forall (f : HttpReply -> result jsstring),
            (f = generateCarePlan \/ f = regenerateCarePlanWithFeedback) ->
            forall m, f reply = Throw m -> m <> EmptyString).
  { intros f Hf m.
    destruct Hf as [-> | ->];
      (destruct reply as [o | status e | | m0];
       [ destruct o as [[| c r] |]; cbn; intros [= <-]; discriminate
       | cbn; repeat match goal with
                     | |- context [if ?b then _ else _] => destruct b
                     end; intros [= <-]; try discriminate; apply Hor; discriminate
       | cbn; intros [= <-]; discriminate
       | cbn; intros [= <-]; destruct m0; discriminate ]). }
  split; [apply Hok; auto |]. split; [apply Hok; auto |].
  split; apply Hthrow; auto.
Qed.

(** X8: [generateCarePlan] and [regenerateCarePlanWithFeedback] return a
    plan exactly when the reply carries a non-empty plan text, and then
    return that text; every other reply throws, with a non-empty message. *)
Theorem careplan_calls_return_nonempty_plan (reply : HttpReply) :
  (forall p, generateCarePlan reply = Ok p <-> reply = Response (Some p) /\ p <> [])
  /\ (forall p, regenerateCarePlanWithFeedback reply = Ok p
                <-> reply = Response (Some p) /\ p <> [])
  /\ (forall m, generateCarePlan reply = Throw m -> m <> EmptyString)
  /\ (forall m, regenerateCarePlanWithFeedback reply = Throw m -> m <> EmptyString).
Proof. apply careplan_calls_results. Qed.

(** ** Further properties: the patient master record *)



Lemma getDoc_of_In {A} (c : Coll A) id d :
  In (id, d) c -> exists d', getDoc c id = Some d'.
Proof.
  unfold getDoc. induction c as [| [i x] c IH]; simpl; [tauto |].
  intros [[= -> ->] | Hin].
  - rewrite String.eqb_refl. eauto.
  - destruct (String.eqb i id); [eauto | apply IH, Hin].
Qed.

Lemma query_head_In {A} (c : Coll A) p x r :
  query c p = x :: r -> In x c /\ p (snd x) = true.
Proof.
  intros E. assert (Hin : In x (query c p)) by (rewrite E; left; reflexivity).
  unfold query in Hin. apply filter_In in Hin. exact Hin.
Qed.

Lemma patientMRNs_patch c id f :
  (forall p, mrn (f p) = mrn p) -> patientMRNs (patch c id f) = patientMRNs c.
Proof.
  intros Hf. unfold patientMRNs. induction c as [| [i x] c IH]; simpl; [reflexivity |].
  destruct (String.eqb i id); simpl; [rewrite Hf; reflexivity | rewrite IH; reflexivity].
Qed.



(** X10: [updatePatientMaster], called with the form's MRN as its callers
    do, keeps one record per MRN: if no two patient records share an MRN
    before the call, none do after it, and a record with the form's MRN is
    on file. *)
Theorem updatePatientMaster_one_record_per_MRN
  (env : Env) (fd : FormData) (st : Store) :
  NoDup (patientMRNs (patients st)) ->
  NoDup (patientMRNs (patients (updatePatientMaster env fd (patientMRN fd) st)))
  /\ In (patientMRN fd)
        (patientMRNs (patients (updatePatientMaster env fd (patientMRN fd) st))).
Proof.
  intros Hnd. unfold updatePatientMaster.
  destruct (query (patients st) _) as [| [pid p] r] eqn:E.
  - cbn [patients setPatients]. unfold addDoc, patientMRNs.
    rewrite List.map_app. cbn [List.map snd mrn]. split.
    + apply NoDup_app. split; [exact Hnd |]. split; [| apply NoDup_singleton].
      intros x Hx Hx'. apply list_elem_of_singleton in Hx'. subst x.
      apply list_elem_of_In, in_map_iff in Hx as (d & Hm & Hd).
      rewrite query_nil_iff in E. specialize (E d Hd). cbn in E.
      rewrite Hm, jsstring_eqb_refl in E. discriminate.
    + apply in_or_app. right. left. reflexivity.
  - apply query_head_In in E as [Hin Hp]. cbn in Hp. apply jsstring_eqb_eq in Hp.
    destruct (getDoc_of_In _ _ _ Hin) as [d' Hd'].
    unfold updateDoc. rewrite Hd'. cbn [patients setPatients].
    rewrite patientMRNs_patch by reflexivity. split; [exact Hnd |].
    unfold patientMRNs. apply in_map_iff. exists (pid, p). split; [exact Hp | exact Hin].
Qed.

(** The record of John Doe, MRN 123456, on a second order. *)
Lemma updatePatientMaster_one_record_per_MRN_witness :
  NoDup (patientMRNs (patients (updatePatientMaster okEnv validForm
                                  (patientMRN validForm) patientStore)))
  /\ In (patientMRN validForm)
        (patientMRNs (patients (updatePatientMaster okEnv validForm
                                  (patientMRN validForm) patientStore))).
Proof.
  apply (updatePatientMaster_one_record_per_MRN okEnv validForm patientStore).
  apply NoDup_singleton.
Defined.


(** ** Further properties: the versioned update *)

(** X12: whatever its outcome, [handleSubmitUpdate] neither adds nor removes
    an order, leaves the providers as they are, and leaves on every order
    the patient name, the four key fields, the provider name and the
    creation timestamp as stored. *)
Theorem handleSubmitUpdate_keeps_identity (env : Env) (st : Store) (ui : UI) :
  List.map fst (orders (fst (handleSubmitUpdate env (st, ui))))
  = List.map fst (orders st)
  /\ providers (fst (handleSubmitUpdate env (st, ui))) = providers st
  /\ (forall id,
        identityOf <$> getDoc (orders (fst (handleSubmitUpdate env (st, ui)))) id
        = identityOf <$> getDoc (orders st) id).
Proof.
  unfold handleSubmitUpdate.
  destruct (duplicateFound ui) as [[dupId existingData] |]; [| repeat split].
  cbn [formData updateFields setLoading].
  destruct (generateCarePlan _); [| repeat split].
  unfold updateDoc. destruct (getDoc (orders st) dupId) eqn:Hget; [| repeat split].
  cbn [fst]. rewrite orders_updatePatientMaster, providers_updatePatientMaster.
  cbn [orders providers setOrders].
  split; [apply patch_ids |]. split; [reflexivity |].
  intros id. destruct (decide (id = dupId)) as [-> | Hne].
  - rewrite getDoc_patch_eq, Hget. reflexivity.
  - rewrite getDoc_patch_ne by exact Hne. reflexivity.
Qed.

(** X13: when the order held by the update form is no longer in the store,
    [handleSubmitUpdate] writes nothing, the patient counter included, and
    reports an error, although the newly generated plan is already shown. *)
Theorem handleSubmitUpdate_missing_order
  (env : Env) (st : Store) (ui : UI) (dupId : DocId) (existingData : OrderDoc)
  (plan : jsstring) :
  duplicateFound ui = Some (dupId, existingData) ->
  getDoc (orders st) dupId = None ->
  generateCarePlan (backend env (updatedFormData (formData ui) (updateFields ui)))
  = Ok plan ->
  fst (handleSubmitUpdate env (st, ui)) = st
  /\ carePlan (snd (handleSubmitUpdate env (st, ui))) = Some plan
  /\ duplicateFound (snd (handleSubmitUpdate env (st, ui))) = Some (dupId, existingData)
  /\ alerts (snd (handleSubmitUpdate env (st, ui)))
     = alerts ui ++ [AlertUpdateError "Error updating record: No document to update"].
Proof.
  intros Hdup Hget Hgen. unfold handleSubmitUpdate. rewrite Hdup.
  cbn [formData updateFields setLoading]. rewrite Hgen.
  unfold updateDoc. rewrite Hget. cbn. rewrite Hdup. repeat split.
Qed.

(** The prompt holds an order that has been removed from [dupStore]. *)
Lemma handleSubmitUpdate_missing_order_witness :
  fst (handleSubmitUpdate okEnv (dupStore, stalePromptUI)) = dupStore
  /\ carePlan (snd (handleSubmitUpdate okEnv (dupStore, stalePromptUI))) = Some planText.
Proof.
  destruct (handleSubmitUpdate_missing_order okEnv dupStore stalePromptUI "order-gone"
              existingOrder planText eq_refl eq_refl eq_refl) as (Hs & Hp & _).
  split; [exact Hs | exact Hp].
Defined.

(** ** Further properties: comma-separated lists *)

Lemma trimStart_split x :
  exists a, x = a ++ trimStart x /\ forallb isWhiteSpace a = true.
Proof.
  induction x as [| c x (a & Hx & Ha)]; simpl.
  - exists []. auto.
  - destruct (isWhiteSpace c) eqn:E.
    + exists (c :: a). simpl. rewrite E, Ha. split; [congruence | reflexivity].
    + exists []. auto.
Qed.

Lemma trimStart_idem x : trimStart (trimStart x) = trimStart x.
Proof.
  apply trimStart_fixed. destruct (trimStart x) as [| c r] eqn:E; [exact I |].
  exact (trimStart_head _ _ _ E).
Qed.

Lemma trim_fixed d : trimStart d = d -> trimStart (rev d) = rev d -> trim d = d.
Proof.
  intros H1 H2. unfold trim, trimEnd. rewrite H1, H2. apply rev_involutive.
Qed.

Lemma trim_idem s : trim (trim s) = trim s.
Proof.
  apply trim_fixed.
  - unfold trim, trimEnd.
    set (t := trimStart s). set (u := trimStart (rev t)).
    destruct (trimStart_split (rev t)) as (a & Hrt & _). fold u in Hrt.
    assert (Ht : t = rev u ++ rev a).
    { rewrite <- (rev_involutive t), Hrt, rev_app_distr. reflexivity. }
    apply trimStart_fixed. destruct (rev u) as [| c r] eqn:E; [exact I |].
    simpl in Ht. exact (trimStart_head s c _ Ht).
  - unfold trim, trimEnd. rewrite rev_involutive. apply trimStart_idem.
Qed.

Lemma splitOn_nonempty sep s : splitOn sep s <> [].
Proof.
  induction s as [| c s IH]; simpl; [discriminate |].
  destruct (c =? sep); [discriminate |]. destruct (splitOn sep s); discriminate.
Qed.

Lemma splitOn_no_sep sep s :
  Forall (fun w => forallb (fun c => negb (c =? sep)) w = true) (splitOn sep s).
Proof.
  induction s as [| c s IH]; simpl.
  - constructor; [reflexivity | constructor].
  - destruct (c =? sep) eqn:E.
    + constructor; [reflexivity | exact IH].
    + destruct (splitOn sep s) as [| w ws]; [constructor; [simpl; rewrite E |]; auto |].
      inversion IH; subst. constructor; [simpl; rewrite E; assumption | assumption].
Qed.

Lemma splitOn_plain sep x :
  forallb (fun c => negb (c =? sep)) x = true -> splitOn sep x = [x].
Proof.
  induction x as [| c x IH]; simpl; [reflexivity |].
  intros Hf. apply andb_true_iff in Hf as [Hc Hx]. apply negb_true_iff in Hc.
  rewrite Hc, (IH Hx). reflexivity.
Qed.

Lemma splitOn_app sep x rest :
  forallb (fun c => negb (c =? sep)) x = true ->
  splitOn sep (x ++ sep :: rest) = x :: splitOn sep rest.
Proof.
  induction x as [| c x IH]; simpl.
  - rewrite N.eqb_refl. reflexivity.
  - intros Hf. apply andb_true_iff in Hf as [Hc Hx]. apply negb_true_iff in Hc.
    rewrite Hc, (IH Hx). reflexivity.
Qed.

Lemma splitOn_joined x r :
  forallb (fun c => negb (c =? 44)) x = true ->
  Forall (fun y => forallb (fun c => negb (c =? 44)) y = true) r ->
  splitOn 44 (x ++ List.concat (List.map (fun y => js ", " ++ y) r))
  = x :: List.map (fun y => 32 :: y) r.
Proof.
  intros Hx Hr. revert x Hx. induction Hr as [| y r Hy Hr IH]; intros x Hx.
  - simpl. rewrite app_nil_r. apply splitOn_plain, Hx.
  - cbn [List.map List.concat].
    change (js ", " ++ y) with (44 :: 32 :: y).
    change ((44 :: 32 :: y) ++ ?t) with (44 :: ((32 :: y) ++ t)).
    rewrite (splitOn_app 44 x _ Hx). f_equal.
    apply (IH (32 :: y)). simpl. exact Hy.
Qed.

Lemma Forall_filter_map_clean (l : list jsstring) :
  Forall (fun w => forallb (fun c => negb (c =? 44)) w = true) l ->
  Forall cleanItem (List.filter truthy (List.map trim l)).
Proof.
  induction 1 as [| w l Hw Hl IH]; simpl; [constructor |].
  destruct (truthy (trim w)) eqn:E; [| exact IH].
  constructor; [| exact IH]. split; [| split].
  - intros Hn. rewrite Hn in E. discriminate.
  - apply trim_idem.
  - apply trim_forallb, Hw.
Qed.

(** X14: every item that the comma-separated inputs produce is non-empty,
    has no white space at either end and holds no comma; blank pieces are
    dropped. *)
Theorem commaList_items_clean (value : jsstring) :
  Forall cleanItem (commaList value).
Proof. unfold commaList. apply Forall_filter_map_clean, splitOn_no_sep. Qed.

Lemma commaList_joinComma_clean (l : list jsstring) :
  Forall cleanItem l -> commaList (joinComma l) = l.
Proof.
  intros Hl. destruct l as [| x r]; [reflexivity |].
  inversion Hl as [| ? ? (Hx1 & Hx2 & Hx3) Hr]; subst.
  unfold commaList, joinComma.
  rewrite splitOn_joined; [| exact Hx3 |].
  - cbn [List.map List.filter]. rewrite Hx2.
    destruct x as [| c x]; [contradiction |]. cbn [truthy falsy negb]. f_equal.
    clear Hl Hx1 Hx2 Hx3. induction Hr as [| y r (Hy1 & Hy2 & Hy3) Hr IH]; [reflexivity |].
    cbn [List.map List.filter].
    change (trim (32 :: y)) with (trim y). rewrite Hy2.
    destruct y as [| d y]; [contradiction |]. cbn [truthy falsy negb]. f_equal. exact IH.
  - clear -Hr. induction Hr as [| y r (_ & _ & Hy) Hr IH]; constructor; assumption.
Qed.

(** X15: joining clean items with a comma and a space, as the update form
    is pre-filled, and splitting them again, as the update is read, gives
    the items back. *)
Theorem commaList_joinComma (l : list jsstring) :
  Forall cleanItem l -> commaList (joinComma l) = l.
Proof. apply commaList_joinComma_clean. Qed.

(** Two diagnosis codes. *)
Lemma commaList_joinComma_witness :
  commaList (joinComma [js "I10"; js "E11.9"]) = [js "I10"; js "E11.9"].
Proof.
  apply (commaList_joinComma [js "I10"; js "E11.9"]).
  repeat constructor; discriminate.
Defined.



Section MoreProperties.
Context `{Platform}.

(** ** Further properties: duplicate warning and duplicate prompt *)

Lemma collectErrors_shapes (fd : FormData) :
  collectErrors fd = ∅ ->
  length (patientMRN fd) = 6%nat /\ length (providerNPI fd) = 10%nat
  /\ medicationName fd <> [] /\ primaryDiagnosis fd <> [].
Proof.
  rewrite collectErrors_empty_iff. unfold requiredFields. intros Hall.
  repeat match goal with
         | H : Forall _ (_ :: _) |- _ => inversion H; subst; clear H
         end.
  cbn [field_key field_value] in *.
  assert (Hne : forall name v, validateField name v = EmptyString -> v <> []).
  { intros name v Hv Hn. apply (validateField_not_blank _ _ Hv). rewrite Hn. reflexivity. }
  split; [| split; [| split]].
  - match goal with
    | Hv : validateField "patientMRN" _ = _ |- _ =>
        unfold validateField in Hv;
        destruct (falsy (trim (patientMRN fd))); [discriminate |];
        destruct (test_anchored reMRN (patientMRN fd)) eqn:E; [| cbn in Hv; discriminate]
    end.
    unfold reMRN in E. rewrite test_Rep_Cls in E. apply andb_true_iff in E as [Hl _].
    apply Nat.eqb_eq, Hl.
  - match goal with
    | Hv : validateField "providerNPI" _ = _ |- _ =>
        unfold validateField in Hv;
        destruct (falsy (trim (providerNPI fd))); [discriminate |];
        destruct (test_anchored reNPI (providerNPI fd)) eqn:E; [| cbn in Hv; discriminate]
    end.
    unfold reNPI in E. rewrite test_Rep_Cls in E. apply andb_true_iff in E as [Hl _].
    apply Nat.eqb_eq, Hl.
  - eapply Hne; eassumption.
  - eapply Hne; eassumption.
Qed.

Lemma orderCheck_cases (st : Store) (fd : FormData) :
  orderCheck st fd = []
  \/ exists m, checkForExactDuplicate st fd = Some m
               /\ orderCheck st fd
                  = [mkWarning Worder Swarning (msgDuplicate (dateStrOf (snd m)))].
Proof.
  unfold orderCheck, checkForExactDuplicate.
  destruct (_ && _); [| left; reflexivity].
  destruct (List.find _ _) as [m |]; [right; eauto | left; reflexivity].
Qed.

Lemma filter_none {A} (p : A -> bool) (l : list A) :
  (forall x, In x l -> p x = false) -> List.filter p l = [].
Proof.
  induction l as [| x l IH]; intros Hp; cbn [List.filter]; [reflexivity |].
  rewrite (Hp x (or_introl eq_refl)). apply IH. intros y Hy. apply Hp. right. exact Hy.
Qed.

Lemma orderCheck_spec (st : Store) (fd : FormData) :
  orderCheck st fd = []
  \/ exists m, checkForExactDuplicate st fd = Some m
               /\ orderCheck st fd = [spec_duplicateWarning (snd m)].
Proof.
  destruct (orderCheck_cases st fd) as [Hn | (m & Hm & Ho)]; [left; exact Hn |].
  right. exists m. split; [exact Hm |]. rewrite Ho. reflexivity.
Qed.

Lemma computeWarnings_order (st : Store) (fd : FormData) (ws : list Warning) :
  computeWarnings st fd = Ok ws -> List.filter isOrderWarning ws = orderCheck st fd.
Proof.
  unfold computeWarnings. destruct (providerChecks st fd) as [pw | e] eqn:Ep;
    cbn; [| discriminate].
  intros [= <-]. rewrite !List.filter_app.
  rewrite (filter_none isOrderWarning (patientChecks st fd)).
  2:{ intros w Hw. unfold isOrderWarning. rewrite (patientChecks_type _ _ _ Hw).
      reflexivity. }
  rewrite (filter_none isOrderWarning pw).
  2:{ intros w Hw. unfold isOrderWarning.
      rewrite (providerChecks_type _ _ _ _ Ep Hw). reflexivity. }
  rewrite app_nil_r. cbn [app].
  destruct (orderCheck_spec st fd) as [-> | (m & _ & ->)]; reflexivity.
Qed.

(** X17: the duplicate warning shown while editing and the duplicate prompt
    shown on submit agree.  When [checkDuplicates] completes, the warnings
    it shows are the ones it computed; a warning of subject order is among
    them only when a stored order shares the four keys, and it is then the
    one warning whose text names the creation day of the order that the
    prompt will hold; on a form without field errors the warnings of subject
    order shown are exactly that warning when such an order is stored and
    none otherwise.  When a provider check throws, [checkDuplicates] shows
    nothing new: the warnings stay as they were. *)
Theorem duplicate_warning_agrees_with_prompt (st : Store) (ui : UI) :
  (forall ws,
     computeWarnings st (formData ui) = Ok ws ->
     warnings (checkDuplicates st ui) = ws
     /\ (forall w, In w (warnings (checkDuplicates st ui)) ->
                   w_type w = Worder ->
                   exists m, checkForExactDuplicate st (formData ui) = Some m
                             /\ w = spec_duplicateWarning (snd m))
     /\ (collectErrors (formData ui) = ∅ ->
         List.filter isOrderWarning (warnings (checkDuplicates st ui))
         = match checkForExactDuplicate st (formData ui) with
           | Some m => [spec_duplicateWarning (snd m)]
           | None => []
           end))
  /\ (forall e,
        computeWarnings st (formData ui) = Throw e ->
        warnings (checkDuplicates st ui) = warnings ui).
Proof.
  split.
  - intros ws Hc.
    assert (Hw : warnings (checkDuplicates st ui) = ws).
    { unfold checkDuplicates. rewrite Hc. reflexivity. }
    rewrite Hw. split; [reflexivity |].
    pose proof (computeWarnings_order st (formData ui) ws Hc) as Hf.
    split.
    + intros w Hin Ht.
      assert (Hino : In w (orderCheck st (formData ui))).
      { rewrite <- Hf. apply filter_In. split; [exact Hin |].
        unfold isOrderWarning. rewrite Ht. reflexivity. }
      destruct (orderCheck_spec st (formData ui)) as [Hn | (m & Hm & Ho)].
      * rewrite Hn in Hino. destruct Hino.
      * rewrite Ho in Hino. destruct Hino as [<- | []]. eauto.
    + intros Hv. rewrite Hf.
      destruct (collectErrors_shapes (formData ui) Hv) as (Hm & Hn & Hmed & Hdx).
      destruct (checkForExactDuplicate st (formData ui)) as [m |] eqn:E.
      * rewrite (orderCheck_duplicate st _ m Hm Hn Hmed Hdx E). reflexivity.
      * destruct (orderCheck_spec st (formData ui)) as [Hnil | (m & Hc' & _)];
          [exact Hnil | congruence].
  - intros e Hc. unfold checkDuplicates. rewrite Hc. reflexivity.
Qed.

End MoreProperties.

(** The valid form against the store that holds its order. *)
Lemma duplicate_warning_agrees_with_prompt_witness :
  List.filter isOrderWarning
    (warnings (@checkDuplicates latin1Platform dupStore (initialUI validForm)))
  = [@spec_duplicateWarning latin1Platform existingOrder].
Proof.
  destruct (@duplicate_warning_agrees_with_prompt latin1Platform dupStore
              (initialUI validForm)) as [Hok _].
  destruct (Hok _ eq_refl) as (_ & _ & Hf).
  rewrite Hf; [reflexivity | vm_compute; reflexivity].
Defined.

(** ** Further properties: building the feedback list *)

Lemma filterIndexFrom_delete {A} (l : list A) :
  forall k i, filterIndexFrom k (k + i) l = delete i l.
Proof.
  induction l as [| x l IH]; intros k i; cbn [filterIndexFrom]; [reflexivity |].
  destruct i as [| i].
  - rewrite Nat.add_0_r, Nat.eqb_refl. cbn.
    clear IH. revert k. induction l as [| y l IH]; intros k; cbn [filterIndexFrom];
      [reflexivity |].
    replace (S k =? k)%nat with false by (symmetry; apply Nat.eqb_neq; lia).
    f_equal. specialize (IH (S k)).
    assert (Hgen : forall j m, (m < j)%nat -> filterIndexFrom j m l = l).
    { clear. induction l as [| z l IH]; intros j m Hlt; cbn [filterIndexFrom];
        [reflexivity |].
      replace (j =? m)%nat with false by (symmetry; apply Nat.eqb_neq; lia).
      f_equal. apply IH. lia. }
    apply Hgen. lia.
  - replace (k =? k + S i)%nat with false by (symmetry; apply Nat.eqb_neq; lia).
    cbn. f_equal. replace (k + S i)%nat with (S k + i)%nat by lia. apply IH.
Qed.

Lemma filterIndex_delete {A} (l : list A) i : filterIndexFrom 0 i l = delete i l.
Proof. exact (filterIndexFrom_delete l 0 i). Qed.


Lemma orUndefined_not_empty s : orUndefined s <> Some [].
Proof. destruct s; discriminate. Qed.

(** X19: [handleAddFeedback] with a section name and a pharmacist name
    appends exactly one item, at the end, that is well formed and carries
    the form's section, kind, approval flag and the reviewer's name, and
    resets the form; removing the item at the old length gives the old list
    back.  Without a section name or a pharmacist name nothing changes and an
    alert is shown. *)
Theorem handleAddFeedback_appends_well_formed
  (dateNow : Z) (now : Timestamp) (nf : NewFeedback) (rv : Review) :
  (nf_sectionName nf <> [] -> r_pharmacistName rv <> [] ->
   exists item,
     handleAddFeedback dateNow now (nf, rv)
     = (emptyNewFeedback, r_setFeedback (feedback rv ++ [item]) rv, None)
     /\ wellFormedItem item
     /\ sectionName item = nf_sectionName nf
     /\ feedbackType item = nf_feedbackType nf
     /\ approved item = nf_approved nf
     /\ pharmacistName item = r_pharmacistName rv
     /\ feedback (handleRemoveFeedback (length (feedback rv))
                    (snd (fst (handleAddFeedback dateNow now (nf, rv)))))
        = feedback rv)
  /\ (nf_sectionName nf = [] \/ r_pharmacistName rv = [] ->
      handleAddFeedback dateNow now (nf, rv)
      = (nf, rv, Some "Please fill in pharmacist name and section name")).
Proof.
  split.
  - intros Hs Hn. unfold handleAddFeedback.
    destruct (nf_sectionName nf) as [| c s] eqn:Es; [contradiction |].
    destruct (r_pharmacistName rv) as [| c' n] eqn:En; [contradiction |].
    cbn [falsy orb]. eexists. split; [reflexivity |].
    split.
    { unfold wellFormedItem. cbn.
      repeat split; try discriminate; apply orUndefined_not_empty. }
    repeat split.
    cbn [fst snd]. unfold handleRemoveFeedback. cbn [feedback r_setFeedback].
    rewrite filterIndex_delete.
    induction (feedback rv) as [| x l IH]; [reflexivity |]. cbn. f_equal. exact IH.
  - intros Hblank. unfold handleAddFeedback.
    destruct Hblank as [-> | ->]; [reflexivity |].
    rewrite orb_true_r. reflexivity.
Qed.

(** A comment on the goals by Pat Lee. *)
Lemma handleAddFeedback_appends_well_formed_witness :
  exists item,
    handleAddFeedback 1700000000000 (serverTimestamp okEnv) (commentForm, reviewOf [])
    = (emptyNewFeedback, r_setFeedback [item] (reviewOf []), None)
    /\ wellFormedItem item.
Proof.
  destruct (proj1 (handleAddFeedback_appends_well_formed 1700000000000
                     (serverTimestamp okEnv) commentForm (reviewOf [])))
    as (item & He & Hw & _).
  - discriminate.
  - discriminate.
  - exists item. split; [exact He | exact Hw].
Defined.

Section ReviewProperties.
Context `{Platform}.

(** ** Further properties: review *)

Lemma In_patch_unique {A} (c : Coll A) id f d x :
  ids_unique c -> getDoc c id = Some d ->
  (In (id, x) (patch c id f) <-> x = f d).
Proof.
  unfold ids_unique, getDoc. induction c as [| [i y] c IH]; cbn; [discriminate |].
  intros Hu Hg. apply NoDup_cons in Hu as [Hni Hu].
  destruct (String.eqb_spec i id) as [-> | Hne]; cbn.
  - injection Hg as ->. split.
    + intros [[= <-] | Hin]; [reflexivity |].
      exfalso. apply Hni, list_elem_of_In. apply (in_map fst) in Hin. exact Hin.
    + intros ->. left. reflexivity.
  - rewrite <- (IH Hu Hg). split.
    + intros [[= -> _] | Hin]; [contradiction | exact Hin].
    + intros Hin. right. exact Hin.
Qed.

Lemma In_pendingQuery (st : Store) id x :
  In (Some id, x) (pendingQuery st) <-> In (id, x) (orders st) /\ notApproved x = true.
Proof.
  unfold pendingQuery, query. rewrite in_map_iff. split.
  - intros ([i y] & [= -> ->] & Hin). apply filter_In in Hin. exact Hin.
  - intros Hin. exists (id, x). split; [reflexivity |]. apply filter_In. exact Hin.
Qed.

Lemma handleSubmitFeedback_ok (ts : Timestamp) (st : Store) (rv : Review)
  (id : DocId) (sel d : OrderDoc) :
  selectedOrder rv = Some (Some id, sel) ->
  id <> EmptyString ->
  r_pharmacistName rv <> [] ->
  feedback rv <> [] ->
  forallb definedItem (feedback rv) = true ->
  getDoc (orders st) id = Some d ->
  handleSubmitFeedback ts (st, rv)
  = (setOrders (patch (orders st) id (feedbackPatch ts sel (feedback rv))) st,
     clearedReview
       (setOrders (patch (orders st) id (feedbackPatch ts sel (feedback rv))) st)
       rv AlertFeedbackSubmitted).
Proof.
  intros Hsel Hid Hname Hfb Hdef Hget.
  unfold handleSubmitFeedback, selectedId. rewrite Hsel.
  destruct id as [| a r]; [contradiction |].
  destruct (r_pharmacistName rv) as [| c n] eqn:En; [contradiction |].
  destruct (feedback rv) as [| f fb] eqn:Ef; [contradiction |].
  cbn [falsy length Nat.eqb]. unfold updateDoc. rewrite Hdef, Hget. reflexivity.
Qed.

Lemma handleSubmitFeedback_refused (ts : Timestamp) (st : Store) (rv : Review)
  (id : DocId) (sel : OrderDoc) :
  selectedOrder rv = Some (Some id, sel) ->
  id <> EmptyString ->
  r_pharmacistName rv <> [] ->
  feedback rv <> [] ->
  forallb definedItem (feedback rv) = false ->
  handleSubmitFeedback ts (st, rv)
  = (st, r_setLoading false
           (r_alert (AlertFeedbackError
                       ("Error submitting feedback: "
                        +:+ "Function updateDoc() called with invalid data. Unsupported field value: undefined"))
              rv)).
Proof.
  intros Hsel Hid Hname Hfb Hdef.
  unfold handleSubmitFeedback, selectedId. rewrite Hsel.
  destruct id as [| a r]; [contradiction |].
  destruct (r_pharmacistName rv) as [| c n] eqn:En; [contradiction |].
  destruct (feedback rv) as [| f fb] eqn:Ef; [contradiction |].
  cbn [falsy length Nat.eqb]. unfold updateDoc. rewrite Hdef. reflexivity.
Qed.

(** X20: a feedback submission whose items hold no undefined field appends
    to the correction history held with the selected order one entry per
    feedback item, in the order of the items, stores the items, leaves plan,
    update history and identity fields as stored, leaves every other order
    alone, and clears the pharmacist name, the selection and the feedback
    list.  When an item holds an undefined field, as an item added with an
    optional text left empty does, the write is refused: the store, the
    feedback list and the selection stay as they were and an error is
    shown. *)
Theorem handleSubmitFeedback_appends_corrections
  (ts : Timestamp) (st : Store) (rv : Review) (id : DocId) (sel d : OrderDoc) :
  selectedOrder rv = Some (Some id, sel) ->
  id <> EmptyString ->
  r_pharmacistName rv <> [] ->
  feedback rv <> [] ->
  getDoc (orders st) id = Some d ->
  (forallb definedItem (feedback rv) = true ->
  (exists d',
     getDoc (orders (fst (handleSubmitFeedback ts (st, rv)))) id = Some d'
     /\ o_correctionHistory d'
        = Some (default [] (o_correctionHistory sel)
                ++ List.map correctionOf (feedback rv))
     /\ o_pharmacistFeedback d' = Some (feedback rv)
     /\ o_carePlan d' = o_carePlan d
     /\ o_history d' = o_history d
     /\ identityOf d' = identityOf d)
  /\ (forall id', id' <> id ->
        getDoc (orders (fst (handleSubmitFeedback ts (st, rv)))) id'
        = getDoc (orders st) id')
  /\ feedback (snd (handleSubmitFeedback ts (st, rv))) = []
  /\ selectedOrder (snd (handleSubmitFeedback ts (st, rv))) = None
  /\ r_pharmacistName (snd (handleSubmitFeedback ts (st, rv))) = [])
  /\ (forallb definedItem (feedback rv) = false ->
      fst (handleSubmitFeedback ts (st, rv)) = st
      /\ feedback (snd (handleSubmitFeedback ts (st, rv))) = feedback rv
      /\ selectedOrder (snd (handleSubmitFeedback ts (st, rv))) = selectedOrder rv
      /\ r_alerts (snd (handleSubmitFeedback ts (st, rv)))
         = r_alerts rv
           ++ [AlertFeedbackError
                 ("Error submitting feedback: "
                  +:+ "Function updateDoc() called with invalid data. Unsupported field value: undefined")]).
Proof.
  intros Hsel Hid Hname Hfb Hget. split.
  - intros Hdef.
    rewrite (handleSubmitFeedback_ok ts st rv id sel d Hsel Hid Hname Hfb Hdef Hget).
    cbn [fst snd orders setOrders]. split; [| split; [| repeat split]].
    + eexists. split; [rewrite getDoc_patch_eq, Hget; reflexivity |]. repeat split.
    + intros id' Hne. apply getDoc_patch_ne, Hne.
  - intros Hdef.
    rewrite (handleSubmitFeedback_refused ts st rv id sel Hsel Hid Hname Hfb Hdef).
    repeat split.
Qed.

(** X21: after a feedback submission whose items hold no undefined field,
    with unique order ids, the stored order has the approval status derived
    from the items and the refreshed pending list holds the order exactly
    when at least one feedback item is not approved. *)
Theorem handleSubmitFeedback_pending_list
  (ts : Timestamp) (st : Store) (rv : Review) (id : DocId) (sel d : OrderDoc) :
  selectedOrder rv = Some (Some id, sel) ->
  id <> EmptyString ->
  r_pharmacistName rv <> [] ->
  feedback rv <> [] ->
  forallb definedItem (feedback rv) = true ->
  getDoc (orders st) id = Some d ->
  ids_unique (orders st) ->
  o_approvalStatus
    <$> getDoc (orders (fst (handleSubmitFeedback ts (st, rv)))) id
  = Some (Some (if forallb approved (feedback rv)
                then approved_status else corrections_pending))
  /\ ((exists x, In (Some id, x) (r_orders (snd (handleSubmitFeedback ts (st, rv)))))
      <-> Exists (fun f => approved f = false) (feedback rv)).
Proof.
  intros Hsel Hid Hname Hfb Hdef Hget Hu.
  rewrite (handleSubmitFeedback_ok ts st rv id sel d Hsel Hid Hname Hfb Hdef Hget).
  split.
  { cbn [fst orders setOrders]. rewrite getDoc_patch_eq, Hget. reflexivity. }
  cbn [snd clearedReview r_orders]. rewrite <- deriveStatus_pending.
  split.
  - intros (x & Hin). apply In_pendingQuery in Hin as [Hin Hna].
    cbn [orders setOrders] in Hin.
    apply (In_patch_unique _ _ _ d x Hu Hget) in Hin. subst x.
    unfold notApproved in Hna. cbn [o_approvalStatus feedbackPatch] in Hna.
    unfold deriveStatus in *. destruct (forallb approved (feedback rv));
      [discriminate | reflexivity].
  - intros Hp. exists (feedbackPatch ts sel (feedback rv) d).
    apply In_pendingQuery. cbn [orders setOrders]. split.
    + apply (In_patch_unique _ _ _ d _ Hu Hget). reflexivity.
    + unfold notApproved. cbn [o_approvalStatus feedbackPatch]. rewrite Hp. reflexivity.
Qed.

(** X22: without a selected order that has an id, without a pharmacist
    name, or without feedback items, [handleSubmitFeedback] writes nothing
    and keeps the feedback list. *)
Theorem handleSubmitFeedback_guards (ts : Timestamp) (st : Store) (rv : Review) :
  selectedId rv = None \/ r_pharmacistName rv = [] \/ feedback rv = [] ->
  fst (handleSubmitFeedback ts (st, rv)) = st
  /\ feedback (snd (handleSubmitFeedback ts (st, rv))) = feedback rv
  /\ selectedOrder (snd (handleSubmitFeedback ts (st, rv))) = selectedOrder rv.
Proof.
  intros Hg. unfold handleSubmitFeedback.
  destruct (selectedId rv) as [id |] eqn:Eid;
    destruct (selectedOrder rv) as [[oid sel] |] eqn:Es;
    try (cbn; rewrite ?Es; repeat split; fail).
  destruct (falsy (r_pharmacistName rv)) eqn:En; [cbn; rewrite Es; repeat split |].
  destruct (length (feedback rv) =? 0)%nat eqn:El; [cbn; rewrite Es; repeat split |].
  exfalso. destruct Hg as [Hg | [Hg | Hg]].
  - discriminate.
  - rewrite Hg in En. discriminate.
  - rewrite Hg in El. discriminate.
Qed.

End ReviewProperties.

(** Two complete items, one not approved, on the stored order: it stays
    listed. *)
Lemma handleSubmitFeedback_pending_list_witness :
  exists x,
    In (Some "order-1", x)
       (r_orders (snd (@handleSubmitFeedback latin1Platform (serverTimestamp okEnv)
                         (dupStore, fullReview)))).
Proof.
  apply (@handleSubmitFeedback_pending_list latin1Platform (serverTimestamp okEnv)
           dupStore fullReview "order-1" existingOrder existingOrder eq_refl).
  - discriminate.
  - discriminate.
  - discriminate.
  - reflexivity.
  - reflexivity.
  - apply NoDup_singleton.
  - right. left. reflexivity.
Defined.

(** The same submission: two correction entries are appended. *)
Lemma handleSubmitFeedback_appends_corrections_witness :
  exists d',
    getDoc (orders (fst (@handleSubmitFeedback latin1Platform (serverTimestamp okEnv)
                           (dupStore, fullReview)))) "order-1" = Some d'
    /\ o_correctionHistory d' = Some (List.map correctionOf (feedback fullReview)).
Proof.
  destruct (@handleSubmitFeedback_appends_corrections latin1Platform
              (serverTimestamp okEnv) dupStore fullReview "order-1"
              existingOrder existingOrder eq_refl)
    as [Hdone _].
  - discriminate.
  - discriminate.
  - discriminate.
  - reflexivity.
  - destruct (Hdone eq_refl) as [(d' & Hg & Hc & _) _].
    exists d'. split; [exact Hg | exact Hc].
Defined.

(** A review with no feedback items. *)
Lemma handleSubmitFeedback_guards_witness :
  fst (@handleSubmitFeedback latin1Platform (serverTimestamp okEnv)
         (dupStore, reviewOf [])) = dupStore.
Proof.
  apply (@handleSubmitFeedback_guards latin1Platform (serverTimestamp okEnv)
           dupStore (reviewOf [])).
  right. right. reflexivity.
Defined.

Section AcceptProperties.
Context `{Platform}.

Lemma handleAcceptImprovedPlan_ok (ts : Timestamp) (st : Store) (rv : Review)
  (id : DocId) (sel d : OrderDoc) (plan : jsstring) :
  selectedOrder rv = Some (Some id, sel) ->
  id <> EmptyString ->
  improvedCarePlan rv = Some plan ->
  plan <> [] ->
  forallb definedItem (feedback rv) = true ->
  getDoc (orders st) id = Some d ->
  fst (handleAcceptImprovedPlan ts (st, rv))
  = setOrders (patch (orders st) id (acceptPatch ts plan (feedback rv))) st
  /\ r_orders (snd (handleAcceptImprovedPlan ts (st, rv)))
     = pendingQuery
         (setOrders (patch (orders st) id (acceptPatch ts plan (feedback rv))) st)
  /\ improvedCarePlan (snd (handleAcceptImprovedPlan ts (st, rv))) = None
  /\ showImprovedPlan (snd (handleAcceptImprovedPlan ts (st, rv))) = false
  /\ feedback (snd (handleAcceptImprovedPlan ts (st, rv))) = [].
Proof.
  intros Hsel Hid Hplan Hne Hdef Hget.
  unfold handleAcceptImprovedPlan, selectedId. rewrite Hsel, Hplan.
  destruct id as [| a r]; [contradiction |].
  destruct plan as [| c p]; [contradiction |].
  unfold updateDoc. rewrite Hdef, Hget. repeat split.
Qed.

Lemma handleAcceptImprovedPlan_refused (ts : Timestamp) (st : Store) (rv : Review)
  (id : DocId) (sel : OrderDoc) (plan : jsstring) :
  selectedOrder rv = Some (Some id, sel) ->
  id <> EmptyString ->
  improvedCarePlan rv = Some plan ->
  plan <> [] ->
  forallb definedItem (feedback rv) = false ->
  handleAcceptImprovedPlan ts (st, rv)
  = (st, r_setLoading false
           (r_alert (AlertAcceptError ("Error: " +:+ "Function updateDoc() called with invalid data. Unsupported field value: undefined")) rv)).
Proof.
  intros Hsel Hid Hplan Hne Hdef.
  unfold handleAcceptImprovedPlan, selectedId. rewrite Hsel, Hplan.
  destruct id as [| a r]; [contradiction |].
  destruct plan as [| c p]; [contradiction |].
  unfold updateDoc. rewrite Hdef. reflexivity.
Qed.

(** X23: accepting an improved plan for a selected, stored order, when no
    feedback item holds an undefined field, stores that plan as the order's
    care plan, sets the status to approved, stores the feedback items, leaves
    update history, correction history and identity fields as stored,
    discards the candidate plan, and, with unique order ids, drops the order
    from the refreshed pending list.  When an item holds an undefined field
    the write is refused: the store is left as it was, the candidate plan and
    the feedback list are kept, and an error is shown. *)
Theorem handleAcceptImprovedPlan_persists
  (ts : Timestamp) (st : Store) (rv : Review) (id : DocId) (sel d : OrderDoc)
  (plan : jsstring) :
  selectedOrder rv = Some (Some id, sel) ->
  id <> EmptyString ->
  improvedCarePlan rv = Some plan ->
  plan <> [] ->
  getDoc (orders st) id = Some d ->
  ids_unique (orders st) ->
  (forallb definedItem (feedback rv) = true ->
  (exists d',
     getDoc (orders (fst (handleAcceptImprovedPlan ts (st, rv)))) id = Some d'
     /\ o_carePlan d' = Some plan
     /\ o_approvalStatus d' = Some approved_status
     /\ o_pharmacistFeedback d' = Some (feedback rv)
     /\ o_history d' = o_history d
     /\ o_correctionHistory d' = o_correctionHistory d
     /\ identityOf d' = identityOf d)
  /\ Forall (fun o => fst o <> Some id)
       (r_orders (snd (handleAcceptImprovedPlan ts (st, rv))))
  /\ improvedCarePlan (snd (handleAcceptImprovedPlan ts (st, rv))) = None)
  /\ (forallb definedItem (feedback rv) = false ->
      fst (handleAcceptImprovedPlan ts (st, rv)) = st
      /\ improvedCarePlan (snd (handleAcceptImprovedPlan ts (st, rv))) = Some plan
      /\ feedback (snd (handleAcceptImprovedPlan ts (st, rv))) = feedback rv
      /\ r_alerts (snd (handleAcceptImprovedPlan ts (st, rv)))
         = r_alerts rv ++ [AlertAcceptError ("Error: " +:+ "Function updateDoc() called with invalid data. Unsupported field value: undefined")]).
Proof.
  intros Hsel Hid Hplan Hne Hget Hu. split.
  - intros Hdef.
    destruct (handleAcceptImprovedPlan_ok ts st rv id sel d plan
                Hsel Hid Hplan Hne Hdef Hget) as (Hst & Hro & Himp & _).
    rewrite Hst, Hro, Himp. cbn [orders setOrders].
    split; [| split; [| reflexivity]].
    + eexists. split; [rewrite getDoc_patch_eq, Hget; reflexivity |]. repeat split.
    + apply List.Forall_forall. intros [oid x] Hin Heq. cbn in Heq. subst oid.
      apply In_pendingQuery in Hin as [Hin Hna]. cbn [orders setOrders] in Hin.
      apply (In_patch_unique _ _ _ d x Hu Hget) in Hin. subst x.
      unfold notApproved in Hna. cbn in Hna. discriminate.
  - intros Hdef.
    rewrite (handleAcceptImprovedPlan_refused ts st rv id sel plan
               Hsel Hid Hplan Hne Hdef).
    cbn [fst snd r_setLoading r_alert improvedCarePlan feedback r_alerts].
    repeat split. exact Hplan.
Qed.

(** X24: regenerating a plan makes no call to the store.  When the backend
    returns a plan it is held as the candidate, and accepting it afterwards
    stores exactly that plan with status approved if no feedback item holds
    an undefined field, and leaves the store as it was otherwise; when
    regeneration fails the review state is left as it was and an alert names
    the error. *)
Theorem regenerate_then_accept
  (reply : HttpReply) (ts : Timestamp) (st : Store) (rv : Review)
  (id : DocId) (sel d : OrderDoc) :
  selectedOrder rv = Some (Some id, sel) ->
  id <> EmptyString ->
  feedback rv <> [] ->
  getDoc (orders st) id = Some d ->
  (forall plan,
     regenerateCarePlanWithFeedback reply = Ok plan ->
     handleRegenerateCarePlan reply rv = (r_setImproved (Some plan) true rv, None)
     /\ (forallb definedItem (feedback rv) = true ->
         exists d',
           getDoc (orders (fst (handleAcceptImprovedPlan ts
                                  (st, fst (handleRegenerateCarePlan reply rv))))) id
           = Some d'
           /\ o_carePlan d' = Some plan
           /\ o_approvalStatus d' = Some approved_status)
     /\ (forallb definedItem (feedback rv) = false ->
         fst (handleAcceptImprovedPlan ts
                (st, fst (handleRegenerateCarePlan reply rv))) = st))
  /\ (forall m,
        regenerateCarePlanWithFeedback reply = Throw m ->
        handleRegenerateCarePlan reply rv
        = (rv, Some ("Error regenerating care plan: " +:+ m))).
Proof.
  intros Hsel Hid Hfb Hget.
  assert (Hsid : selectedId rv = Some id).
  { unfold selectedId. rewrite Hsel. destruct id; [contradiction | reflexivity]. }
  assert (Hlen : (length (feedback rv) =? 0)%nat = false).
  { destruct (feedback rv); [contradiction | reflexivity]. }
  split.
  - intros plan Hre.
    assert (Hr : handleRegenerateCarePlan reply rv
                 = (r_setImproved (Some plan) true rv, None)).
    { unfold handleRegenerateCarePlan. rewrite Hsid, Hlen, Hre. reflexivity. }
    split; [exact Hr |]. rewrite Hr. cbn [fst].
    assert (Hne : plan <> []).
    { destruct reply as [[[| c r] |] | status e | | m0]; cbn in Hre; try discriminate;
        [injection Hre as <-; discriminate |].
      destruct (_ || _)%bool; [discriminate | destruct (_ =? _)%Z; discriminate]. }
    split.
    + intros Hdef.
      destruct (handleAcceptImprovedPlan_ok ts st (r_setImproved (Some plan) true rv)
                  id sel d plan Hsel Hid eq_refl Hne Hdef Hget) as (Hst & _).
      rewrite Hst. cbn [orders setOrders]. eexists.
      split; [rewrite getDoc_patch_eq, Hget; reflexivity |]. split; reflexivity.
    + intros Hdef.
      rewrite (handleAcceptImprovedPlan_refused ts st (r_setImproved (Some plan) true rv)
                 id sel plan Hsel Hid eq_refl Hne Hdef).
      reflexivity.
  - intros m Hre. unfold handleRegenerateCarePlan. rewrite Hsid, Hlen, Hre. reflexivity.
Qed.

End AcceptProperties.

(** Accepting the improved plan held for the stored order. *)
Lemma handleAcceptImprovedPlan_persists_witness :
  exists d',
    getDoc (orders (fst (@handleAcceptImprovedPlan latin1Platform (serverTimestamp okEnv)
                           (dupStore, improvedReview)))) "order-1" = Some d'
    /\ o_carePlan d' = Some (js "IMPROVED PLAN")
    /\ o_approvalStatus d' = Some approved_status.
Proof.
  destruct (@handleAcceptImprovedPlan_persists latin1Platform (serverTimestamp okEnv)
              dupStore improvedReview "order-1" existingOrder existingOrder
              (js "IMPROVED PLAN") eq_refl)
    as [Hdone _].
  - discriminate.
  - reflexivity.
  - discriminate.
  - reflexivity.
  - apply NoDup_singleton.
  - destruct (Hdone eq_refl) as [(d' & Hg & Hc & Hs & _) _].
    exists d'. split; [exact Hg |]. split; [exact Hc | exact Hs].
Defined.

(** The backend returns a plan for the review of the stored order. *)
Lemma regenerate_then_accept_witness :
  exists d',
    getDoc (orders (fst (@handleAcceptImprovedPlan latin1Platform (serverTimestamp okEnv)
                           (dupStore,
                            fst (handleRegenerateCarePlan (Response (Some planText))
                                   fullReview))))) "order-1" = Some d'
    /\ o_carePlan d' = Some planText.
Proof.
  destruct (@regenerate_then_accept latin1Platform (Response (Some planText))
              (serverTimestamp okEnv) dupStore fullReview "order-1"
              existingOrder existingOrder eq_refl) as [Hok _].
  - discriminate.
  - discriminate.
  - reflexivity.
  - destruct (Hok planText eq_refl) as (_ & Hacc & _).
    destruct (Hacc eq_refl) as (d' & Hg & Hc & _).
    exists d'. split; [exact Hg | exact Hc].
Defined.

Section ExportProperties.
Context `{Platform}.

(** ** Further properties: export *)

Lemma localMidnight_le_iff (day t : Z) :
  (localMidnight day <= t)%Z <-> (day <= localDayOf t)%Z.
Proof.
  unfold localMidnight, localDayOf, msPerDay. split.
  - intros Hle. apply Z.div_le_lower_bound; lia.
  - intros Hle.
    pose proof (Z.mul_div_le (t + tzOffsetMs) 86400000 ltac:(lia)) as Hd.
    nia.
Qed.

Lemma localLastSecond_ge (day t : Z) :
  (t <= localLastSecond day)%Z -> (localDayOf t <= day)%Z.
Proof.
  unfold localLastSecond, localMidnight, localDayOf, msPerDay. intros Hle.
  assert (Hlt : ((t + tzOffsetMs) / 86400000 < day + 1)%Z); [| lia].
  apply Z.div_lt_upper_bound; lia.
Qed.

Lemma In_exportSelection (st : Store) (ex : ExportForm) x :
  In x (exportSelection st ex)
  <-> In x (orders st)
      /\ startOk ex (snd x) = true /\ endOk ex (snd x) = true
      /\ medicationOk ex (snd x) = true.
Proof.
  rewrite exportSelection_filter, filter_In, !andb_true_iff. tauto.
Qed.

(** X25: every exported order is an order of the store; when a start date
    is set the order has a creation timestamp that falls on that day or a
    later one, local time, and every stored order passes the start filter
    exactly when it does; when an end date is set the order has a creation
    timestamp that falls on that day or an earlier one. *)
Theorem exportSelection_date_bounds (st : Store) (ex : ExportForm)
  (x : DocId * OrderDoc) :
  In x (exportSelection st ex) ->
  In x (orders st)
  /\ (forall day, startDate ex = Some day ->
        exists t, orderDate (snd x) = Some t /\ (day <= localDayOf t)%Z)
  /\ (forall day, endDate ex = Some day ->
        exists t, orderDate (snd x) = Some t /\ (localDayOf t <= day)%Z)
  /\ (forall o day, startDate ex = Some day ->
        (startOk ex o = true
         <-> exists t, orderDate o = Some t /\ (day <= localDayOf t)%Z)).
Proof.
  intros Hin. apply In_exportSelection in Hin as (Hin & Hs & He & _).
  split; [exact Hin |].
  assert (Hstart : forall o day, startDate ex = Some day ->
            (startOk ex o = true
             <-> exists t, orderDate o = Some t /\ (day <= localDayOf t)%Z)).
  { intros o day Hd. unfold startOk, onOrAfter. rewrite Hd.
    destruct (orderDate o) as [t |].
    - rewrite Z.leb_le, localMidnight_le_iff. split; [eauto |].
      intros (t' & [= <-] & Hle). exact Hle.
    - split; [discriminate | intros (t & Ht & _); discriminate]. }
  split; [| split; [| exact Hstart]].
  - intros day Hd. apply (Hstart _ _ Hd), Hs.
  - intros day Hd. unfold endOk, onOrBefore in He. rewrite Hd in He.
    destruct (orderDate (snd x)) as [t |]; [| discriminate].
    exists t. split; [reflexivity |]. apply localLastSecond_ge, Z.leb_le, He.
Qed.

(** X26: with no date set and a medication filter that is empty or white
    space only, every order of the store is exported, in the order of the
    store; and whatever the filters, the export keeps the order of the store
    and drops nothing that passes all three filters. *)
Theorem exportSelection_no_filter (st : Store) (ex : ExportForm) :
  (startDate ex = None -> endDate ex = None -> trim (medFilter ex) = [] ->
   exportSelection st ex = orders st)
  /\ exportSelection st ex
     = List.filter (fun x => startOk ex (snd x) && endOk ex (snd x)
                             && medicationOk ex (snd x)) (orders st).
Proof.
  split; [| apply exportSelection_filter].
  intros Hs He Hm. unfold exportSelection, byStart, byEnd, byMedication.
  rewrite Hs, He, Hm. cbn. rewrite andb_false_r. reflexivity.
Qed.

Lemma distinct_bounds (l : list jsstring) :
  (distinct l <= length l)%nat /\ (l <> [] -> (1 <= distinct l)%nat).
Proof.
  unfold distinct. induction l as [| x l [IH1 IH2]]; cbn [remove_dups length].
  - split; [lia | congruence].
  - destruct (decide_rel elem_of x l) as [Hin | Hni]; cbn [length].
    + split; [lia |]. intros _. apply IH2. intros ->. inversion Hin.
    + split; lia.
Qed.

(** X27: [handleExport] reports that no data was found exactly when no
    order passes the filters; otherwise it exports the selected rows, counts
    them, and counts at least one and at most that many distinct patients,
    providers and medications. *)
Theorem handleExport_stats (st : Store) (ex : ExportForm) :
  match handleExport st ex with
  | NoDataFound dateFilter medicationFilter =>
      exportSelection st ex = []
      /\ (dateFilter = true <-> startDate ex <> None \/ endDate ex <> None)
      /\ medicationFilter = negb (falsy (medFilter ex))
  | Exported stats rows =>
      rows = exportSelection st ex /\ rows <> []
      /\ s_orders stats = length rows
      /\ (1 <= s_patients stats <= s_orders stats)%nat
      /\ (1 <= s_providers stats <= s_orders stats)%nat
      /\ (1 <= s_medications stats <= s_orders stats)%nat
  end.
Proof.
  unfold handleExport. destruct (exportSelection st ex) as [| x r] eqn:E.
  - split; [reflexivity |]. split; [| reflexivity].
    destruct (startDate ex), (endDate ex); cbn; split;
      try discriminate; try reflexivity; try (intros _; left; discriminate);
      try (intros _; right; discriminate).
    intros [Hn | Hn]; congruence.
  - set (sel := x :: r).
    split; [reflexivity |]. split; [discriminate |]. split; [reflexivity |].
    cbn [s_patients s_providers s_medications s_orders].
    assert (Hb : forall f : DocId * OrderDoc -> jsstring,
              (1 <= distinct (List.map f sel) <= length sel)%nat).
    { intros f. destruct (distinct_bounds (List.map f sel)) as [Hle Hge].
      rewrite length_map in Hle. split; [apply Hge; discriminate | exact Hle]. }
    repeat split; apply Hb.
Qed.

End ExportProperties.

(** The noon order is exported for the last day of 2023. *)
Lemma exportSelection_date_bounds_witness :
  exists t,
    @orderDate ("order-noon", noonOrder).2 = Some t
    /\ (@localDayOf latin1Platform t <= 19722)%Z.
Proof.
  destruct (@exportSelection_date_bounds latin1Platform yearEndStore yearEndExport
              ("order-noon", noonOrder)) as (_ & _ & He & _).
  - vm_compute. left. reflexivity.
  - apply (He 19722%Z). reflexivity.
Defined.

Section ResubmissionProperties.
Context `{Platform}.

(** ** Further properties: a first submission, then the same form again *)

Lemma collectErrors_fields_not_empty (fd : FormData) :
  collectErrors fd = ∅ ->
  Forall (fun field => field_value fd field <> []) requiredFields.
Proof.
  rewrite collectErrors_empty_iff. apply List.Forall_impl.
  intros f Hv Hn. apply (validateField_not_blank _ _ Hv). rewrite Hn. reflexivity.
Qed.

(** X28: after a first valid submission to an empty store has succeeded,
    checking the same form again finds no mismatch of patient or provider:
    the only warning is the duplicate warning, of severity warning, dated by
    the server timestamp of the stored order, and submit would prompt for
    that order. *)
Theorem resubmission_is_duplicate_only
  (env : Env) (fd : FormData) (plan : jsstring) :
  collectErrors fd = ∅ ->
  generateCarePlan (backend env fd) = Ok plan ->
  computeWarnings (fst (submitOrder env (freshStore, initialUI fd))) fd
  = Ok [mkWarning Worder Swarning
          (msgDuplicate (toLocaleDateString (toMillis (serverTimestamp env))))]
  /\ checkForExactDuplicate (fst (submitOrder env (freshStore, initialUI fd))) fd
     = Some (newOrderId env, newOrderDoc env fd plan).
Proof.
  intros Hv Hg.
  destruct (collectErrors_shapes fd Hv) as (Hm & Hn & _ & _).
  pose proof (collectErrors_fields_not_empty fd Hv) as Hne. unfold requiredFields in Hne.
  repeat match goal with
         | H : Forall _ (_ :: _) |- _ => inversion H; subst; clear H
         end.
  cbn [field_value] in *.
  assert (Hst : fst (submitOrder env (freshStore, initialUI fd))
                = {| orders := [(newOrderId env, newOrderDoc env fd plan)];
                     patients :=
                       [(newPatientId env,
                         {| mrn := patientMRN fd; firstName := patientFirstName fd;
                            lastName := patientLastName fd;
                            lastUpdated := serverTimestamp env; totalOrders := 1 |})];
                     providers :=
                       [(newProviderId env,
                         {| p_name := Some (referringProvider fd);
                            p_npi := Some (providerNPI fd);
                            p_firstOrderDate := Some (serverTimestamp env);
                            p_orderCount := Some 1%Z |})] |}).
  { unfold submitOrder. cbn [formData initialUI setLoading]. rewrite Hg. reflexivity. }
  rewrite Hst. split.
  - unfold computeWarnings, patientChecks, orderCheck, providerChecks, orderQuery, query,
      sameDiagnosisAndNPI, dateStrOf.
    cbn [orders providers List.filter snd fst newOrderDoc o_patientMRN o_patientFirstName
         o_patientLastName o_medicationName o_primaryDiagnosis o_providerNPI o_timestamp
         p_name p_npi optstr_eqb].
    rewrite !truthy_ne by assumption. rewrite Hm, Hn, !jsstring_eqb_refl.
    cbn [Nat.eqb andb orb negb List.find fst snd newOrderDoc o_primaryDiagnosis
         o_providerNPI o_patientMRN o_patientFirstName o_patientLastName o_timestamp
         p_name p_npi app List.filter optstr_eqb].
    rewrite !jsstring_eqb_refl.
    cbn [Nat.eqb andb orb negb List.find fst snd newOrderDoc o_primaryDiagnosis
         o_providerNPI o_patientMRN o_patientFirstName o_patientLastName o_timestamp
         p_name p_npi app mbind result_bind].
    reflexivity.
  - unfold checkForExactDuplicate, orderQuery, query, sameDiagnosisAndNPI.
    cbn [orders List.filter snd newOrderDoc o_patientMRN o_medicationName].
    rewrite !jsstring_eqb_refl.
    cbn [andb List.find snd newOrderDoc o_primaryDiagnosis o_providerNPI].
    rewrite !jsstring_eqb_refl. reflexivity.
Qed.

End ResubmissionProperties.

(** The valid form, submitted and checked again. *)
Lemma resubmission_is_duplicate_only_witness :
  @computeWarnings latin1Platform
    (fst (submitOrder okEnv (freshStore, initialUI validForm))) validForm
  = Ok [mkWarning Worder Swarning
          (msgDuplicate (@toLocaleDateString latin1Platform
                           (toMillis (serverTimestamp okEnv))))].
Proof.
  apply (@resubmission_is_duplicate_only latin1Platform okEnv validForm planText).
  - vm_compute. reflexivity.
  - reflexivity.
Defined.

(** ** The printed care plan *)

Lemma pdfBody_layout (pageHeight10 : Z) (first last mrnv : jsstring)
  (lines : list jsstring) :
  (580 <= pageHeight10)%Z ->
  forall (y : Z) (page : nat),
    (280 <= y)%Z ->
    let r := pdfBody pageHeight10 first last mrnv lines y page in
    bodyLines (fst (fst r)) = lines
    /\ List.Forall (fun op => (pdfMargin <= opY op <= pageHeight10 - 300)%Z
                              /\ (page <= opPage op <= snd r)%nat) (fst (fst r))
    /\ spaced page (y - 50) (fst (fst r)) = true
    /\ (page <= snd r)%nat.
Proof.
  intros HH. induction lines as [| line rest IH]; intros y page Hy.
  - cbn. repeat split; [constructor | lia].
  - cbn [pdfBody]. unfold pdfMargin in *.
    destruct (pageHeight10 - 200 - 100 <? y)%Z eqn:E.
    + apply Z.ltb_lt in E.
      specialize (IH (200 + 80 + 50)%Z (S page) ltac:(lia)).
      destruct (pdfBody pageHeight10 first last mrnv rest (200 + 80 + 50) (S page))
        as [[ops yEnd] pgEnd].
      cbn [fst snd] in IH |- *. destruct IH as (Hl & Hf & Hs & Hp).
      cbn [app bodyLines flat_map Z.eqb Pos.eqb]. fold (bodyLines ops). rewrite Hl.
      split; [reflexivity |]. split; [| split; [| lia]].
      * constructor; [cbn [opY opPage]; lia |].
        constructor; [cbn [opY opPage]; lia |].
        eapply List.Forall_impl; [| exact Hf]. cbn beta. intros op. lia.
      * cbn [spaced opPage opY]. rewrite !Nat.eqb_refl.
        replace (200 + 80 + 50 - 50)%Z with (200 + 80)%Z in Hs by lia. rewrite Hs.
        cbn. rewrite orb_true_r. reflexivity.
    + apply Z.ltb_ge in E.
      specialize (IH (y + 50)%Z page ltac:(lia)).
      destruct (pdfBody pageHeight10 first last mrnv rest (y + 50) page)
        as [[ops yEnd] pgEnd].
      cbn [fst snd] in IH |- *. destruct IH as (Hl & Hf & Hs & Hp).
      cbn [app bodyLines flat_map Z.eqb Pos.eqb]. fold (bodyLines ops). rewrite Hl.
      split; [reflexivity |]. split; [| split; [| lia]].
      * constructor; [cbn [opY opPage]; lia |]. exact Hf.
      * cbn [spaced opPage opY]. rewrite Nat.eqb_refl.
        replace (y + 50 - 50)%Z with y in Hs by lia. rewrite Hs.
        replace (y - 50 + 50 <=? y)%Z with true by (symmetry; apply Z.leb_le; lia).
        reflexivity.
Qed.

(** X29: on a page at least 58 mm high, the document of [downloadCarePlan]
    is the front matter, the body and the footers; the size-9 texts of the
    body are the lines of the plan in order; every text of the body lies
    between the margin and 30 mm above the bottom edge, hence above the
    footers, on a page that gets a footer; successive texts of the body move
    down the page by at least 5 mm or open the next page at the margin; and
    the footers are one per page, in page order. *)
Theorem downloadCarePlan_layout
  (pageHeight10 : Z) (splitTextToSize : jsstring -> list jsstring)
  (isoDate dateText carePlanText first last mrnv medication diagnosis : jsstring) :
  (580 <= pageHeight10)%Z ->
  exists (body : list PdfOp) (totalPages : nat),
    snd (downloadCarePlan pageHeight10 splitTextToSize isoDate dateText
           carePlanText first last mrnv medication diagnosis)
    = pdfFront dateText first last mrnv medication diagnosis ++ body
      ++ pdfFooters pageHeight10 totalPages
    /\ bodyLines body = splitTextToSize carePlanText
    /\ List.Forall (fun op => (pdfMargin <= opY op <= pageHeight10 - 300)%Z
                              /\ (1 <= opPage op <= totalPages)%nat) body
    /\ spaced 1 750 body = true
    /\ List.map opPage (pdfFooters pageHeight10 totalPages) = seq 1 totalPages
    /\ List.Forall (fun op => opY op = (pageHeight10 - 100)%Z)
         (pdfFooters pageHeight10 totalPages)
    /\ (1 <= totalPages)%nat.
Proof.
  intros HH. unfold downloadCarePlan.
  pose proof (pdfBody_layout pageHeight10 first last mrnv
                (splitTextToSize carePlanText) HH 800 1 ltac:(lia)) as Hb.
  destruct (pdfBody pageHeight10 first last mrnv (splitTextToSize carePlanText) 800 1)
    as [[body yEnd] totalPages].
  cbn [fst snd] in Hb |- *. destruct Hb as (Hl & Hf & Hs & Hp).
  exists body, totalPages.
  split; [reflexivity |]. split; [exact Hl |]. split; [exact Hf |].
  split; [exact Hs |]. split; [| split; [| exact Hp]].
  - unfold pdfFooters. rewrite List.map_map. cbn [opPage]. apply List.map_id.
  - unfold pdfFooters. induction (seq 1 totalPages) as [| i r IH]; constructor;
      [reflexivity | exact IH].
Qed.

Lemma downloadCarePlan_layout_witness :
  exists (body : list PdfOp) (totalPages : nat),
    snd (downloadCarePlan 2794 (fun text => [text; text]) (js "2024-03-05")
           (js "3/5/2024") (js "GOALS: none") (js "Ana") (js "Ng") (js "123456")
           (js "IVIG") (js "G70.00"))
    = pdfFront (js "3/5/2024") (js "Ana") (js "Ng") (js "123456") (js "IVIG")
        (js "G70.00") ++ body ++ pdfFooters 2794 totalPages
    /\ bodyLines body = [js "GOALS: none"; js "GOALS: none"]
    /\ List.Forall (fun op => (pdfMargin <= opY op <= 2794 - 300)%Z
                              /\ (1 <= opPage op <= totalPages)%nat) body
    /\ spaced 1 750 body = true
    /\ List.map opPage (pdfFooters 2794 totalPages) = seq 1 totalPages
    /\ List.Forall (fun op => opY op = (2794 - 100)%Z) (pdfFooters 2794 totalPages)
    /\ (1 <= totalPages)%nat.
Proof.
  apply (downloadCarePlan_layout 2794 (fun text => [text; text])). lia.
Defined.

Lemma pdfBody_letter_pages (first last mrnv : jsstring) (lines : list jsstring) :
  forall (y : Z) (page : nat),
    (280 <= y)%Z ->
    Z.of_nat (snd (pdfBody letterHeight10 first last mrnv lines y page))
    = (Z.of_nat page
       + (Z.max 0 (Z.of_nat (length lines)
                   - (if (2494 <? y)%Z then 0 else (2494 - y) / 50 + 1)) + 44) / 45)%Z.
Proof.
  unfold letterHeight10.
  induction lines as [| line rest IH]; intros y page Hy.
  - cbn [pdfBody snd length]. destruct (2494 <? y)%Z eqn:E;
      [apply Z.ltb_lt in E | apply Z.ltb_ge in E]; cbv iota; Z.to_euclidean_division_equations; lia.
  - cbn [pdfBody length]. unfold pdfMargin.
    change (2794 - 200 - 100)%Z with 2494%Z.
    destruct (2494 <? y)%Z eqn:E.
    + specialize (IH (200 + 80 + 50)%Z (S page) ltac:(lia)).
      destruct (pdfBody 2794 first last mrnv rest (200 + 80 + 50) (S page))
        as [[ops yEnd] pgEnd].
      cbn [snd] in IH |- *. rewrite IH.
      change (2494 <? 200 + 80 + 50)%Z with false. cbv iota.
      change ((2494 - (200 + 80 + 50)) / 50 + 1)%Z with 44%Z.
      Z.to_euclidean_division_equations; lia.
    + apply Z.ltb_ge in E.
      specialize (IH (y + 50)%Z page ltac:(lia)).
      destruct (pdfBody 2794 first last mrnv rest (y + 50) page)
        as [[ops yEnd] pgEnd].
      cbn [snd] in IH |- *. rewrite IH.
      destruct (2494 <? y + 50)%Z eqn:E2;
        [apply Z.ltb_lt in E2 | apply Z.ltb_ge in E2]; cbv iota; Z.to_euclidean_division_equations; lia.
Qed.

(** X30: on the letter format a plan that splits into [n] lines is printed
    on [letterPages n] pages, 34 lines on the first and 45 on each page
    after it, and the document ends with that many footers. *)
Theorem downloadCarePlan_letter_pages
  (splitTextToSize : jsstring -> list jsstring)
  (isoDate dateText carePlanText first last mrnv medication diagnosis : jsstring) :
  exists body : list PdfOp,
    snd (downloadCarePlan letterHeight10 splitTextToSize isoDate dateText
           carePlanText first last mrnv medication diagnosis)
    = pdfFront dateText first last mrnv medication diagnosis ++ body
      ++ pdfFooters letterHeight10 (letterPages (length (splitTextToSize carePlanText)))
    /\ bodyLines body = splitTextToSize carePlanText
    /\ length (pdfFooters letterHeight10
                 (letterPages (length (splitTextToSize carePlanText))))
       = letterPages (length (splitTextToSize carePlanText)).
Proof.
  unfold downloadCarePlan.
  pose proof (pdfBody_letter_pages first last mrnv (splitTextToSize carePlanText)
                800 1 ltac:(lia)) as Hp.
  pose proof (pdfBody_layout letterHeight10 first last mrnv
                (splitTextToSize carePlanText) ltac:(unfold letterHeight10; lia)
                800 1 ltac:(lia)) as Hb.
  destruct (pdfBody letterHeight10 first last mrnv (splitTextToSize carePlanText) 800 1)
    as [[body yEnd] totalPages].
  cbn [fst snd] in Hp, Hb |- *. destruct Hb as (Hl & _).
  assert (totalPages = letterPages (length (splitTextToSize carePlanText))) as ->.
  { unfold letterPages. change (2494 <? 800)%Z with false in Hp. cbv iota in Hp.
    change ((2494 - 800) / 50 + 1)%Z with 34%Z in Hp.
    apply Nat2Z.inj. rewrite Hp, Nat2Z.inj_add, Nat2Z.inj_div.
    replace (Z.of_nat (length (splitTextToSize carePlanText) - 34 + 44))
      with (Z.max 0 (Z.of_nat (length (splitTextToSize carePlanText)) - 34) + 44)%Z
      by lia.
    reflexivity. }
  exists body. split; [reflexivity |]. split; [exact Hl |].
  unfold pdfFooters. rewrite List.length_map, List.length_seq. reflexivity.
Qed.
